(** * Parametric curve fitting: model, L1 closest-point loss, optimizer, loader

    A shallow embedding of the Python sources

      - [ParametricModel.py]  (class [ParametricModel])
      - [LossFunction.py]     (class [L1Loss])
      - [Optimizer.py]        (class [Optimizer])
      - [Data_Loader.py]      (class [DataLoader])
      - [CurveFitting.py]     (class [CurveFitting], method [run])

    Modelling conventions.

      - A Python/numpy [float] is read in two ways. In the modules [np],
        [ParametricModel] and [L1Loss] it is a real number of [R]: what is
        proved of them follows the operations one by one and does not
        rest on how they round. Module [Binary64] reads the model and the
        loss once more over IEEE 754 binary64 numbers, with rounding,
        overflow and NaN: the properties of the loss that depend on
        these are stated there.
      - A one-dimensional [np.ndarray] of floats is a [list R]; numpy's
        elementwise operators are [fmap] and [zip_with].
      - A Python exception is a value of [exn]; a call that may raise
        returns [result A = exn + A] and [let*] is the sequencing of
        statements that stops at the first exception.
      - Mutable objects (the history list and the step dicts of the
        optimizer) live in an explicit heap addressed by locations, so
        that aliasing between the internal history and what [get_history]
        hands out is visible.
      - [scipy.optimize.differential_evolution], [scipy.optimize.minimize]
        and [pandas.read_csv] are libraries outside the repository: they
        are section variables.
      - Console output ([print]) is not modelled. *)

From Stdlib Require Import Reals Lra.
From Stdlib Require Floats Uint63.
From stdpp Require Import base list strings gmap.

(** ** Python exceptions and results *)

Inductive exn : Type :=
| ZeroDivisionError
| ValueError
| IndexError
| FileNotFoundError
| EmptyDataError
| KeyError
| OtherError.

Definition result (A : Type) : Type := (exn + A)%type.

Definition ret {A} (a : A) : result A := inr a.
Definition raise {A} (e : exn) : result A := inl e.

Definition bind {A B} (m : result A) (k : A -> result B) : result B :=
  match m with
  | inl e => inl e
  | inr a => k a
  end.

Notation "'let*' x ':=' m 'in' k" := (bind m (fun x => k))
  (at level 10, x pattern, m at level 100, k at level 200).

(** ** numpy arrays of floats *)

Module np.

Abbreviation ndarray := (list R).

(** [np.deg2rad(d)] *)
Definition deg2rad (d : R) : R := (d * (PI / 180))%R.

(** [np.abs(a)], [np.exp(a)], [np.sin(a)] on an array *)
Definition abs (a : ndarray) : ndarray := Rabs <$> a.
Definition exp (a : ndarray) : ndarray := Rtrigo_def.exp <$> a.
Definition sin (a : ndarray) : ndarray := Rtrigo_def.sin <$> a.

(** scalar-with-array operators: [k * a], [a * k], [a + k], [k + a], [a - k] *)
Definition smul (k : R) (a : ndarray) : ndarray := (fun v => k * v)%R <$> a.
Definition muls (a : ndarray) (k : R) : ndarray := (fun v => v * k)%R <$> a.
Definition adds (a : ndarray) (k : R) : ndarray := (fun v => v + k)%R <$> a.
Definition sadd (k : R) (a : ndarray) : ndarray := (fun v => k + v)%R <$> a.
Definition subs (a : ndarray) (k : R) : ndarray := (fun v => v - k)%R <$> a.

(** array-with-array operators [a + b], [a - b], [a * b]; every use in the
    sources combines arrays derived from one array, hence of one shape. *)
Definition add (a b : ndarray) : ndarray := zip_with Rplus a b.
Definition sub (a b : ndarray) : ndarray := zip_with Rminus a b.
Definition mul (a b : ndarray) : ndarray := zip_with Rmult a b.

(** [np.min(a)]: raises [ValueError] on a zero-size array. *)
Definition min (a : ndarray) : result R :=
  match a with
  | [] => raise ValueError
  | v :: rest => ret (fold_left Rmin rest v)
  end.

(** [a.max()], [a.mean()] ([mean] is only reached on non-empty arrays) *)
Definition max (a : ndarray) : result R :=
  match a with
  | [] => raise ValueError
  | v :: rest => ret (fold_left Rmax rest v)
  end.
Definition mean (a : ndarray) : R :=
  (fold_left Rplus a 0 / INR (length a))%R.

(** [np.linspace(start, stop, num)] *)
Definition linspace (start stop : R) (num : nat) : ndarray :=
  match num with
  | 0 => []
  | 1 => [start]
  | _ => (fun i => start + INR i * ((stop - start) / INR (num - 1)))%R
           <$> seq 0 num
  end.

(** [a[i]] for [0 <= i]: raises [IndexError] out of range. *)
Definition getitem (a : ndarray) (i : nat) : result R :=
  match a !! i with
  | Some v => ret v
  | None => raise IndexError
  end.

End np.

(** Python's [a <= b] on floats. *)
Definition Rleb (a b : R) : bool := if Rle_dec a b then true else false.

(** ** ParametricModel.py *)

Module ParametricModel.

(** The instance attributes set by [__init__]. *)
Record t : Type := mk { y_offset : R; frequency : R }.

(** [ParametricModel()] with the default arguments of [__init__]. *)
Definition default : t := {| y_offset := 42; frequency := 3 / 10 |}.

Definition predict (self : t) (ts : np.ndarray) (theta_deg m x : R)
  : np.ndarray * np.ndarray :=
  let theta_rad := np.deg2rad theta_deg in
  let cos_theta := cos theta_rad in
  let sin_theta := sin theta_rad in
  let exp_term := np.exp (np.smul m (np.abs ts)) in
  let sin_freq_t := np.sin (np.smul (frequency self) ts) in
  let x_pred :=
    np.adds (np.sub (np.muls ts cos_theta)
                    (np.muls (np.mul exp_term sin_freq_t) sin_theta)) x in
  let y_pred :=
    np.add (np.sadd (y_offset self) (np.muls ts sin_theta))
           (np.muls (np.mul exp_term sin_freq_t) cos_theta) in
  (x_pred, y_pred).

Definition get_parameter_bounds (self : t) : (R * R) * (R * R) * (R * R) :=
  ((0, 50), (- (5 / 100), 5 / 100), (0, 100))%R.

Definition validate_parameters (self : t) (theta_deg m x : R) : bool :=
  let '((theta_min, theta_max), (m_min, m_max), (x_min, x_max)) :=
    get_parameter_bounds self in
  (Rleb theta_min theta_deg && Rleb theta_deg theta_max)
  && (Rleb m_min m && Rleb m m_max)
  && (Rleb x_min x && Rleb x x_max).

End ParametricModel.

(** ** LossFunction.py *)

Module L1Loss.

(** The instance attribute set by [__init__]. *)
Record t : Type := mk { model : ParametricModel.t }.

(** [np.abs(x_curve - x_i) + np.abs(y_curve - y_i)] *)
Definition l1_distances (x_curve y_curve : np.ndarray) (x_i y_i : R)
  : np.ndarray :=
  np.add (np.abs (np.subs x_curve x_i)) (np.abs (np.subs y_curve y_i)).

(** The [for i in range(N_obs)] loop, over the indices still to visit,
    threading [total_min_l1_distance]. *)
Fixpoint loop (x_curve y_curve x_obs y_obs : np.ndarray)
    (idx : list nat) (total : R) : result R :=
  match idx with
  | [] => ret total
  | i :: rest =>
      let* x_i := np.getitem x_obs i in
      let* y_i := np.getitem y_obs i in
      let* min_l1_distance := np.min (l1_distances x_curve y_curve x_i y_i) in
      loop x_curve y_curve x_obs y_obs rest (total + min_l1_distance)%R
  end.

(** Python's [total / N_obs] for a float [total] and an int [N_obs]. *)
Definition truediv (total : R) (n : nat) : result R :=
  match n with
  | O => raise ZeroDivisionError
  | S _ => ret (total / INR n)%R
  end.

Definition compute (self : t) (params : R * R * R)
    (t_grid x_obs y_obs : np.ndarray) : result R :=
  let '(theta_deg, m, x) := params in
  let '(x_curve, y_curve) :=
    ParametricModel.predict (model self) t_grid theta_deg m x in
  let N_obs := length x_obs in
  let* total_min_l1_distance :=
    loop x_curve y_curve x_obs y_obs (seq 0 N_obs) 0%R in
  truediv total_min_l1_distance N_obs.

End L1Loss.

(** ** The heap of mutable Python objects

    Two kinds of mutable objects matter: lists of references to dicts (the
    optimization history and its copies) and dicts with string keys (the
    step records). Each kind has its own store; a reference is an index
    into it and allocation appends. Python never hands out a dangling
    reference; on one, [list_append] and [setitem] change nothing. *)

Module Heap.

Inductive pyval : Type :=
| VStr (s : string)
| VFloat (r : R).

Abbreviation dict := (gmap string pyval).

(** reference to a dict, reference to a list *)
Abbreviation dref := nat (only parsing).
Abbreviation lref := nat (only parsing).

Record t : Type := mk { dicts : list dict; lists : list (list dref) }.

Definition empty : t := {| dicts := []; lists := [] |}.

(** [{...}]: a new dict object *)
Definition new_dict (d : dict) (h : t) : dref * t :=
  (length (dicts h), {| dicts := dicts h ++ [d]; lists := lists h |}).

(** [[...]]: a new list object *)
Definition new_list (l : list dref) (h : t) : lref * t :=
  (length (lists h), {| dicts := dicts h; lists := lists h ++ [l] |}).

(** [l.append(d)] *)
Definition list_append (l : lref) (d : dref) (h : t) : t :=
  {| dicts := dicts h; lists := alter (fun items => items ++ [d]) l (lists h) |}.

(** [l.copy()]: a new list object with the same items (a copy one level
    deep: the items are the same references). *)
Definition list_copy (l : lref) (h : t) : lref * t :=
  new_list (default [] (lists h !! l)) h.

(** [l[:] = items]: the list object gets new contents; every in-place
    change of a list ([append], [pop], [clear], [sort], [l[i] = d], ...)
    is an instance. *)
Definition list_assign (l : lref) (items : list dref) (h : t) : t :=
  {| dicts := dicts h; lists := <[l := items]> (lists h) |}.

(** [d[key] = v] *)
Definition setitem (d : dref) (key : string) (v : pyval) (h : t) : t :=
  {| dicts := alter (fun m => <[key := v]> m) d (dicts h); lists := lists h |}.

(** What a reader finds behind a list reference: the contents of the
    dicts it holds, in order. *)
Definition read_list (h : t) (l : lref) : option (list dict) :=
  items ← lists h !! l; mapM (fun d => dicts h !! d) items.

End Heap.

(** ** Statements that change a state and may raise

    An exception leaves the state as the statements before it made it. *)

Definition ST (S A : Type) : Type := S -> result A * S.

Definition mret {S A} (a : A) : ST S A := fun s => (ret a, s).

Definition mbind {S A B} (m : ST S A) (k : A -> ST S B) : ST S B :=
  fun s =>
    match m s with
    | (inl e, s') => (inl e, s')
    | (inr a, s') => k a s'
    end.

(** a call that may raise and leaves the state alone *)
Definition lift {S A} (r : result A) : ST S A := fun s => (r, s).

(** an allocation or an update that cannot raise *)
Definition alloc {S A} (f : S -> A * S) : ST S A :=
  fun s => let (a, s') := f s in (ret a, s').
Definition update {S} (f : S -> S) : ST S unit := fun s => (ret tt, f s).

(** reading the state *)
Definition get {S} : ST S S := fun s => (ret s, s).

Notation "'let!' x ':=' m 'in' k" := (mbind m (fun x => k))
  (at level 10, x pattern, m at level 100, k at level 200).

(** statements over the heap of Python objects *)
Abbreviation M := (ST Heap.t).

(** ** Optimizer.py *)

Module Optimizer.

(** [scipy.optimize.OptimizeResult]: the attributes the code reads,
    [.x] (three parameters, as the bounds have three entries) and [.fun]. *)
Record OptimizeResult : Type := { x : R * R * R; fun_ : R }.

(** the keyword arguments of the call of [differential_evolution] *)
Record de_kwargs : Type := {
  de_seed : Z; maxiter : Z; popsize : Z; atol : R; tol : R;
  polish : bool; mutation : R * R; recombination : R; workers : Z }.

(** the keyword arguments of the call of [minimize] *)
Record min_kwargs : Type := {
  method : string; bounds : (R * R) * (R * R) * (R * R);
  ftol : R; disp : bool }.

Definition objective_fn : Type := R * R * R -> result R.

(** The instance attributes set by [__init__]; [optimization_history]
    is a reference to the list object. *)
Record t : Type := mk {
  model : ParametricModel.t;
  loss : L1Loss.t;
  seed : Z;
  verbose : bool;
  optimization_history : Heap.lref }.

Definition __init__ (model : ParametricModel.t) (loss : L1Loss.t)
    (seed : Z) (verbose : bool) : M t :=
  let! l := alloc (Heap.new_list []) in
  mret (mk model loss seed verbose l).

(** The dict literal appended to the history. *)
Definition step_dict (tag : string) (theta m x loss : R) : Heap.dict :=
  <["method" := Heap.VStr tag]>
    (<["theta" := Heap.VFloat theta]>
       (<["m" := Heap.VFloat m]>
          (<["x" := Heap.VFloat x]>
             (<["loss" := Heap.VFloat loss]> ∅)))).

(** [self.optimization_history.append({...})] *)
Definition record_step (self : t) (tag : string) (theta m x loss : R) : M unit :=
  let! d := alloc (Heap.new_dict (step_dict tag theta m x loss)) in
  update (Heap.list_append (optimization_history self) d).

Section Solvers.

(** [scipy.optimize.differential_evolution(objective, bounds, **kwargs)]
    and [scipy.optimize.minimize(objective, x0, **kwargs)]; an exception
    of the objective or of the solver comes out of the call. *)
Variable differential_evolution :
  objective_fn -> list (R * R) -> de_kwargs -> result OptimizeResult.
Variable minimize :
  objective_fn -> R * R * R -> min_kwargs -> result OptimizeResult.

Definition _refine (self : t) (theta_init m_init x_init : R)
    (ts x_obs y_obs : np.ndarray) : M (R * R * R * R) :=
  let scalar_objective : objective_fn :=
    fun params => L1Loss.compute (loss self) params ts x_obs y_obs in
  let '((theta_min, theta_max), (m_min, m_max), (x_min, x_max)) :=
    ParametricModel.get_parameter_bounds (model self) in
  let bounds := ((theta_min, theta_max), (m_min, m_max), (x_min, x_max)) in
  let! result_min := lift (minimize scalar_objective (theta_init, m_init, x_init)
                        {| method := "L-BFGS-B"; bounds := bounds;
                           ftol := 1 / 1000000; disp := verbose self |}) in
  let '(theta_opt, m_opt, x_opt) := x result_min in
  let final_loss := fun_ result_min in
  let! _ := record_step self "L-BFGS-B" theta_opt m_opt x_opt final_loss in
  mret (theta_opt, m_opt, x_opt, final_loss).

Definition optimize (self : t) (ts x_obs y_obs : np.ndarray)
    (use_refinement : bool) (de_maxiter de_popsize : Z) (de_tol : R)
  : M (R * R * R * R) :=
  let '(b0, b1, b2) := ParametricModel.get_parameter_bounds (model self) in
  let bounds := [b0; b1; b2] in
  let objective : objective_fn :=
    fun params => L1Loss.compute (loss self) params ts x_obs y_obs in
  let! result_de := lift (differential_evolution objective bounds
                       {| de_seed := seed self; maxiter := de_maxiter;
                          popsize := de_popsize; atol := de_tol; tol := de_tol;
                          polish := false; mutation := (1 / 2, 1)%R;
                          recombination := (9 / 10)%R; workers := 1 |}) in
  let '(theta_opt, m_opt, x_opt) := x result_de in
  let initial_loss := fun_ result_de in
  let! _ := record_step self "differential_evolution"
         theta_opt m_opt x_opt initial_loss in
  if use_refinement then
    _refine self theta_opt m_opt x_opt ts x_obs y_obs
  else
    let final_loss := initial_loss in
    mret (theta_opt, m_opt, x_opt, final_loss).

End Solvers.

(** [return self.optimization_history.copy()] *)
Definition get_history (self : t) : M Heap.lref :=
  alloc (Heap.list_copy (optimization_history self)).

End Optimizer.

(** ** pandas data frames, as far as the loader uses them *)

Module pd.

(** A cell of a column: one that [astype(float)] turns into a float, or
    one that it rejects. *)
Inductive cell : Type :=
| CFloat (r : R)
| CObj (s : string).

(** The columns in file order, each with its name. *)
Definition DataFrame : Type := list (string * list cell).

(** [df.columns] *)
Definition columns (df : DataFrame) : list string := df.*1.

(** [name in df.columns] *)
Definition has_column (name : string) (df : DataFrame) : bool :=
  bool_decide (name ∈ columns df).

(** [df[name]]: raises [KeyError] when there is no such column. *)
Fixpoint getitem (df : DataFrame) (name : string) : result (list cell) :=
  match df with
  | [] => raise KeyError
  | (n, col) :: rest => if decide (n = name) then ret col else getitem rest name
  end.

(** [col.values.astype(float)] *)
Fixpoint astype_float (col : list cell) : result np.ndarray :=
  match col with
  | [] => ret []
  | CFloat r :: rest => let* vs := astype_float rest in ret (r :: vs)
  | CObj _ :: _ => raise ValueError
  end.

End pd.

(** ** Data_Loader.py *)

Module DataLoader.

(** The instance attributes; [None] is [None]. *)
Record t : Type := mk {
  csv_path : string;
  t_min : R;
  t_max : R;
  x_obs : option np.ndarray;
  y_obs : option np.ndarray;
  n_points : nat;
  t_values : option np.ndarray }.

Definition __init__ (csv_path : string) (t_min t_max : R) : t :=
  mk csv_path t_min t_max None None 0 None.

Definition set_x_obs (v : np.ndarray) (self : t) : t :=
  mk (csv_path self) (t_min self) (t_max self) (Some v) (y_obs self)
     (n_points self) (t_values self).
Definition set_y_obs (v : np.ndarray) (self : t) : t :=
  mk (csv_path self) (t_min self) (t_max self) (x_obs self) (Some v)
     (n_points self) (t_values self).
Definition set_n_points (n : nat) (self : t) : t :=
  mk (csv_path self) (t_min self) (t_max self) (x_obs self) (y_obs self)
     n (t_values self).
Definition set_t_values (v : np.ndarray) (self : t) : t :=
  mk (csv_path self) (t_min self) (t_max self) (x_obs self) (y_obs self)
     (n_points self) (Some v).

(** The dict that [get_summary] returns. *)
Record summary : Type := {
  s_n_points : nat;
  s_x_range : R * R;
  s_y_range : R * R;
  s_x_mean : R;
  s_y_mean : R;
  s_t_range : R * R }.

(** The [except] clauses of [load], in order: what is raised for an
    exception of the [try] block. *)
Definition handler (e : exn) : exn :=
  match e with
  | FileNotFoundError => FileNotFoundError
  | EmptyDataError => ValueError
  | _ => ValueError
  end.

Section Pandas.

(** [pd.read_csv(path)]: the data frame, or the exception it raises
    ([FileNotFoundError] for a path that does not exist,
    [EmptyDataError] for a file with no columns to parse). *)
Variable read_csv : string -> result pd.DataFrame.

(** The [try] block of [load]. *)
Definition load_try : ST t (np.ndarray * np.ndarray * nat) :=
  let! self := get in
  let! df := lift (read_csv (csv_path self)) in
  if negb (pd.has_column "x" df) || negb (pd.has_column "y" df) then
    lift (raise ValueError)
  else
    let! xs := lift (let* col := pd.getitem df "x" in pd.astype_float col) in
    let! _ := update (set_x_obs xs) in
    let! ys := lift (let* col := pd.getitem df "y" in pd.astype_float col) in
    let! _ := update (set_y_obs ys) in
    let! _ := update (set_n_points (length xs)) in
    let! self := get in
    if negb (length ys =? n_points self) then lift (raise ValueError)
    else if n_points self =? 0 then lift (raise ValueError)
    else
      let! _ := update (set_t_values
                  (np.linspace (t_min self) (t_max self) (n_points self))) in
      mret (xs, ys, n_points self).

Definition load : ST t (np.ndarray * np.ndarray * nat) :=
  fun self =>
    match load_try self with
    | (inl e, self') => (raise (handler e), self')
    | (inr v, self') => (ret v, self')
    end.

End Pandas.

Definition get_data : ST t (np.ndarray * np.ndarray * option np.ndarray) :=
  let! self := get in
  match x_obs self, y_obs self with
  | Some xs, Some ys => mret (xs, ys, t_values self)
  | _, _ => lift (raise ValueError)
  end.

Definition get_summary : ST t summary :=
  let! self := get in
  match x_obs self, y_obs self with
  | Some xs, Some ys =>
      let! x_lo := lift (np.min xs) in
      let! x_hi := lift (np.max xs) in
      let! y_lo := lift (np.min ys) in
      let! y_hi := lift (np.max ys) in
      mret {| s_n_points := n_points self;
              s_x_range := (x_lo, x_hi);
              s_y_range := (y_lo, y_hi);
              s_x_mean := np.mean xs;
              s_y_mean := np.mean ys;
              s_t_range := (t_min self, t_max self) |}
  | _, _ => lift (raise ValueError)
  end.

End DataLoader.

(** ** CurveFitting.py: the pipeline *)

Module CurveFitting.

Section Pipeline.

(** What the plotting and reporting collaborators write to (files and
    the console). *)
Variable W : Type.

(** The components built by [__init__] that are never rebound, and
    the state that [run] changes: the loader, the heap holding the
    optimizer's history, the result attributes and the outside. *)
Record t : Type := mk {
  csv_path : string;
  verbose : bool;
  model : ParametricModel.t;
  loss : L1Loss.t;
  optimizer : Optimizer.t }.

Record state : Type := mk_state {
  data_loader : DataLoader.t;
  heap : Heap.t;
  theta_opt : option R;
  m_opt : option R;
  x_opt : option R;
  final_loss : option R;
  data_summary : option DataLoader.summary;
  outside : W }.

Definition on_loader {A} (m : ST DataLoader.t A) : ST state A :=
  fun s =>
    let (r, dl) := m (data_loader s) in
    (r, mk_state dl (heap s) (theta_opt s) (m_opt s) (x_opt s)
                 (final_loss s) (data_summary s) (outside s)).

Definition on_heap {A} (m : M A) : ST state A :=
  fun s =>
    let (r, h) := m (heap s) in
    (r, mk_state (data_loader s) h (theta_opt s) (m_opt s) (x_opt s)
                 (final_loss s) (data_summary s) (outside s)).

Definition on_outside {A} (m : ST W A) : ST state A :=
  fun s =>
    let (r, w) := m (outside s) in
    (r, mk_state (data_loader s) (heap s) (theta_opt s) (m_opt s) (x_opt s)
                 (final_loss s) (data_summary s) w).

Definition set_data_summary (v : DataLoader.summary) (s : state) : state :=
  mk_state (data_loader s) (heap s) (theta_opt s) (m_opt s) (x_opt s)
           (final_loss s) (Some v) (outside s).

Definition set_results (r : R * R * R * R) (s : state) : state :=
  let '(theta, m, x, l) := r in
  mk_state (data_loader s) (heap s) (Some theta) (Some m) (Some x)
           (Some l) (data_summary s) (outside s).

Variable read_csv : string -> result pd.DataFrame.
Variable differential_evolution :
  Optimizer.objective_fn -> list (R * R) -> Optimizer.de_kwargs ->
  result Optimizer.OptimizeResult.
Variable minimize :
  Optimizer.objective_fn -> R * R * R -> Optimizer.min_kwargs ->
  result Optimizer.OptimizeResult.

(** [Visualizer.plot_fit], [ReportGenerator.generate_report] and
    [Visualizer.plot_optimization_history]: they format, print and
    write files; the last one is given what it reads from the history
    copy. *)
Variable plot_fit :
  np.ndarray -> np.ndarray -> np.ndarray -> R -> R -> R -> R -> string ->
  ST W unit.
Variable generate_report : R -> R -> R -> R -> string -> bool -> ST W string.
Variable plot_optimization_history :
  option (list Heap.dict) -> string -> ST W unit.

Definition run (self : t) (use_refinement : bool)
    (de_maxiter de_popsize : Z) (de_tol : R)
    (plot_path results_path : string) : ST state (R * R * R * R) :=
  (* Step 1: load data *)
  let! _ := on_loader (DataLoader.load read_csv) in
  let! summary := on_loader DataLoader.get_summary in
  let! _ := update (set_data_summary summary) in
  let! (x_obs, y_obs, t_values) := on_loader DataLoader.get_data in
  (* Step 2: optimize parameters; [None] for the grid is a type error *)
  let! ts := lift (from_option ret (raise OtherError) t_values) in
  let! fit := on_heap (Optimizer.optimize differential_evolution minimize
                         (optimizer self) ts x_obs y_obs
                         use_refinement de_maxiter de_popsize de_tol) in
  let! _ := update (set_results fit) in
  let '(theta, m, x, l) := fit in
  (* Step 3: visualization *)
  let! _ := on_outside (plot_fit x_obs y_obs ts theta m x l plot_path) in
  (* Step 4: report *)
  let! _ := on_outside (generate_report theta m x l results_path true) in
  let! history := on_heap (Optimizer.get_history (optimizer self)) in
  let! s := get in
  let! _ := on_outside (plot_optimization_history
                          (Heap.read_list (heap s) history)
                          "optimization_history.png") in
  mret (theta, m, x, l).

(** [ReportGenerator.generate_latex_string] and
    [ReportGenerator.generate_summary]: they format floats into text.
    They are given the attributes as they are ([None] included) and may
    raise. *)
Variable generate_latex_string :
  option R -> option R -> option R -> result string.
Variable generate_summary :
  option DataLoader.summary -> option (list Heap.dict) ->
  option R -> option R -> option R -> option R -> result string.

(** The dict that [get_results] returns. *)
Record results : Type := {
  r_theta : option R;
  r_m : option R;
  r_x : option R;
  r_loss : option R;
  r_latex_string : string }.

Definition get_results : ST state results :=
  let! s := get in
  match theta_opt s with
  | None => lift (raise ValueError)
  | Some _ =>
      let! latex := lift (generate_latex_string
                            (theta_opt s) (m_opt s) (x_opt s)) in
      mret {| r_theta := theta_opt s; r_m := m_opt s; r_x := x_opt s;
              r_loss := final_loss s; r_latex_string := latex |}
  end.

Definition get_summary (self : t) : ST state string :=
  let! s := get in
  match theta_opt s with
  | None => lift (raise ValueError)
  | Some _ =>
      let! history := on_heap (Optimizer.get_history (optimizer self)) in
      let! s' := get in
      lift (generate_summary (data_summary s')
              (Heap.read_list (heap s') history)
              (theta_opt s') (m_opt s') (x_opt s') (final_loss s'))
  end.

(** [CurveFitting(csv_path, t_min, t_max, y_offset, frequency, seed,
    verbose)], on a heap and an outside: the components and the first
    state. Building the visualizer and the report generator changes
    nothing. *)
Definition __init__ (csv_path : string) (t_min t_max y_offset frequency : R)
    (seed : Z) (verbose : bool) (h : Heap.t) (w : W) : result (t * state) :=
  let data_loader := DataLoader.__init__ csv_path t_min t_max in
  let model := ParametricModel.mk y_offset frequency in
  let loss := L1Loss.mk model in
  let (r, h') := Optimizer.__init__ model loss seed verbose h in
  let* optimizer := r in
  ret (mk csv_path verbose model loss optimizer,
       mk_state data_loader h' None None None None None w).

(** [main()] of [main.py]: what it leaves behind when it returns, the
    pipeline and its last state. *)
Definition main (h : Heap.t) (w : W) : result (t * state) :=
  let* (curve_fitter, s) :=
    __init__ "xy_data.csv" 6 60 42 (3 / 10) 42 true h w in
  match run curve_fitter true 500 10 (1 / 10000)
            "fit_plot.png" "results.txt" s with
  | (inl e, _) => raise e
  | (inr _, s1) =>
      match get_summary curve_fitter s1 with
      | (inl e, _) => raise e
      | (inr _, s2) => ret (curve_fitter, s2)
      end
  end.

End Pipeline.

End CurveFitting.

(** ** The model and the loss in binary64 arithmetic

    The same sources read with numpy's [float64] as IEEE 754 binary64
    numbers, the kernel's primitive floats: every operator rounds to
    nearest even, overflows to an infinity and propagates NaN.

      - [np.exp], [np.sin] and [np.cos] are the platform's libm, which
        IEEE 754 does not fix to the last bit: they are the fields of a
        record [libm] that the model takes as an argument.
      - [np.deg2rad(d)] is [d * (pi / 180)] on the binary64 [pi].
      - [np.min] is the reduction of numpy's [minimum], which returns its
        first argument when that one is smaller or NaN and its second
        argument otherwise, so that a NaN entry makes the result NaN.
      - [len(x_obs)] enters the final division converted to binary64; a
        length is below [2^63]. *)

Module Binary64.

Import PrimFloat.
#[local] Set Warnings "-inexact-float".
Local Open Scope float_scope.

(** [np.exp], [np.sin], [np.cos] on a [float64] *)
Record libm : Type := { libm_exp : float -> float;
                        libm_sin : float -> float;
                        libm_cos : float -> float }.

(** the conversion of an [int] that divides a [float64] *)
Definition of_int (n : nat) : float := of_uint63 (Uint63.of_Z (Z.of_nat n)).

Module np.

Abbreviation ndarray := (list float).

Definition pi : float := 0x1.921fb54442d18p+1.

(** [np.deg2rad(d)] *)
Definition deg2rad (d : float) : float := d * (pi / 180).

(** [np.abs(a)], [np.exp(a)], [np.sin(a)] on an array *)
Definition abs (a : ndarray) : ndarray := PrimFloat.abs <$> a.
Definition exp (lm : libm) (a : ndarray) : ndarray := libm_exp lm <$> a.
Definition sin (lm : libm) (a : ndarray) : ndarray := libm_sin lm <$> a.

(** scalar-with-array operators: [k * a], [a * k], [a + k], [k + a], [a - k] *)
Definition smul (k : float) (a : ndarray) : ndarray := (fun v => k * v) <$> a.
Definition muls (a : ndarray) (k : float) : ndarray := (fun v => v * k) <$> a.
Definition adds (a : ndarray) (k : float) : ndarray := (fun v => v + k) <$> a.
Definition sadd (k : float) (a : ndarray) : ndarray := (fun v => k + v) <$> a.
Definition subs (a : ndarray) (k : float) : ndarray := (fun v => v - k) <$> a.

(** array-with-array operators [a + b], [a - b], [a * b] *)
Definition add (a b : ndarray) : ndarray := zip_with PrimFloat.add a b.
Definition sub (a b : ndarray) : ndarray := zip_with PrimFloat.sub a b.
Definition mul (a b : ndarray) : ndarray := zip_with PrimFloat.mul a b.

(** [np.minimum(a, b)] on two [float64] *)
Definition minimum (a b : float) : float :=
  if (a <? b) || is_nan a then a else b.

(** [np.min(a)]: raises [ValueError] on a zero-size array. *)
Definition min (a : ndarray) : result float :=
  match a with
  | [] => raise ValueError
  | v :: rest => ret (fold_left minimum rest v)
  end.

(** [a[i]] for [0 <= i]: raises [IndexError] out of range. *)
Definition getitem (a : ndarray) (i : nat) : result float :=
  match a !! i with
  | Some v => ret v
  | None => raise IndexError
  end.

End np.

(** ** ParametricModel.py *)

Module ParametricModel.

Record t : Type := mk { y_offset : float; frequency : float }.

(** [ParametricModel()] with the default arguments of [__init__]. *)
Definition default : t := {| y_offset := 42; frequency := 0.3 |}.

Definition predict (lm : libm) (self : t) (ts : np.ndarray)
    (theta_deg m x : float) : np.ndarray * np.ndarray :=
  let theta_rad := np.deg2rad theta_deg in
  let cos_theta := libm_cos lm theta_rad in
  let sin_theta := libm_sin lm theta_rad in
  let exp_term := np.exp lm (np.smul m (np.abs ts)) in
  let sin_freq_t := np.sin lm (np.smul (frequency self) ts) in
  let x_pred :=
    np.adds (np.sub (np.muls ts cos_theta)
                    (np.muls (np.mul exp_term sin_freq_t) sin_theta)) x in
  let y_pred :=
    np.add (np.sadd (y_offset self) (np.muls ts sin_theta))
           (np.muls (np.mul exp_term sin_freq_t) cos_theta) in
  (x_pred, y_pred).

End ParametricModel.

(** ** LossFunction.py *)

Module L1Loss.

Record t : Type := mk { model : ParametricModel.t }.

(** [np.abs(x_curve - x_i) + np.abs(y_curve - y_i)] *)
Definition l1_distances (x_curve y_curve : np.ndarray) (x_i y_i : float)
  : np.ndarray :=
  np.add (np.abs (np.subs x_curve x_i)) (np.abs (np.subs y_curve y_i)).

(** The [for i in range(N_obs)] loop, over the indices still to visit,
    threading [total_min_l1_distance]. *)
Fixpoint loop (x_curve y_curve x_obs y_obs : np.ndarray)
    (idx : list nat) (total : float) : result float :=
  match idx with
  | [] => ret total
  | i :: rest =>
      let* x_i := np.getitem x_obs i in
      let* y_i := np.getitem y_obs i in
      let* min_l1_distance := np.min (l1_distances x_curve y_curve x_i y_i) in
      loop x_curve y_curve x_obs y_obs rest (total + min_l1_distance)
  end.

(** Python's [total / N_obs] for a float [total] and an int [N_obs]. *)
Definition truediv (total : float) (n : nat) : result float :=
  match n with
  | O => raise ZeroDivisionError
  | S _ => ret (total / of_int n)
  end.

Definition compute (lm : libm) (self : t) (params : float * float * float)
    (t_grid x_obs y_obs : np.ndarray) : result float :=
  let '(theta_deg, m, x) := params in
  let '(x_curve, y_curve) :=
    ParametricModel.predict lm (model self) t_grid theta_deg m x in
  let N_obs := length x_obs in
  let* total_min_l1_distance :=
    loop x_curve y_curve x_obs y_obs (seq 0 N_obs) 0 in
  truediv total_min_l1_distance N_obs.

End L1Loss.

End Binary64.

(** * Specifications *)

(** ** The loss as the specification words it

    For each observation [i] in [[0, N)]: [d_j] is the L1 distance to the
    curve sample [j], [min_i] is the least [d_j] for [j] in [[0, G)], and
    the loss is the mean of the [min_i]. *)

Module LossSpec.

(** [d_j = |x_curve_j - x_obs_i| + |y_curve_j - y_obs_i|] *)
Definition d (x_curve y_curve x_obs y_obs : list R) (i j : nat) : R :=
  (Rabs (nth j x_curve 0 - nth i x_obs 0)
   + Rabs (nth j y_curve 0 - nth i y_obs 0))%R.

(** [min] of [f j] over [j] in [[0, S g)] *)
Fixpoint min_upto (f : nat -> R) (g : nat) : R :=
  match g with
  | O => f O
  | S g' => Rmin (min_upto f g') (f g)
  end.

(** sum of [f i] over [i] in [[0, n)] *)
Fixpoint sum_below (f : nat -> R) (n : nat) : R :=
  match n with
  | O => 0
  | S n' => sum_below f n' + f n'
  end.

(** [min_i = min_j d_j], for [G >= 1] curve samples *)
Definition min_i (x_curve y_curve x_obs y_obs : list R) (i : nat) : R :=
  min_upto (d x_curve y_curve x_obs y_obs i) (length x_curve - 1).

(** [mean_i(min_i)] *)
Definition mean_min (x_curve y_curve x_obs y_obs : list R) : R :=
  (sum_below (min_i x_curve y_curve x_obs y_obs) (length x_obs)
   / INR (length x_obs))%R.

End LossSpec.

(** ** Auxiliary notions for the proofs about the loss *)

Module LossAux.

(** the point of the curve at parameter [t] *)
Definition point (self : ParametricModel.t) (theta_deg m x t : R) : R * R :=
  let c := cos (np.deg2rad theta_deg) in
  let s := sin (np.deg2rad theta_deg) in
  let exp_term := exp (m * Rabs t) in
  let wobble := sin (ParametricModel.frequency self * t) in
  (t * c - exp_term * wobble * s + x,
   ParametricModel.y_offset self + t * s + exp_term * wobble * c)%R.

(** the L1 distance between two points *)
Definition dist (p q : R * R) : R := (Rabs (p.1 - q.1) + Rabs (p.2 - q.2))%R.

(** the least entry of a non-empty list (0 for the empty one) *)
Definition least (l : list R) : R :=
  match l with
  | [] => 0%R
  | v :: rest => fold_left Rmin rest v
  end.

(** the sum of a list *)
Definition Rsum (l : list R) : R := foldr Rplus 0%R l.

(** the L1 distance from an observation to the closest curve sample *)
Definition closest (x_curve y_curve : list R) (obs : R * R) : R :=
  least (L1Loss.l1_distances x_curve y_curve obs.1 obs.2).

End LossAux.

(** ** The optimizer seen from outside *)

Module OptimizerAux.

(** The history of an optimizer, as a reader of its list finds it. *)
Definition history (h : Heap.t) (self : Optimizer.t) : option (list Heap.dict) :=
  Heap.read_list h (Optimizer.optimization_history self).

(** The method tags of a sequence of steps. *)
Definition methods (steps : list Heap.dict) : list (option Heap.pyval) :=
  (fun d : Heap.dict => d !! "method") <$> steps.

Section Phases.

Variable differential_evolution :
  Optimizer.objective_fn -> list (R * R) -> Optimizer.de_kwargs ->
  result Optimizer.OptimizeResult.
Variable minimize :
  Optimizer.objective_fn -> R * R * R -> Optimizer.min_kwargs ->
  result Optimizer.OptimizeResult.

Definition objective (self : Optimizer.t) (ts x_obs y_obs : list R)
  : Optimizer.objective_fn :=
  fun params => L1Loss.compute (Optimizer.loss self) params ts x_obs y_obs.

(** The global phase: the call of [differential_evolution] in [optimize]. *)
Definition global_phase (self : Optimizer.t) (ts x_obs y_obs : list R)
    (de_maxiter de_popsize : Z) (de_tol : R) : result Optimizer.OptimizeResult :=
  differential_evolution (objective self ts x_obs y_obs)
    [(0, 50); (- (5 / 100), 5 / 100); (0, 100)]%R
    {| Optimizer.de_seed := Optimizer.seed self;
       Optimizer.maxiter := de_maxiter; Optimizer.popsize := de_popsize;
       Optimizer.atol := de_tol; Optimizer.tol := de_tol;
       Optimizer.polish := false; Optimizer.mutation := (1 / 2, 1)%R;
       Optimizer.recombination := (9 / 10)%R; Optimizer.workers := 1 |}.

(** The refinement phase: the call of [minimize] in [_refine]. *)
Definition refinement_phase (self : Optimizer.t) (x0 : R * R * R)
    (ts x_obs y_obs : list R) : result Optimizer.OptimizeResult :=
  minimize (objective self ts x_obs y_obs) x0
    {| Optimizer.method := "L-BFGS-B";
       Optimizer.bounds := ((0, 50), (- (5 / 100), 5 / 100), (0, 100))%R;
       Optimizer.ftol := (1 / 1000000)%R;
       Optimizer.disp := Optimizer.verbose self |}.

(** The step dict of a phase outcome. *)
Definition step_of (tag : string) (r : Optimizer.OptimizeResult) : Heap.dict :=
  let '(theta, m, x) := Optimizer.x r in
  Optimizer.step_dict tag theta m x (Optimizer.fun_ r).

(** The steps a call of [optimize] records, in order, and its outcome. *)
Definition phases (self : Optimizer.t) (ts x_obs y_obs : list R)
    (use_refinement : bool) (de_maxiter de_popsize : Z) (de_tol : R)
  : list Heap.dict * result (R * R * R * R) :=
  match global_phase self ts x_obs y_obs de_maxiter de_popsize de_tol with
  | inl e => ([], inl e)
  | inr rde =>
      let global := step_of "differential_evolution" rde in
      if use_refinement then
        match refinement_phase self (Optimizer.x rde) ts x_obs y_obs with
        | inl e => ([global], inl e)
        | inr rmin =>
            ([global; step_of "L-BFGS-B" rmin],
             inr (Optimizer.x rmin, Optimizer.fun_ rmin))
        end
      else ([global], inr (Optimizer.x rde, Optimizer.fun_ rde))
  end.

End Phases.

End OptimizerAux.

(** ** What a caller can do with the list that [get_history] returns *)

Module Caller.

Inductive mutation : Type :=
| Assign (items : list Heap.dref)   (** [h[:] = items]: any change of the list *)
| AppendNew (d : Heap.dict)         (** [h.append({...})] *)
| SetItem (i : nat) (key : string) (v : Heap.pyval).
                                    (** [h[i][key] = v]: a change of a step record *)

(** The mutation applied to the list [r]; [h[i]] out of range raises
    and changes nothing. *)
Definition mutate (r : Heap.lref) (mu : mutation) (h : Heap.t) : Heap.t :=
  match mu with
  | Assign items => Heap.list_assign r items h
  | AppendNew d =>
      let (d', h') := Heap.new_dict d h in Heap.list_append r d' h'
  | SetItem i key v =>
      match Heap.lists h !! r ≫= (fun items => items !! i) with
      | Some d => Heap.setitem d key v h
      | None => h
      end
  end.

Definition mutate_all (r : Heap.lref) (mus : list mutation) (h : Heap.t) : Heap.t :=
  foldl (fun h mu => mutate r mu h) h mus.

(** The mutations of the list itself, as opposed to the records in it. *)
Definition on_list (mu : mutation) : bool :=
  match mu with
  | Assign _ | AppendNew _ => true
  | SetItem _ _ _ => false
  end.

End Caller.

(** ** Sample solvers and inputs *)

Module Sample.

(** A solver run that ends with the given result. *)
Definition de_returning (r : Optimizer.OptimizeResult)
  : Optimizer.objective_fn -> list (R * R) -> Optimizer.de_kwargs ->
    result Optimizer.OptimizeResult :=
  fun _ _ _ => ret r.
Definition minimize_returning (r : Optimizer.OptimizeResult)
  : Optimizer.objective_fn -> R * R * R -> Optimizer.min_kwargs ->
    result Optimizer.OptimizeResult :=
  fun _ _ _ => ret r.

(** A global candidate, and a refinement of it with a greater loss. *)
Definition global_result : Optimizer.OptimizeResult :=
  {| Optimizer.x := (20, 2 / 100, 30)%R; Optimizer.fun_ := (1 / 100)%R |}.
Definition refined_result : Optimizer.OptimizeResult :=
  {| Optimizer.x := (21, 2 / 100, 30)%R; Optimizer.fun_ := (5 / 100)%R |}.

Definition de := de_returning global_result.
Definition minimize := minimize_returning refined_result.

Definition loss : L1Loss.t := L1Loss.mk ParametricModel.default.

(** [Optimizer(model, loss)] on the empty heap *)
Definition optimizer : Optimizer.t :=
  Optimizer.mk ParametricModel.default loss 42 true 0.
Definition heap0 : Heap.t := {| Heap.dicts := []; Heap.lists := [[]] |}.

(** the heap after a run without refinement, and after one with it *)
Definition heap1 : Heap.t :=
  {| Heap.dicts := [OptimizerAux.step_of "differential_evolution" global_result];
     Heap.lists := [[0]] |}.
Definition heap2 : Heap.t :=
  {| Heap.dicts := [OptimizerAux.step_of "differential_evolution" global_result;
                    OptimizerAux.step_of "L-BFGS-B" refined_result];
     Heap.lists := [[0; 1]] |}.

(** a path that does not exist, and collaborators that write nothing *)
Definition read_csv_missing : string -> result pd.DataFrame :=
  fun _ => raise FileNotFoundError.
Definition plot_fit (x_obs y_obs ts : list R) (theta m x l : R) (path : string)
  : ST unit unit := mret tt.
Definition generate_report (theta m x l : R) (path : string) (console : bool)
  : ST unit string := mret "".
Definition plot_optimization_history (steps : option (list Heap.dict))
    (path : string) : ST unit unit := mret tt.

(** a grid, observations and the settings of a run *)
Definition ts : list R := [6; 60]%R.
Definition x_obs : list R := [30; 80]%R.
Definition y_obs : list R := [45; 60]%R.
Definition run (use_refinement : bool) : M (R * R * R * R) :=
  Optimizer.optimize de minimize optimizer ts x_obs y_obs
    use_refinement 2000 17 (1 / 1000000)%R.


(** solvers that raise *)
Definition de_raising (e : exn)
  : Optimizer.objective_fn -> list (R * R) -> Optimizer.de_kwargs ->
    result Optimizer.OptimizeResult :=
  fun _ _ _ => raise e.
Definition minimize_raising (e : exn)
  : Optimizer.objective_fn -> R * R * R -> Optimizer.min_kwargs ->
    result Optimizer.OptimizeResult :=
  fun _ _ _ => raise e.

(** a table with two observations, one with a header and no row, and
    their files *)
Definition table : pd.DataFrame :=
  [("x", [pd.CFloat 30; pd.CFloat 80]); ("y", [pd.CFloat 45; pd.CFloat 60])].
Definition empty_table : pd.DataFrame := [("x", []); ("y", [])].
Definition read_csv_table : string -> result pd.DataFrame := fun _ => ret table.
Definition read_csv_empty_table : string -> result pd.DataFrame :=
  fun _ => ret empty_table.

(** the loader of [main.py], before and after loading [table] *)
Definition loader : DataLoader.t := DataLoader.__init__ "xy_data.csv" 6 60.
Definition loaded : DataLoader.t :=
  DataLoader.mk "xy_data.csv" 6 60 (Some x_obs) (Some y_obs) 2
    (Some (np.linspace 6 60 2)).

(** formatters that write nothing *)
Definition generate_latex_string (theta m x : option R) : result string :=
  ret "".
Definition generate_summary (summary : option DataLoader.summary)
    (steps : option (list Heap.dict)) (theta m x l : option R)
  : result string := ret "".

(** the pipeline of [main.py] before [run], with nothing written yet *)
Definition pipeline : CurveFitting.t :=
  CurveFitting.mk "xy_data.csv" true ParametricModel.default loss optimizer.
Definition state0 : CurveFitting.state unit :=
  CurveFitting.mk_state unit (DataLoader.__init__ "xy_data.csv" 6 60) heap0
    None None None None None tt.

(** a run of the pipeline on [table], and one whose global search raises *)
Abbreviation pipeline_run :=
  (CurveFitting.run unit read_csv_table de minimize plot_fit generate_report
     plot_optimization_history pipeline true 500 10 (1 / 10000)%R
     "fit_plot.png" "results.txt" state0).
Abbreviation pipeline_run_raising :=
  (CurveFitting.run unit read_csv_table (de_raising ValueError) minimize
     plot_fit generate_report plot_optimization_history pipeline
     true 500 10 (1 / 10000)%R "fit_plot.png" "results.txt" state0).

End Sample.

(** ** Auxiliary notions for the proofs about binary64 numbers *)

Module Float64Aux.

Import SpecFloat.

(** a zero, a finite number or an infinity with the sign bit [sx] *)
Definition sf_signed (sx : bool) (s : spec_float) : Prop :=
  match s with
  | S754_zero s' | S754_infinity s' | S754_finite s' _ _ => s' = sx
  | S754_nan => False
  end.

(** [+0], a positive finite number or [+inf] *)
Definition sf_nonneg (s : spec_float) : Prop := sf_signed false s.


Definition sf_not_nan (s : spec_float) : Prop :=
  match s with
  | S754_nan => False
  | _ => True
  end.

(** NaN, or a number with the sign bit clear: what a distance can be *)
Definition sf_dist (s : spec_float) : Prop := s = S754_nan \/ sf_nonneg s.

(** A key that orders the values a distance can take: NaN first, then
    [+0], the positive finite numbers by exponent and mantissa, [+inf]. *)
Definition key (s : spec_float) : Z * Z * Z :=
  match s with
  | S754_nan => (-1, 0, 0)
  | S754_zero _ => (0, 0, 0)
  | S754_finite _ m e => (1, e, Z.pos m)
  | S754_infinity _ => (2, 0, 0)
  end%Z.

Definition lex_lt (k1 k2 : Z * Z * Z) : Prop :=
  (k1.1.1 < k2.1.1
   \/ (k1.1.1 = k2.1.1
       /\ (k1.1.2 < k2.1.2 \/ (k1.1.2 = k2.1.2 /\ k1.2 < k2.2))))%Z.

Definition dist_value (v : PrimFloat.float) : Prop := sf_dist (FloatOps.Prim2SF v).

End Float64Aux.

(** ** Auxiliary notions for the proofs about the loss in binary64 *)

Module LossAux64.

Import PrimFloat Binary64.
Local Open Scope float_scope.

(** the point of the curve at parameter [t] *)
Definition point (lm : libm) (self : ParametricModel.t)
    (theta_deg m x t : float) : float * float :=
  let c := libm_cos lm (np.deg2rad theta_deg) in
  let s := libm_sin lm (np.deg2rad theta_deg) in
  let exp_term := libm_exp lm (m * abs t) in
  let wobble := libm_sin lm (ParametricModel.frequency self * t) in
  (t * c - exp_term * wobble * s + x,
   ParametricModel.y_offset self + t * s + exp_term * wobble * c).

(** the L1 distance between two points *)
Definition dist (p q : float * float) : float := abs (p.1 - q.1) + abs (p.2 - q.2).

(** the L1 distance from an observation to the closest curve sample *)
Definition closest (x_curve y_curve : list float) (obs : float * float)
  : result float :=
  np.min (L1Loss.l1_distances x_curve y_curve obs.1 obs.2).

(** the distances of the observations to their closest samples, in the
    order of the observations *)
Fixpoint minima (x_curve y_curve : list float) (obs : list (float * float))
  : result (list float) :=
  match obs with
  | [] => ret []
  | o :: rest =>
      let* d := closest x_curve y_curve o in
      let* ds := minima x_curve y_curve rest in
      ret (d :: ds)
  end.

(** the running sum that the loop keeps, from [total] on *)
Definition running_sum (ds : list float) (total : float) : float :=
  fold_left add ds total.

(** two outcomes that are the same exception, or the same numbers up to
    their order *)
Definition same_up_to_order (r r' : result (list float)) : Prop :=
  match r, r' with
  | inl e, inl e' => e = e'
  | inr ds, inr ds' => ds ≡ₚ ds'
  | _, _ => False
  end.

End LossAux64.

(** ** Sample inputs in binary64 *)

Module Sample64.

Import PrimFloat Binary64.
#[local] Set Warnings "-inexact-float".
Local Open Scope float_scope.

(** libm at the arguments that the runs below reach: [exp(0) = 1] and
    [exp(5000) = inf], an overflow; [sin(0) = 0], [sin(3)] and
    [sin(30000)] as glibc rounds them; [cos(0) = 1]. Off these tables
    the answer is NaN, which no run below asks for. *)
Definition exp (v : float) : float :=
  if v =? 0 then 1 else if v =? 5000 then infinity else nan.
Definition sin (v : float) : float :=
  if v =? 0 then 0
  else if v =? 3 then 0x1.210386db6d55bp-3
  else if v =? 30000 then -0x1.9af6f6fce647p-1
  else nan.
Definition cos (v : float) : float := if v =? 0 then 1 else nan.

Definition lm : libm := {| libm_exp := exp; libm_sin := sin; libm_cos := cos |}.

Definition loss : L1Loss.t := {| L1Loss.model := ParametricModel.default |}.

(** [theta = 0], [m = 0], [x = 0]: the curve is [(t, 42 + sin(0.3 t))] *)
Definition params : float * float * float := (0, 0, 0).

(** a grid of two samples, in both orders, and the grid of the sample
    [(0, 42)] alone *)
Definition grid : list float := [0; 10].
Definition grid_rev : list float := [10; 0].
Definition origin : list float := [0].


(** three observations at the height of the curve point [(0, 42)], and
    the same three in the opposite order *)
Definition x_obs : list float := [0.1; 0.2; 0.3].
Definition y_obs : list float := [42; 42; 42].
Definition x_obs_rev : list float := [0.3; 0.2; 0.1].

(** what Python prints as [0.20000000000000004] and [0.19999999999999998] *)
Definition loss_obs : float := 0x1.999999999999bp-3.
Definition loss_obs_rev : float := 0x1.9999999999999p-3.

(** [theta = 0], [m = 0.05], [x = 5] on a grid that reaches [t = 1e5],
    where [exp(m * |t|)] overflows, and the observation [(5, 42)], which
    is the sample at [t = 0] *)
Definition m_max : float := 0.05.

End Sample64.

(** * Theorems *)

(** ** ParametricModel *)

Section ParametricModelFacts.

Local Open Scope R_scope.

Variable self : ParametricModel.t.

Lemma predict_length (ts : np.ndarray) (theta_deg m x : R) :
  length (ParametricModel.predict self ts theta_deg m x).1 = length ts
  /\ length (ParametricModel.predict self ts theta_deg m x).2 = length ts.
Proof.
  unfold ParametricModel.predict; cbn [fst snd].
  unfold np.adds, np.sadd, np.add, np.sub, np.mul, np.muls, np.smul,
    np.exp, np.sin, np.abs.
  repeat (rewrite length_fmap || rewrite length_zip_with).
  split; lia.
Qed.

(** The entry of the outputs at an index of [ts]. *)
Lemma predict_lookup (ts : np.ndarray) (theta_deg m x : R) (i : nat) (t : R) :
  ts !! i = Some t ->
  let c := cos (np.deg2rad theta_deg) in
  let s := sin (np.deg2rad theta_deg) in
  let exp_term := exp (m * Rabs t) in
  let wobble := sin (ParametricModel.frequency self * t) in
  (ParametricModel.predict self ts theta_deg m x).1 !! i
    = Some (t * c - exp_term * wobble * s + x)
  /\ (ParametricModel.predict self ts theta_deg m x).2 !! i
    = Some (ParametricModel.y_offset self + t * s + exp_term * wobble * c).
Proof.
  intros Hi c s exp_term wobble.
  unfold ParametricModel.predict; cbn [fst snd].
  unfold np.adds, np.sadd, np.add, np.sub, np.mul, np.muls, np.smul,
    np.exp, np.sin, np.abs.
  repeat (rewrite list_lookup_fmap || rewrite lookup_zip_with).
  rewrite Hi. split; reflexivity.
Qed.

End ParametricModelFacts.

(** C2. For the model built with the default arguments (frequency 0.3,
    y_offset 42.0) and every sequence [ts], [predict] returns two sequences
    of the length of [ts], and at each index, with [t] the entry of [ts],
    [c] and [s] the cosine and sine of the angle in radians,
    [exp_term = exp(m*|t|)] and [wobble = sin(0.3*t)]:
    [x_pred = t*c - exp_term*wobble*s + x] and
    [y_pred = 42 + t*s + exp_term*wobble*c]. *)
Theorem predict_formula (ts : np.ndarray) (theta_deg m x : R) :
  let out := ParametricModel.predict ParametricModel.default ts theta_deg m x in
  let theta_rad := (theta_deg * (PI / 180))%R in
  let c := cos theta_rad in
  let s := sin theta_rad in
  length out.1 = length ts /\ length out.2 = length ts
  /\ forall (i : nat) (t : R), ts !! i = Some t ->
       let exp_term := exp (m * Rabs t) in
       let wobble := sin (3 / 10 * t) in
       out.1 !! i = Some (t * c - exp_term * wobble * s + x)%R
       /\ out.2 !! i = Some (42 + t * s + exp_term * wobble * c)%R.
Proof.
  intros out theta_rad c s.
  destruct (predict_length ParametricModel.default ts theta_deg m x) as [Hx Hy].
  split; [exact Hx | split; [exact Hy |]].
  intros i t Hi.
  exact (predict_lookup ParametricModel.default ts theta_deg m x i t Hi).
Qed.

Lemma Rleb_true (a b : R) : Rleb a b = true <-> (a <= b)%R.
Proof. unfold Rleb. destruct (Rle_dec a b); split; intros; try done. Qed.

(** C6. [validate_parameters(theta, m, x)] is true exactly when
    [0 <= theta <= 50], [-0.05 <= m <= 0.05] and [0 <= x <= 100], and these
    closed intervals are the ones [get_parameter_bounds] returns. *)
Theorem validate_parameters_iff (self : ParametricModel.t) (theta m x : R) :
  ParametricModel.get_parameter_bounds self
    = ((0, 50), (- (5 / 100), 5 / 100), (0, 100))%R
  /\ (ParametricModel.validate_parameters self theta m x = true
      <-> ((0 <= theta <= 50) /\ (- (5 / 100) <= m <= 5 / 100)
           /\ (0 <= x <= 100))%R).
Proof.
  split; [reflexivity |].
  unfold ParametricModel.validate_parameters, ParametricModel.get_parameter_bounds.
  rewrite !andb_true_iff, !Rleb_true. tauto.
Qed.

(** ** L1Loss *)

Section LeastFacts.

Local Open Scope R_scope.
Import LossAux.

Lemma fold_left_Rmin_le_init (l : list R) (v : R) : fold_left Rmin l v <= v.
Proof.
  revert v; induction l as [|a l IH]; intros v; simpl; [lra |].
  etransitivity; [apply IH | apply Rmin_l].
Qed.

Lemma fold_left_Rmin_lower (l : list R) (v a : R) :
  a ∈ l -> fold_left Rmin l v <= a.
Proof.
  revert v; induction l as [|b l IH]; intros v Ha; simpl.
  - by apply elem_of_nil in Ha.
  - apply elem_of_cons in Ha as [-> | Ha]; [| by apply IH].
    etransitivity; [apply fold_left_Rmin_le_init | apply Rmin_r].
Qed.

Lemma fold_left_Rmin_elem (l : list R) (v : R) : fold_left Rmin l v ∈ v :: l.
Proof.
  revert v; induction l as [|b l IH]; intros v; simpl; [left |].
  specialize (IH (Rmin v b)).
  apply elem_of_cons in IH as [-> | IH].
  - unfold Rmin; destruct (Rle_dec v b); [left | right; left].
  - right; by right.
Qed.

Lemma least_lower (l : list R) (a : R) : a ∈ l -> least l <= a.
Proof.
  destruct l as [|v l]; intros Ha; [by apply elem_of_nil in Ha |]; simpl.
  apply elem_of_cons in Ha as [-> | Ha].
  - apply fold_left_Rmin_le_init.
  - by apply fold_left_Rmin_lower.
Qed.

Lemma least_elem (l : list R) : l <> [] -> least l ∈ l.
Proof. destruct l as [|v l]; [done |]; intros _. apply fold_left_Rmin_elem. Qed.

Lemma least_perm (l l' : list R) : l ≡ₚ l' -> least l = least l'.
Proof.
  intros Hp. destruct l as [|v l].
  - apply Permutation_nil_l in Hp. by subst.
  - assert (Hl : v :: l <> []) by done.
    assert (Hl' : l' <> []).
    { intros ->. by apply Permutation_nil_r in Hp. }
    apply Rle_antisym.
    + apply least_lower. rewrite Hp. by apply least_elem.
    + apply least_lower. rewrite <- Hp. by apply least_elem.
Qed.

Lemma np_min_least (l : list R) : l <> [] -> np.min l = ret (least l).
Proof. by destruct l. Qed.

Lemma np_min_perm (l l' : list R) : l ≡ₚ l' -> np.min l = np.min l'.
Proof.
  intros Hp. destruct l as [|v l].
  - apply Permutation_nil_l in Hp. by subst.
  - destruct l' as [|v' l']; [by apply Permutation_nil_r in Hp |].
    rewrite !np_min_least by done. f_equal. by apply least_perm.
Qed.

End LeastFacts.

Section LossFacts.

Local Open Scope R_scope.
Import LossAux.

Lemma l1_distances_zip (xc yc : list R) (xi yi : R) :
  L1Loss.l1_distances xc yc xi yi
  = zip_with (fun a b => Rabs (a - xi) + Rabs (b - yi)) xc yc.
Proof.
  unfold L1Loss.l1_distances, np.add, np.abs, np.subs.
  revert yc; induction xc as [|a xc IH]; intros [|b yc]; simpl; try done.
  f_equal. apply IH.
Qed.

Lemma l1_distances_nil (xc yc : list R) (xi yi : R) :
  L1Loss.l1_distances xc yc xi yi = [] <-> xc = [] \/ yc = [].
Proof.
  rewrite l1_distances_zip. destruct xc, yc; simpl; split; intros H;
    try done; auto. by destruct H.
Qed.

(** No pass raises [ZeroDivisionError]. *)
Lemma loop_no_zero_division (xc yc xo yo : list R) (idx : list nat) (total : R) :
  L1Loss.loop xc yc xo yo idx total <> inl ZeroDivisionError.
Proof.
  revert total; induction idx as [|i idx IH]; intros total; simpl; [done |].
  unfold np.getitem.
  destruct (xo !! i) as [xi|]; [| done]; simpl.
  destruct (yo !! i) as [yi|]; [| done]; simpl.
  destruct (L1Loss.l1_distances xc yc xi yi); [done |]; simpl.
  apply IH.
Qed.

(** With samples on the curve and observations at every index visited,
    the loop returns the total it started from plus the distance of each
    observation to its closest sample. *)
Lemma loop_ok (xc yc xo yo : list R) (n a : nat) (total : R) :
  xc <> [] -> yc <> [] ->
  (a + n <= length xo)%nat -> (a + n <= length yo)%nat ->
  L1Loss.loop xc yc xo yo (seq a n) total
  = inr (total + Rsum (closest xc yc <$> take n (drop a (zip xo yo)))).
Proof.
  intros Hxc Hyc. revert a total; induction n as [|n IH]; intros a total Hx Hy.
  - simpl. unfold ret. f_equal. unfold Rsum; simpl. lra.
  - destruct (lookup_lt_is_Some_2 xo a) as [xi Hxi]; [lia |].
    destruct (lookup_lt_is_Some_2 yo a) as [yi Hyi]; [lia |].
    assert (Hz : zip xo yo !! a = Some (xi, yi)).
    { rewrite lookup_zip_with, Hxi, Hyi. done. }
    rewrite (drop_S _ _ _ Hz). cbn [seq L1Loss.loop take fmap list_fmap].
    unfold np.getitem. rewrite Hxi, Hyi. cbn [bind ret].
    rewrite np_min_least by (rewrite l1_distances_nil; tauto).
    cbn [bind ret]. rewrite IH by lia.
    f_equal. unfold Rsum, closest; simpl. lra.
Qed.

(** Without a sample, or without an observation at an index, a loop that
    has an index to visit raises. *)
Lemma loop_raises (xc yc xo yo : list R) (n a : nat) (total : R) :
  (0 < n)%nat ->
  xc = [] \/ yc = [] \/ (length xo < a + n)%nat \/ (length yo < a + n)%nat ->
  exists e, L1Loss.loop xc yc xo yo (seq a n) total = inl e.
Proof.
  revert a total; induction n as [|n IH]; intros a total Hn Hbad; [lia |].
  cbn [seq L1Loss.loop]. unfold np.getitem.
  destruct (xo !! a) as [xi|] eqn:Hxi; [| by eexists]; cbn [bind ret].
  destruct (yo !! a) as [yi|] eqn:Hyi; [| by eexists]; cbn [bind ret].
  destruct (L1Loss.l1_distances xc yc xi yi) as [|d ds] eqn:Hd;
    [by eexists |]; cbn [np.min bind ret].
  assert (Hne : L1Loss.l1_distances xc yc xi yi <> []) by (by rewrite Hd).
  rewrite l1_distances_nil in Hne.
  apply lookup_lt_Some in Hxi, Hyi.
  destruct n as [|n].
  - exfalso. destruct Hbad as [?|[?|[?|?]]]; try tauto; lia.
  - apply IH; [lia |].
    destruct Hbad as [?|[?|[?|?]]]; auto; right; right; [left | right]; lia.
Qed.

End LossFacts.

Section LossRefinement.

Local Open Scope R_scope.
Import LossAux.

Lemma min_upto_ext (f f' : nat -> R) (g : nat) :
  (forall j, (j <= g)%nat -> f j = f' j) ->
  LossSpec.min_upto f g = LossSpec.min_upto f' g.
Proof.
  induction g as [|g IH]; intros Hext; simpl.
  - apply Hext; lia.
  - rewrite IH, (Hext (S g)) by (intros; try apply Hext; lia). reflexivity.
Qed.

(** [min_upto f g] is the least of [f 0], ..., [f g]. *)
Lemma min_upto_lower (f : nat -> R) (g j : nat) :
  (j <= g)%nat -> LossSpec.min_upto f g <= f j.
Proof.
  induction g as [|g IH]; intros Hj; simpl.
  - replace j with 0%nat by lia. lra.
  - destruct (decide (j = S g)) as [->|Hne].
    + apply Rmin_r.
    + etransitivity; [apply Rmin_l | apply IH; lia].
Qed.

Lemma min_upto_attained (f : nat -> R) (g : nat) :
  exists j, (j <= g)%nat /\ LossSpec.min_upto f g = f j.
Proof.
  induction g as [|g (j & Hj & IH)]; simpl.
  - exists 0%nat. split; [lia | done].
  - unfold Rmin. destruct (Rle_dec _ _).
    + exists j. split; [lia | done].
    + exists (S g). split; [lia | done].
Qed.

Lemma sum_below_ext (f f' : nat -> R) (n : nat) :
  (forall i, (i < n)%nat -> f i = f' i) ->
  LossSpec.sum_below f n = LossSpec.sum_below f' n.
Proof.
  induction n as [|n IH]; intros Hext; simpl; [done |].
  rewrite IH, (Hext n) by (intros; try apply Hext; lia). reflexivity.
Qed.

Lemma fold_left_Rmin_min_upto (rest : list R) (v : R) :
  fold_left Rmin rest v
  = LossSpec.min_upto (fun j => nth j (v :: rest) 0) (length rest).
Proof.
  induction rest as [|a rest IH] using rev_ind; [done |].
  rewrite fold_left_app, length_app, Nat.add_1_r; simpl fold_left.
  cbn [LossSpec.min_upto]. f_equal.
  - rewrite IH. apply min_upto_ext. intros j Hj.
    rewrite app_comm_cons, app_nth1; [done | simpl; lia].
  - rewrite app_comm_cons, app_nth2 by (simpl; lia).
    simpl length. by rewrite Nat.sub_diag.
Qed.

Lemma Rsum_snoc (l : list R) (a : R) : Rsum (l ++ [a]) = Rsum l + a.
Proof. induction l as [|b l IH]; unfold Rsum in *; simpl; [| rewrite IH]; lra. Qed.

Lemma Rsum_sum_below {A} (f : A -> R) (l : list A) (dflt : A) :
  Rsum (f <$> l) = LossSpec.sum_below (fun i => f (nth i l dflt)) (length l).
Proof.
  induction l as [|a l IH] using rev_ind; [done |].
  rewrite fmap_app. change (f <$> [a]) with [f a].
  rewrite Rsum_snoc, length_app, Nat.add_1_r; simpl.
  rewrite IH. f_equal.
  - apply sum_below_ext. intros i Hi. by rewrite app_nth1.
  - rewrite app_nth2 by lia. by rewrite Nat.sub_diag.
Qed.

(** The closest-sample distance of observation [i] is the [min_i] of the
    specification. *)
Lemma closest_min_i (xc yc xo yo : list R) (i : nat) :
  xc <> [] -> length xc = length yc ->
  closest xc yc (nth i xo 0, nth i yo 0) = LossSpec.min_i xc yc xo yo i.
Proof.
  intros Hxc Hlen. unfold closest, LossSpec.min_i; cbn [fst snd].
  assert (Hl : length (L1Loss.l1_distances xc yc (nth i xo 0) (nth i yo 0))
               = length xc).
  { rewrite l1_distances_zip, length_zip_with. lia. }
  destruct (L1Loss.l1_distances xc yc (nth i xo 0) (nth i yo 0))
    as [|v rest] eqn:Hd.
  { destruct xc; [done | simpl in Hl; lia]. }
  cbn [least]. rewrite fold_left_Rmin_min_upto. simpl in Hl.
  replace (length xc - 1)%nat with (length rest) by lia.
  apply min_upto_ext. intros j Hj. rewrite <- Hd.
  unfold LossSpec.d. rewrite l1_distances_zip, !nth_lookup, lookup_zip_with.
  destruct (lookup_lt_is_Some_2 xc j) as [a ->]; [lia |].
  destruct (lookup_lt_is_Some_2 yc j) as [b ->]; [lia |].
  reflexivity.
Qed.

Lemma nth_zip (xo yo : list R) (i : nat) :
  length xo = length yo -> (i < length xo)%nat ->
  nth i (zip xo yo) (0, 0) = (nth i xo 0, nth i yo 0).
Proof.
  intros Hlen Hi. rewrite !nth_lookup, lookup_zip_with.
  destruct (lookup_lt_is_Some_2 xo i) as [a ->]; [lia |].
  destruct (lookup_lt_is_Some_2 yo i) as [b ->]; [lia |].
  reflexivity.
Qed.

(** What [compute] returns for a grid with a sample and as many [y] as
    [x] observations, at least one. *)
Lemma compute_ok (self : L1Loss.t) (theta_deg m x : R)
    (t_grid x_obs y_obs : list R) :
  t_grid <> [] -> length x_obs = length y_obs -> x_obs <> [] ->
  L1Loss.compute self (theta_deg, m, x) t_grid x_obs y_obs
  = inr (Rsum (closest
                 (ParametricModel.predict (L1Loss.model self) t_grid theta_deg m x).1
                 (ParametricModel.predict (L1Loss.model self) t_grid theta_deg m x).2
               <$> zip x_obs y_obs)
         / INR (length x_obs)).
Proof.
  intros Hgrid Hlen Hobs. unfold L1Loss.compute.
  destruct (predict_length (L1Loss.model self) t_grid theta_deg m x) as [Hx Hy].
  destruct (ParametricModel.predict (L1Loss.model self) t_grid theta_deg m x)
    as [xc yc]; cbn [fst snd] in *.
  rewrite loop_ok; try lia.
  - rewrite drop_0, take_ge by (rewrite length_zip_with; lia).
    cbn [bind]. destruct x_obs as [|x0 x_obs]; [done |].
    unfold L1Loss.truediv; cbn [length]. unfold ret. do 2 f_equal. lra.
  - destruct xc; [destruct t_grid; [done | simpl in Hx; lia] | done].
  - destruct yc; [destruct t_grid; [done | simpl in Hy; lia] | done].
Qed.

End LossRefinement.

(** C1. For every parameter triple, every non-empty [t_grid] and observation
    sequences of equal length [N >= 1], [compute] returns the mean over the
    observations [i] of the minimum over the curve samples [j] of
    [|x_curve_j - x_obs_i| + |y_curve_j - y_obs_i|], for the curve that
    [predict] samples on [t_grid]. *)
Theorem compute_mean_of_min (self : L1Loss.t) (theta_deg m x : R)
    (t_grid x_obs y_obs : list R) :
  t_grid <> [] -> length x_obs = length y_obs -> 1 <= length x_obs ->
  let curve := ParametricModel.predict (L1Loss.model self) t_grid theta_deg m x in
  L1Loss.compute self (theta_deg, m, x) t_grid x_obs y_obs
  = inr (LossSpec.mean_min curve.1 curve.2 x_obs y_obs).
Proof.
  intros Hgrid Hlen HN curve.
  rewrite compute_ok; [| done | done | by destruct x_obs; [simpl in HN; lia |]].
  unfold LossSpec.mean_min. f_equal. f_equal.
  rewrite (Rsum_sum_below _ _ (0%R, 0%R)), length_zip_with.
  replace (length x_obs `min` length y_obs) with (length x_obs) by lia.
  apply sum_below_ext. intros i Hi.
  rewrite nth_zip by done.
  destruct (predict_length (L1Loss.model self) t_grid theta_deg m x) as [Hx Hy].
  apply closest_min_i.
  - intros Hnil. fold curve in Hx. rewrite Hnil in Hx.
    destruct t_grid; [done | simpl in Hx; lia].
  - fold curve in Hx, Hy. lia.
Qed.

Section LossProperties.

Local Open Scope R_scope.
Import LossAux.

Variable self : L1Loss.t.

Lemma compute_no_observation (params : R * R * R) (t_grid y_obs : list R) :
  L1Loss.compute self params t_grid [] y_obs = inl ZeroDivisionError.
Proof.
  destruct params as [[theta_deg m] x]. unfold L1Loss.compute.
  by destruct (ParametricModel.predict _ _ _ _ _).
Qed.

End LossProperties.

(** C10, as the code has it. Without an observation [compute] raises
    [ZeroDivisionError]. With [N >= 1] observations it never raises
    [ZeroDivisionError], and it returns a value exactly when the grid has
    a sample and [y_obs] has at least [N] entries. *)
Theorem compute_total_iff (self : L1Loss.t) (params : R * R * R)
    (t_grid x_obs y_obs : list R) :
  let loss := L1Loss.compute self params t_grid x_obs y_obs in
  (length x_obs = 0 -> loss = inl ZeroDivisionError)
  /\ (1 <= length x_obs ->
      loss <> inl ZeroDivisionError
      /\ ((exists v, loss = inr v)
          <-> t_grid <> [] /\ length x_obs <= length y_obs)).
Proof.
  intros loss. split.
  - intros HN. destruct x_obs; [| done]. apply compute_no_observation.
  - intros HN. subst loss. destruct params as [[theta_deg m] x].
    unfold L1Loss.compute.
    destruct (predict_length (L1Loss.model self) t_grid theta_deg m x) as [Hx Hy].
    destruct (ParametricModel.predict (L1Loss.model self) t_grid theta_deg m x)
      as [xc yc]; cbn [fst snd] in *.
    destruct x_obs as [|x0 x_obs]; [simpl in HN; lia |].
    set (N := length (x0 :: x_obs)) in *.
    split.
    + destruct (L1Loss.loop xc yc (x0 :: x_obs) y_obs (seq 0 N) 0)
        as [e|total] eqn:Hloop; cbn [bind]; [| done].
      intros [= ->]. by apply loop_no_zero_division in Hloop.
    + split.
      * intros [v Hv].
        destruct (decide (t_grid = [])) as [->|Hgrid].
        { destruct (loop_raises xc yc (x0 :: x_obs) y_obs N 0 0) as [e He];
            [lia | left; by destruct xc |].
          by rewrite He in Hv. }
        split; [done |].
        destruct (decide (N <= length y_obs)) as [|Hshort]; [done |].
        destruct (loop_raises xc yc (x0 :: x_obs) y_obs N 0 0) as [e He];
          [lia | right; right; right; lia |].
        by rewrite He in Hv.
      * intros [Hgrid Hy_len].
        rewrite loop_ok; [by eexists | | | lia | lia].
        -- destruct xc; [destruct t_grid; [done | simpl in Hx; lia] | done].
        -- destruct yc; [destruct t_grid; [done | simpl in Hy; lia] | done].
Qed.

(** ** Optimizer *)

Section HeapFacts.

Import OptimizerAux.

Lemma read_list_Some (h : Heap.t) (l : Heap.lref) (v : list Heap.dict) :
  Heap.read_list h l = Some v
  <-> exists items, Heap.lists h !! l = Some items
        /\ Forall2 (fun d dv => Heap.dicts h !! d = Some dv) items v.
Proof.
  unfold Heap.read_list. destruct (Heap.lists h !! l) as [items|]; simpl.
  - rewrite mapM_Some. split.
    + intros HF. by exists items.
    + by intros (? & [= <-] & HF).
  - split; [done | by intros (? & ? & _)].
Qed.

Lemma read_list_valid (h : Heap.t) (l : Heap.lref) (v : list Heap.dict) :
  Heap.read_list h l = Some v -> l < length (Heap.lists h).
Proof.
  rewrite read_list_Some. intros (items & Hl & _). by apply lookup_lt_Some in Hl.
Qed.

(** A new dict leaves what every list reads alone. *)
Lemma read_list_new_dict (h : Heap.t) (l : Heap.lref) (d : Heap.dict)
    (v : list Heap.dict) :
  Heap.read_list h l = Some v ->
  Heap.read_list (Heap.new_dict d h).2 l = Some v.
Proof.
  rewrite !read_list_Some. intros (items & Hl & HF). exists items.
  split; [done |]. cbn. eapply Forall2_impl; [exact HF |].
  intros x y Hx. by apply lookup_app_l_Some.
Qed.

(** A new list leaves what every other list reads alone. *)
Lemma read_list_new_list (h : Heap.t) (l : Heap.lref) (items : list Heap.dref)
    (v : list Heap.dict) :
  Heap.read_list h l = Some v ->
  Heap.read_list (Heap.new_list items h).2 l = Some v.
Proof.
  rewrite !read_list_Some. intros (its & Hl & HF). exists its.
  split; [| done]. cbn. by apply lookup_app_l_Some.
Qed.

(** Appending a dict to a list. *)
Lemma read_list_append (h : Heap.t) (l : Heap.lref) (d : Heap.dref)
    (dv : Heap.dict) (v : list Heap.dict) :
  Heap.read_list h l = Some v -> Heap.dicts h !! d = Some dv ->
  Heap.read_list (Heap.list_append l d h) l = Some (v ++ [dv]).
Proof.
  rewrite !read_list_Some. intros (items & Hl & HF) Hd.
  exists (items ++ [d]). split; cbn.
  - rewrite list_lookup_alter, decide_True by done. by rewrite Hl.
  - apply Forall2_app; [done |]. by constructor.
Qed.

(** Changing one list leaves what the other lists read alone. *)
Lemma read_list_append_ne (h : Heap.t) (l r : Heap.lref) (d : Heap.dref) :
  l <> r -> Heap.read_list (Heap.list_append r d h) l = Heap.read_list h l.
Proof.
  intros Hne. unfold Heap.read_list; cbn.
  by rewrite list_lookup_alter_ne.
Qed.

Lemma read_list_assign_ne (h : Heap.t) (l r : Heap.lref) (items : list Heap.dref) :
  l <> r -> Heap.read_list (Heap.list_assign r items h) l = Heap.read_list h l.
Proof.
  intros Hne. unfold Heap.read_list; cbn.
  by rewrite list_lookup_insert_ne.
Qed.

(** [record_step] appends the step to the history. *)
Lemma record_step_history (self : Optimizer.t) (tag : string)
    (theta m x l : R) (h : Heap.t) (v : list Heap.dict) :
  history h self = Some v ->
  exists h', Optimizer.record_step self tag theta m x l h = (inr tt, h')
    /\ history h' self = Some (v ++ [Optimizer.step_dict tag theta m x l]).
Proof.
  intros Hv. unfold Optimizer.record_step, mbind, alloc, update, history.
  cbn. eexists; split; [reflexivity |].
  apply read_list_append.
  - by apply (read_list_new_dict h).
  - cbn. apply list_lookup_middle. done.
Qed.

End HeapFacts.

Section OptimizeFacts.

Import OptimizerAux.

Variable differential_evolution :
  Optimizer.objective_fn -> list (R * R) -> Optimizer.de_kwargs ->
  result Optimizer.OptimizeResult.
Variable minimize :
  Optimizer.objective_fn -> R * R * R -> Optimizer.min_kwargs ->
  result Optimizer.OptimizeResult.

Lemma refine_phase (self : Optimizer.t) (theta m x : R) (ts x_obs y_obs : list R)
    (h : Heap.t) (v : list Heap.dict) :
  history h self = Some v ->
  match refinement_phase minimize self (theta, m, x) ts x_obs y_obs with
  | inl e =>
      Optimizer._refine minimize self theta m x ts x_obs y_obs h = (inl e, h)
  | inr rmin =>
      exists h',
        Optimizer._refine minimize self theta m x ts x_obs y_obs h
        = (inr (Optimizer.x rmin, Optimizer.fun_ rmin), h')
        /\ history h' self = Some (v ++ [step_of "L-BFGS-B" rmin])
  end.
Proof.
  intros Hv. unfold Optimizer._refine, refinement_phase, objective.
  cbn [ParametricModel.get_parameter_bounds]. unfold mbind at 1, lift.
  destruct (minimize _ _ _) as [e|[[[th' m'] x'] l']]; [done |].
  destruct (record_step_history self "L-BFGS-B" th' m' x' l' h v Hv)
    as (h' & Hrec & Hh').
  exists h'. unfold mbind, mret. cbn [Optimizer.x Optimizer.fun_].
  rewrite Hrec. by split.
Qed.

(** What a call of [optimize] returns and what it leaves in the history:
    the history before, followed by the steps of the phases. *)
Lemma optimize_phases (self : Optimizer.t) (ts x_obs y_obs : list R)
    (use_refinement : bool) (de_maxiter de_popsize : Z) (de_tol : R)
    (h : Heap.t) (v : list Heap.dict) :
  history h self = Some v ->
  let ph := phases differential_evolution minimize self ts x_obs y_obs
              use_refinement de_maxiter de_popsize de_tol in
  exists h',
    Optimizer.optimize differential_evolution minimize self ts x_obs y_obs
      use_refinement de_maxiter de_popsize de_tol h = (ph.2, h')
    /\ history h' self = Some (v ++ ph.1).
Proof.
  intros Hv ph. subst ph.
  unfold Optimizer.optimize, phases, global_phase, objective.
  cbn [ParametricModel.get_parameter_bounds]. unfold mbind at 1, lift.
  destruct (differential_evolution _ _ _) as [e|[[[th0 m0] x0] l0]].
  { exists h. by rewrite app_nil_r. }
  destruct (record_step_history self "differential_evolution" th0 m0 x0 l0 h v Hv)
    as (h1 & Hrec & Hh1).
  cbn [Optimizer.x Optimizer.fun_]. unfold mbind at 1. rewrite Hrec.
  destruct use_refinement.
  - pose proof (refine_phase self th0 m0 x0 ts x_obs y_obs h1 _ Hh1) as Href.
    unfold objective in Href.
    destruct (refinement_phase minimize self (th0, m0, x0) ts x_obs y_obs)
      as [e|rmin].
    + exists h1. by rewrite Href.
    + destruct Href as (h2 & Href & Hh2). exists h2. rewrite Href. split; [done |].
      rewrite Hh2. by rewrite <- app_assoc.
  - exists h1. by split.
Qed.

(** A new optimizer has an empty history. *)
Lemma init_history (model : ParametricModel.t) (loss : L1Loss.t) (seed : Z)
    (verbose : bool) (h0 : Heap.t) :
  exists self h, Optimizer.__init__ model loss seed verbose h0 = (inr self, h)
    /\ history h self = Some [].
Proof.
  unfold Optimizer.__init__, mbind, alloc, mret; cbn.
  eexists _, _; split; [reflexivity |].
  unfold history, Heap.read_list; cbn.
  by rewrite list_lookup_middle.
Qed.

End OptimizeFacts.

Section OptimizeResults.

Import OptimizerAux.

Variable differential_evolution :
  Optimizer.objective_fn -> list (R * R) -> Optimizer.de_kwargs ->
  result Optimizer.OptimizeResult.
Variable minimize :
  Optimizer.objective_fn -> R * R * R -> Optimizer.min_kwargs ->
  result Optimizer.OptimizeResult.

Lemma step_of_method (tag : string) (r : Optimizer.OptimizeResult) :
  step_of tag r !! "method" = Some (Heap.VStr tag).
Proof. destruct r as [[[theta m] x] l]. apply lookup_insert_eq. Qed.

(** The outcome of [optimize], whatever the heap. *)
Lemma optimize_result (self : Optimizer.t) (ts x_obs y_obs : list R)
    (use_refinement : bool) (de_maxiter de_popsize : Z) (de_tol : R)
    (h : Heap.t) :
  (Optimizer.optimize differential_evolution minimize self ts x_obs y_obs
     use_refinement de_maxiter de_popsize de_tol h).1
  = (phases differential_evolution minimize self ts x_obs y_obs
       use_refinement de_maxiter de_popsize de_tol).2.
Proof.
  unfold Optimizer.optimize, phases, global_phase, objective.
  cbn [ParametricModel.get_parameter_bounds]. unfold mbind at 1, lift.
  destruct (differential_evolution _ _ _) as [e|[[[th0 m0] x0] l0]]; [done |].
  cbn [Optimizer.x Optimizer.fun_]. unfold mbind at 1.
  unfold Optimizer.record_step at 1, mbind at 1, alloc, update; cbn [Heap.new_dict].
  destruct use_refinement; [| done].
  unfold Optimizer._refine, refinement_phase, objective.
  cbn [ParametricModel.get_parameter_bounds]. unfold mbind at 1, lift.
  destruct (minimize _ _ _) as [e|[[[th1 m1] x1] l1]]; done.
Qed.

(** A mutation of the list [r] leaves the history of an optimizer whose
    list is another one alone. *)
Lemma mutate_on_list_history (self : Optimizer.t) (r : Heap.lref)
    (mu : Caller.mutation) (h : Heap.t) (v : list Heap.dict) :
  Caller.on_list mu = true -> Optimizer.optimization_history self <> r ->
  history h self = Some v -> history (Caller.mutate r mu h) self = Some v.
Proof.
  intros Hmu Hne Hv. destruct mu as [items | d | i key val]; [| | done];
    unfold history; cbn.
  - by rewrite read_list_assign_ne.
  - rewrite read_list_append_ne by done. by apply (read_list_new_dict h).
Qed.

Lemma mutate_all_on_list_history (self : Optimizer.t) (r : Heap.lref)
    (mus : list Caller.mutation) (h : Heap.t) (v : list Heap.dict) :
  forallb Caller.on_list mus = true -> Optimizer.optimization_history self <> r ->
  history h self = Some v -> history (Caller.mutate_all r mus h) self = Some v.
Proof.
  revert h; induction mus as [|mu mus IH]; intros h Hmus Hne Hv; [done |].
  cbn in Hmus. apply andb_true_iff in Hmus as [Hmu Hmus].
  cbn. apply IH; [done | done |]. by apply mutate_on_list_history.
Qed.

(** [get_history] makes a new list that reads as the history does. *)
Lemma get_history_copy (self : Optimizer.t) (h : Heap.t) (v : list Heap.dict) :
  history h self = Some v ->
  exists h1,
    Optimizer.get_history self h = (inr (length (Heap.lists h)), h1)
    /\ Heap.read_list h1 (length (Heap.lists h)) = Some v
    /\ history h1 self = Some v.
Proof.
  intros Hv. unfold Optimizer.get_history, alloc, Heap.list_copy.
  cbn. eexists; split; [reflexivity |]. split.
  - unfold history in Hv. apply read_list_Some in Hv as (items & Hl & HF).
    apply read_list_Some. exists items. cbn. rewrite Hl; cbn.
    split; [| done]. by apply list_lookup_middle.
  - by apply (read_list_new_list h).
Qed.

End OptimizeResults.

(** C3, as the code has it. After a call of [optimize] that returns, on a
    new optimizer, the history holds exactly one step when
    [use_refinement] is off and exactly two when it is on, the step of the
    global phase first; the global step has the method tag
    ["differential_evolution"] and the refinement step the tag
    ["L-BFGS-B"]. *)
Theorem history_after_optimize
    (differential_evolution :
       Optimizer.objective_fn -> list (R * R) -> Optimizer.de_kwargs ->
       result Optimizer.OptimizeResult)
    (minimize :
       Optimizer.objective_fn -> R * R * R -> Optimizer.min_kwargs ->
       result Optimizer.OptimizeResult)
    (model : ParametricModel.t) (loss : L1Loss.t) (seed : Z) (verbose : bool)
    (h0 : Heap.t) (ts x_obs y_obs : list R) (use_refinement : bool)
    (de_maxiter de_popsize : Z) (de_tol : R)
    (self : Optimizer.t) (h h' : Heap.t) (res : R * R * R * R) :
  Optimizer.__init__ model loss seed verbose h0 = (inr self, h) ->
  Optimizer.optimize differential_evolution minimize self ts x_obs y_obs
    use_refinement de_maxiter de_popsize de_tol h = (inr res, h') ->
  exists (steps : list Heap.dict) (rde : Optimizer.OptimizeResult),
    OptimizerAux.history h' self = Some steps
    /\ OptimizerAux.global_phase differential_evolution self ts x_obs y_obs
         de_maxiter de_popsize de_tol = inr rde
    /\ if use_refinement then
         exists rmin,
           OptimizerAux.refinement_phase minimize self (Optimizer.x rde)
             ts x_obs y_obs = inr rmin
           /\ steps = [OptimizerAux.step_of "differential_evolution" rde;
                       OptimizerAux.step_of "L-BFGS-B" rmin]
           /\ length steps = 2
           /\ OptimizerAux.methods steps
              = [Some (Heap.VStr "differential_evolution");
                 Some (Heap.VStr "L-BFGS-B")]
       else
         steps = [OptimizerAux.step_of "differential_evolution" rde]
         /\ length steps = 1
         /\ OptimizerAux.methods steps
            = [Some (Heap.VStr "differential_evolution")].
Proof.
  intros Hinit Hopt.
  destruct (init_history model loss seed verbose h0) as (self' & hh & Hinit' & Hnew).
  rewrite Hinit in Hinit'. injection Hinit' as <- <-.
  destruct (optimize_phases differential_evolution minimize self ts x_obs y_obs
              use_refinement de_maxiter de_popsize de_tol h [] Hnew)
    as (h2 & Hrun & Hhist).
  rewrite Hopt in Hrun. injection Hrun as Hres <-.
  unfold OptimizerAux.phases in Hres, Hhist.
  destruct (OptimizerAux.global_phase _ _ _ _ _ _ _ _) as [e|rde]; [done |].
  destruct use_refinement.
  - destruct (OptimizerAux.refinement_phase _ _ _ _ _ _) as [e|rmin] eqn:Hmin;
      [done |].
    eexists _, rde. split; [exact Hhist |]. split; [done |].
    exists rmin. cbn. by rewrite !step_of_method.
  - eexists _, rde. split; [exact Hhist |]. split; [done |].
    cbn. by rewrite step_of_method.
Qed.

(** C5. [optimize] returns the result of its last phase: with
    [use_refinement] off, the candidate and the loss of the global phase;
    with it on, the parameters and the loss of the refinement phase,
    whatever that loss is compared with the one of the global phase. *)
Theorem optimize_returns_terminal_phase
    (differential_evolution :
       Optimizer.objective_fn -> list (R * R) -> Optimizer.de_kwargs ->
       result Optimizer.OptimizeResult)
    (minimize :
       Optimizer.objective_fn -> R * R * R -> Optimizer.min_kwargs ->
       result Optimizer.OptimizeResult)
    (self : Optimizer.t) (ts x_obs y_obs : list R) (use_refinement : bool)
    (de_maxiter de_popsize : Z) (de_tol : R) (h : Heap.t)
    (rde : Optimizer.OptimizeResult) :
  OptimizerAux.global_phase differential_evolution self ts x_obs y_obs
    de_maxiter de_popsize de_tol = inr rde ->
  let returned :=
    (Optimizer.optimize differential_evolution minimize self ts x_obs y_obs
       use_refinement de_maxiter de_popsize de_tol h).1 in
  (use_refinement = false ->
   returned = inr (Optimizer.x rde, Optimizer.fun_ rde))
  /\ (use_refinement = true ->
      forall rmin,
        OptimizerAux.refinement_phase minimize self (Optimizer.x rde)
          ts x_obs y_obs = inr rmin ->
        returned = inr (Optimizer.x rmin, Optimizer.fun_ rmin)).
Proof.
  intros Hde returned. subst returned. rewrite optimize_result.
  unfold OptimizerAux.phases. rewrite Hde. split.
  - by intros ->.
  - intros -> rmin Hmin. by rewrite Hmin.
Qed.

(** C4, as the code has it. [get_history] returns a new list holding the
    step records of the history: it reads as the history does, and any
    sequence of mutations of that list itself (assigning its items,
    appending to it) leaves the optimizer's history as it was and changes
    neither what a later [optimize] returns nor the history it leaves. *)
Theorem get_history_list_copy
    (differential_evolution :
       Optimizer.objective_fn -> list (R * R) -> Optimizer.de_kwargs ->
       result Optimizer.OptimizeResult)
    (minimize :
       Optimizer.objective_fn -> R * R * R -> Optimizer.min_kwargs ->
       result Optimizer.OptimizeResult)
    (self : Optimizer.t) (h : Heap.t) (v : list Heap.dict) :
  OptimizerAux.history h self = Some v ->
  exists (r : Heap.lref) (h1 : Heap.t),
    Optimizer.get_history self h = (inr r, h1)
    /\ Heap.read_list h1 r = Some v
    /\ forall mus : list Caller.mutation,
         forallb Caller.on_list mus = true ->
         let h2 := Caller.mutate_all r mus h1 in
         OptimizerAux.history h2 self = Some v
         /\ forall (ts x_obs y_obs : list R) (use_refinement : bool)
                   (de_maxiter de_popsize : Z) (de_tol : R),
              let later (hh : Heap.t) :=
                Optimizer.optimize differential_evolution minimize self
                  ts x_obs y_obs use_refinement de_maxiter de_popsize de_tol hh in
              (later h2).1 = (later h1).1
              /\ OptimizerAux.history (later h2).2 self
                 = OptimizerAux.history (later h1).2 self.
Proof.
  intros Hv.
  destruct (get_history_copy self h v Hv) as (h1 & Hget & Hread & Hv1).
  exists (length (Heap.lists h)), h1. split; [done |]. split; [done |].
  intros mus Hmus h2.
  assert (Hne : Optimizer.optimization_history self <> length (Heap.lists h)).
  { apply read_list_valid in Hv. lia. }
  assert (Hv2 : OptimizerAux.history h2 self = Some v)
    by (by apply mutate_all_on_list_history).
  split; [done |].
  intros ts x_obs y_obs use_refinement de_maxiter de_popsize de_tol later.
  subst later; cbn beta. split.
  - by rewrite !optimize_result.
  - destruct (optimize_phases differential_evolution minimize self ts x_obs y_obs
                use_refinement de_maxiter de_popsize de_tol h2 v Hv2)
      as (h2' & E2 & Hh2).
    destruct (optimize_phases differential_evolution minimize self ts x_obs y_obs
                use_refinement de_maxiter de_popsize de_tol h1 v Hv1)
      as (h1' & E1 & Hh1).
    rewrite E1, E2; cbn [snd]. by rewrite Hh1, Hh2.
Qed.

(** *** Runs of the sample optimizer *)

Lemma sample_init :
  Optimizer.__init__ ParametricModel.default Sample.loss 42 true Heap.empty
  = (inr Sample.optimizer, Sample.heap0).
Proof. reflexivity. Qed.

Lemma sample_run_global :
  Sample.run false Sample.heap0
  = (inr (Optimizer.x Sample.global_result, Optimizer.fun_ Sample.global_result),
     Sample.heap1).
Proof. reflexivity. Qed.

Lemma sample_run_refined :
  Sample.run true Sample.heap0
  = (inr (Optimizer.x Sample.refined_result, Optimizer.fun_ Sample.refined_result),
     Sample.heap2).
Proof. reflexivity. Qed.

Lemma sample_tags (h : Heap.t) (tag : string) (r : Optimizer.OptimizeResult) :
  OptimizerAux.history h Sample.optimizer = Some [OptimizerAux.step_of tag r] ->
  OptimizerAux.methods <$> OptimizerAux.history h Sample.optimizer
  = Some [Some (Heap.VStr tag)].
Proof. intros ->. cbn [fmap option_fmap option_map]. f_equal. cbn. f_equal. apply step_of_method. Qed.

(** Against C3 as stated: after a run without refinement on a new
    optimizer, the tag of the only step is not ["global-search"]. *)
Lemma history_tag_not_global_search :
  Optimizer.__init__ ParametricModel.default Sample.loss 42 true Heap.empty
  = (inr Sample.optimizer, Sample.heap0)
  /\ Sample.run false Sample.heap0
     = (inr (20, 2 / 100, 30, 1 / 100)%R, Sample.heap1)
  /\ OptimizerAux.methods <$> OptimizerAux.history Sample.heap1 Sample.optimizer
     = Some [Some (Heap.VStr "differential_evolution")]
  /\ OptimizerAux.methods <$> OptimizerAux.history Sample.heap1 Sample.optimizer
     <> Some [Some (Heap.VStr "global-search")].
Proof.
  assert (Htags :
    OptimizerAux.methods <$> OptimizerAux.history Sample.heap1 Sample.optimizer
    = Some [Some (Heap.VStr "differential_evolution")]).
  { by apply (sample_tags _ _ Sample.global_result). }
  split; [reflexivity |]. split; [reflexivity |]. split; [exact Htags |].
  rewrite Htags. discriminate.
Qed.

Lemma history_after_optimize_witness :
  exists steps : list Heap.dict,
    OptimizerAux.history Sample.heap2 Sample.optimizer = Some steps
    /\ length steps = 2
    /\ OptimizerAux.methods steps
       = [Some (Heap.VStr "differential_evolution"); Some (Heap.VStr "L-BFGS-B")].
Proof.
  destruct (history_after_optimize Sample.de Sample.minimize
              ParametricModel.default Sample.loss 42 true Heap.empty
              Sample.ts Sample.x_obs Sample.y_obs true 2000 17 (1 / 1000000)%R
              Sample.optimizer Sample.heap0 Sample.heap2
              (Optimizer.x Sample.refined_result, Optimizer.fun_ Sample.refined_result)
              eq_refl eq_refl)
    as (steps & rde & Hh & _ & rmin & _ & _ & Hlen & Htags).
  exists steps. split; [exact Hh |]. split; [exact Hlen | exact Htags].
Defined.

Lemma optimize_returns_terminal_phase_witness :
  (Optimizer.fun_ Sample.global_result <= Optimizer.fun_ Sample.refined_result)%R
  /\ (Sample.run true Sample.heap0).1
     = inr (Optimizer.x Sample.refined_result, Optimizer.fun_ Sample.refined_result).
Proof.
  split; [cbn; lra |].
  exact (proj2 (optimize_returns_terminal_phase Sample.de Sample.minimize
                  Sample.optimizer Sample.ts Sample.x_obs Sample.y_obs true
                  2000 17 (1 / 1000000)%R Sample.heap0 Sample.global_result eq_refl)
               eq_refl Sample.refined_result eq_refl).
Defined.

(** Against C4 as stated: after a run, a caller sets a key of the first
    record of the list that [get_history] returned, and the optimizer's
    own history shows the change. *)
Lemma get_history_record_shared :
  Sample.run false Sample.heap0
  = (inr (20, 2 / 100, 30, 1 / 100)%R, Sample.heap1)
  /\ exists (r : Heap.lref) (h : Heap.t),
       Optimizer.get_history Sample.optimizer Sample.heap1 = (inr r, h)
       /\ let h' := Caller.mutate r
                      (Caller.SetItem 0 "method" (Heap.VStr "tampered")) h in
          OptimizerAux.methods <$> OptimizerAux.history h Sample.optimizer
          = Some [Some (Heap.VStr "differential_evolution")]
          /\ OptimizerAux.methods <$> OptimizerAux.history h' Sample.optimizer
             = Some [Some (Heap.VStr "tampered")]
          /\ OptimizerAux.history h' Sample.optimizer
             <> OptimizerAux.history h Sample.optimizer.
Proof.
  split; [reflexivity |].
  eexists _, _. split; [reflexivity |].
  assert (H1 : OptimizerAux.methods <$>
                 OptimizerAux.history
                   (Optimizer.get_history Sample.optimizer Sample.heap1).2
                   Sample.optimizer
               = Some [Some (Heap.VStr "differential_evolution")]).
  { by apply (sample_tags _ _ Sample.global_result). }
  assert (H2 : OptimizerAux.methods <$>
                 OptimizerAux.history
                   (Caller.mutate 1
                      (Caller.SetItem 0 "method" (Heap.VStr "tampered"))
                      (Optimizer.get_history Sample.optimizer Sample.heap1).2)
                   Sample.optimizer
               = Some [Some (Heap.VStr "tampered")]).
  { reflexivity. }
  cbn zeta. split; [exact H1 |]. split; [exact H2 |].
  intros Heq. apply (f_equal (fmap OptimizerAux.methods)) in Heq.
  pose proof (eq_trans (eq_sym H2) (eq_trans Heq H1)) as Habs.
  discriminate Habs.
Qed.

Lemma get_history_list_copy_witness :
  exists (r : Heap.lref) (h1 : Heap.t),
    Optimizer.get_history Sample.optimizer Sample.heap1 = (inr r, h1)
    /\ OptimizerAux.history
         (Caller.mutate_all r [Caller.Assign []; Caller.AppendNew ∅] h1)
         Sample.optimizer
       = Some [OptimizerAux.step_of "differential_evolution" Sample.global_result].
Proof.
  destruct (get_history_list_copy Sample.de Sample.minimize Sample.optimizer
              Sample.heap1
              [OptimizerAux.step_of "differential_evolution" Sample.global_result]
              eq_refl)
    as (r & h1 & Hget & _ & Hframe).
  exists r, h1. split; [exact Hget |].
  exact (proj1 (Hframe [Caller.Assign []; Caller.AppendNew ∅] eq_refl)).
Defined.

(** ** DataLoader and the pipeline *)

Section LoaderFacts.

Variable read_csv : string -> result pd.DataFrame.

Lemma getitem_has_column (df : pd.DataFrame) (name : string) :
  pd.has_column name df = true ->
  exists col, pd.getitem df name = ret col /\ (name, col) ∈ df.
Proof.
  unfold pd.has_column, pd.columns. rewrite bool_decide_eq_true.
  induction df as [|[n col] df IH]; cbn; intros Hin.
  - by apply elem_of_nil in Hin.
  - destruct (decide (n = name)) as [->|Hne].
    + exists col. split; [done | left].
    + apply elem_of_cons in Hin as [Heq | Hin]; [done |].
      destruct (IH Hin) as (c & Hc & Hc'). exists c. split; [done | by right].
Qed.

(** What [load] raises when [read_csv] raises. *)
Lemma load_read_raises (self : DataLoader.t) (e : exn) :
  read_csv (DataLoader.csv_path self) = inl e ->
  DataLoader.load read_csv self = (inl (DataLoader.handler e), self).
Proof.
  intros Hread. unfold DataLoader.load, DataLoader.load_try, mbind, get, lift.
  cbn. by rewrite Hread.
Qed.

Lemma load_missing_column (self : DataLoader.t) (df : pd.DataFrame) :
  read_csv (DataLoader.csv_path self) = inr df ->
  pd.has_column "x" df = false \/ pd.has_column "y" df = false ->
  DataLoader.load read_csv self = (inl ValueError, self).
Proof.
  intros Hread Hcol. unfold DataLoader.load, DataLoader.load_try, mbind, get, lift.
  cbn. rewrite Hread.
  destruct Hcol as [-> | ->]; cbn; [done |].
  by destruct (pd.has_column "x" df).
Qed.

Lemma load_zero_rows (self : DataLoader.t) (df : pd.DataFrame) :
  read_csv (DataLoader.csv_path self) = inr df ->
  Forall (fun c : string * list pd.cell => c.2 = []) df ->
  (DataLoader.load read_csv self).1 = inl ValueError.
Proof.
  intros Hread Hrows.
  destruct (pd.has_column "x" df) eqn:Hx;
    [| by rewrite (load_missing_column self df) by auto].
  destruct (pd.has_column "y" df) eqn:Hy;
    [| by rewrite (load_missing_column self df) by auto].
  destruct (getitem_has_column df "x" Hx) as (cx & Hgx & Hinx).
  destruct (getitem_has_column df "y" Hy) as (cy & Hgy & Hiny).
  rewrite Forall_forall in Hrows.
  apply Hrows in Hinx, Hiny. cbn in Hinx, Hiny. subst cx cy.
  unfold DataLoader.load, DataLoader.load_try, mbind, get, lift.
  cbn. rewrite Hread, Hx, Hy; cbn. by rewrite Hgx, Hgy.
Qed.

End LoaderFacts.

Section PipelineFacts.

Variable W : Type.
Variable read_csv : string -> result pd.DataFrame.
Variable differential_evolution :
  Optimizer.objective_fn -> list (R * R) -> Optimizer.de_kwargs ->
  result Optimizer.OptimizeResult.
Variable minimize :
  Optimizer.objective_fn -> R * R * R -> Optimizer.min_kwargs ->
  result Optimizer.OptimizeResult.
Variable plot_fit :
  list R -> list R -> list R -> R -> R -> R -> R -> string -> ST W unit.
Variable generate_report : R -> R -> R -> R -> string -> bool -> ST W string.
Variable plot_optimization_history :
  option (list Heap.dict) -> string -> ST W unit.

(** When [load] raises, [run] raises the same exception at once: the
    heap with the optimizer's history, the result attributes and the
    outside are as before. *)
Lemma run_load_raises (self : CurveFitting.t) (use_refinement : bool)
    (de_maxiter de_popsize : Z) (de_tol : R) (plot_path results_path : string)
    (s : CurveFitting.state W) (e : exn) :
  (DataLoader.load read_csv (CurveFitting.data_loader W s)).1 = inl e ->
  exists s',
    CurveFitting.run W read_csv differential_evolution minimize plot_fit
      generate_report plot_optimization_history self use_refinement
      de_maxiter de_popsize de_tol plot_path results_path s = (inl e, s')
    /\ CurveFitting.heap W s' = CurveFitting.heap W s
    /\ CurveFitting.outside W s' = CurveFitting.outside W s
    /\ CurveFitting.final_loss W s' = CurveFitting.final_loss W s
    /\ CurveFitting.data_summary W s' = CurveFitting.data_summary W s.
Proof.
  intros Hload. unfold CurveFitting.run. unfold mbind at 1.
  unfold CurveFitting.on_loader at 1.
  destruct (DataLoader.load read_csv (CurveFitting.data_loader W s))
    as [[e'|v] dl]; cbn in Hload; [| done].
  injection Hload as ->. eexists; split; [reflexivity |]. by cbn.
Qed.

End PipelineFacts.

(** C9. [load] raises, and returns no data, when the path does not exist
    ([FileNotFoundError]), when the file has no data or the table has no
    row ([ValueError]), and when the table lacks the column ['x'] or the
    column ['y'] ([ValueError]); [run] then raises the same exception
    before it calls the optimizer: the heap with the optimizer's history,
    the result attributes and the outside are as before. *)
Theorem load_fails_before_optimization
    (W : Type) (read_csv : string -> result pd.DataFrame)
    (differential_evolution :
       Optimizer.objective_fn -> list (R * R) -> Optimizer.de_kwargs ->
       result Optimizer.OptimizeResult)
    (minimize :
       Optimizer.objective_fn -> R * R * R -> Optimizer.min_kwargs ->
       result Optimizer.OptimizeResult)
    (plot_fit :
       list R -> list R -> list R -> R -> R -> R -> R -> string -> ST W unit)
    (generate_report : R -> R -> R -> R -> string -> bool -> ST W string)
    (plot_optimization_history : option (list Heap.dict) -> string -> ST W unit)
    (self : CurveFitting.t) (use_refinement : bool)
    (de_maxiter de_popsize : Z) (de_tol : R) (plot_path results_path : string)
    (s : CurveFitting.state W) :
  let loader := CurveFitting.data_loader W s in
  let path := DataLoader.csv_path loader in
  let fails_with (e : exn) :=
    (DataLoader.load read_csv loader).1 = inl e
    /\ exists s',
         CurveFitting.run W read_csv differential_evolution minimize plot_fit
           generate_report plot_optimization_history self use_refinement
           de_maxiter de_popsize de_tol plot_path results_path s = (inl e, s')
         /\ CurveFitting.heap W s' = CurveFitting.heap W s
         /\ CurveFitting.outside W s' = CurveFitting.outside W s
         /\ CurveFitting.final_loss W s' = CurveFitting.final_loss W s
         /\ CurveFitting.data_summary W s' = CurveFitting.data_summary W s in
  (read_csv path = inl FileNotFoundError -> fails_with FileNotFoundError)
  /\ (read_csv path = inl EmptyDataError -> fails_with ValueError)
  /\ (forall df, read_csv path = inr df ->
        Forall (fun c : string * list pd.cell => c.2 = []) df ->
        fails_with ValueError)
  /\ (forall df, read_csv path = inr df ->
        pd.has_column "x" df = false \/ pd.has_column "y" df = false ->
        fails_with ValueError).
Proof.
  intros loader path fails_with.
  assert (Hrun : forall e, (DataLoader.load read_csv loader).1 = inl e ->
                           fails_with e).
  { intros e He. split; [exact He |]. by apply run_load_raises. }
  split; [| split; [| split]].
  - intros Hread. apply Hrun.
    by rewrite (load_read_raises read_csv loader FileNotFoundError Hread).
  - intros Hread. apply Hrun.
    by rewrite (load_read_raises read_csv loader EmptyDataError Hread).
  - intros df Hread Hrows. apply Hrun.
    exact (load_zero_rows read_csv loader df Hread Hrows).
  - intros df Hread Hcol. apply Hrun.
    by rewrite (load_missing_column read_csv loader df Hread Hcol).
Qed.

(** ** The claims at sample inputs *)

Lemma compute_mean_of_min_witness :
  Sample.ts <> [] /\ length Sample.x_obs = length Sample.y_obs
  /\ 1 <= length Sample.x_obs
  /\ L1Loss.compute Sample.loss (20, 2 / 100, 30)%R
       Sample.ts Sample.x_obs Sample.y_obs
     = inr (LossSpec.mean_min
              (ParametricModel.predict ParametricModel.default Sample.ts
                 20 (2 / 100) 30).1
              (ParametricModel.predict ParametricModel.default Sample.ts
                 20 (2 / 100) 30).2
              Sample.x_obs Sample.y_obs).
Proof.
  assert (Hgrid : Sample.ts <> []) by discriminate.
  assert (Hlen : length Sample.x_obs = length Sample.y_obs) by reflexivity.
  assert (HN : 1 <= length Sample.x_obs) by (cbn; lia).
  split; [exact Hgrid |]. split; [exact Hlen |]. split; [exact HN |].
  exact (compute_mean_of_min Sample.loss 20 (2 / 100) 30
           Sample.ts Sample.x_obs Sample.y_obs Hgrid Hlen HN).
Defined.

(** Against C10 as stated: one observation, and no value is returned,
    because the grid has no sample. *)
Lemma compute_raises_on_empty_grid :
  1 <= length [0%R]
  /\ L1Loss.compute Sample.loss (0, 0, 0)%R [] [0%R] [0%R] = inl ValueError
  /\ ~ exists v, L1Loss.compute Sample.loss (0, 0, 0)%R [] [0%R] [0%R] = inr v.
Proof.
  split; [cbn; lia |]. split; [reflexivity |]. by intros [v Hv].
Qed.

Lemma compute_total_iff_witness :
  1 <= length Sample.x_obs
  /\ exists v,
       L1Loss.compute Sample.loss (20, 2 / 100, 30)%R
         Sample.ts Sample.x_obs Sample.y_obs = inr v.
Proof.
  assert (HN : 1 <= length Sample.x_obs) by (cbn; lia).
  split; [exact HN |].
  apply (proj2 (proj2 (compute_total_iff Sample.loss (20, 2 / 100, 30)%R
                         Sample.ts Sample.x_obs Sample.y_obs)
                      HN)).
  split; [discriminate | cbn; lia].
Defined.

Lemma load_fails_before_optimization_witness :
  (DataLoader.load Sample.read_csv_missing
     (CurveFitting.data_loader unit Sample.state0)).1
  = inl FileNotFoundError.
Proof.
  exact (proj1 (proj1 (load_fails_before_optimization unit
                         Sample.read_csv_missing Sample.de Sample.minimize
                         Sample.plot_fit Sample.generate_report
                         Sample.plot_optimization_history Sample.pipeline
                         true 500 10 (1 / 10000)%R "fit_plot.png" "results.txt"
                         Sample.state0)
                      eq_refl)).
Defined.

(** * Further properties of the code *)

(** ** ParametricModel: the curve *)

Section CurveFacts.

Local Open Scope R_scope.
Import LossAux.

Variable self : ParametricModel.t.

(** [predict] computes the point of the curve at each entry of the grid. *)
Lemma predict_points (ts : list R) (theta_deg m x : R) :
  ParametricModel.predict self ts theta_deg m x
  = ((fun t => (point self theta_deg m x t).1) <$> ts,
     (fun t => (point self theta_deg m x t).2) <$> ts).
Proof.
  unfold ParametricModel.predict, point,
    np.adds, np.sadd, np.add, np.sub, np.mul, np.muls, np.smul,
    np.exp, np.sin, np.abs.
  f_equal; induction ts as [|t ts IH]; simpl; try done; f_equal; apply IH.
Qed.

End CurveFacts.

(** X2. [predict] works entry by entry: on the concatenation of two grids
    it returns the concatenation of the outputs, and on the empty grid
    two empty sequences. *)
Theorem predict_app (self : ParametricModel.t) (ts1 ts2 : list R)
    (theta_deg m x : R) :
  let p := fun ts => ParametricModel.predict self ts theta_deg m x in
  p (ts1 ++ ts2) = ((p ts1).1 ++ (p ts2).1, (p ts1).2 ++ (p ts2).2)
  /\ p [] = ([], []).
Proof.
  intros p. subst p. cbn beta.
  rewrite !predict_points; cbn [fst snd]. by rewrite !fmap_app.
Qed.

(** X3. With [m = 0] the exponential factor is 1:
    [x_pred = t*c - sin(f*t)*s + x] and [y_pred = y_offset + t*s + sin(f*t)*c],
    for [f] the frequency of the model. *)
Theorem predict_m_zero (self : ParametricModel.t) (ts : list R)
    (theta_deg x : R) :
  let c := cos (np.deg2rad theta_deg) in
  let s := sin (np.deg2rad theta_deg) in
  let f := ParametricModel.frequency self in
  ParametricModel.predict self ts theta_deg 0 x
  = ((fun t => t * c - sin (f * t) * s + x)%R <$> ts,
     (fun t => ParametricModel.y_offset self + t * s + sin (f * t) * c)%R <$> ts).
Proof.
  intros c s f. rewrite predict_points.
  f_equal; apply list_fmap_ext; intros i t _; unfold LossAux.point;
    cbn [fst snd]; fold c s f; rewrite Rmult_0_l, exp_0; lra.
Qed.

(** ** L1Loss: how the loss reacts to its inputs *)

Section LoopFacts.

Local Open Scope R_scope.
Import LossAux.

(** The loop reads [y_obs] only at the indices it visits. *)
Lemma loop_take (xc yc xo yo : list R) (n : nat) (idx : list nat) (total : R) :
  Forall (fun i => (i < n)%nat) idx ->
  L1Loss.loop xc yc xo (take n yo) idx total = L1Loss.loop xc yc xo yo idx total.
Proof.
  revert total; induction idx as [|i idx IH]; intros total Hidx; [done |].
  apply Forall_cons in Hidx as [Hi Hidx].
  cbn [L1Loss.loop]. unfold np.getitem. rewrite lookup_take_lt by done.
  destruct (xo !! i) as [xi|]; [| done]; cbn [bind ret].
  destruct (yo !! i) as [yi|]; [| done]; cbn [bind ret].
  destruct (np.min _) as [e|mn]; [done |]; cbn [bind]. by apply IH.
Qed.

(** With samples on the curve, the loop stops with [IndexError] at the
    first index that [y_obs] does not have. *)
Lemma loop_index_error (xc yc xo yo : list R) (n a : nat) (total : R) :
  xc <> [] -> yc <> [] ->
  (a <= length yo)%nat -> (length yo < a + n)%nat -> (a + n <= length xo)%nat ->
  L1Loss.loop xc yc xo yo (seq a n) total = inl IndexError.
Proof.
  intros Hxc Hyc. revert a total; induction n as [|n IH]; intros a total Ha Hy Hx;
    [lia |].
  cbn [seq L1Loss.loop]. unfold np.getitem.
  destruct (lookup_lt_is_Some_2 xo a) as [xi ->]; [lia |]. cbn [bind ret].
  destruct (yo !! a) as [yi|] eqn:Hyi; cbn [bind ret]; [| done].
  apply lookup_lt_Some in Hyi.
  rewrite np_min_least by (rewrite l1_distances_nil; tauto). cbn [bind ret].
  apply IH; lia.
Qed.

End LoopFacts.

(** X8. [compute] never reads [y_obs] beyond the length of [x_obs]: extra
    entries of [y_obs] change nothing, and no mismatch of the lengths is
    reported. *)
Theorem compute_ignores_extra_y (self : L1Loss.t) (params : R * R * R)
    (t_grid x_obs y_obs : list R) :
  L1Loss.compute self params t_grid x_obs (take (length x_obs) y_obs)
  = L1Loss.compute self params t_grid x_obs y_obs.
Proof.
  destruct params as [[theta_deg m] x]. unfold L1Loss.compute.
  destruct (ParametricModel.predict _ _ _ _ _) as [xc yc].
  rewrite loop_take; [done |].
  apply Forall_forall. intros i Hi. apply elem_of_seq in Hi. lia.
Qed.

(** X9. With a sample on the grid and fewer [y_obs] than [x_obs],
    [compute] raises [IndexError]. *)
Theorem compute_short_y_index_error (self : L1Loss.t) (params : R * R * R)
    (t_grid x_obs y_obs : list R) :
  t_grid <> [] -> length y_obs < length x_obs ->
  L1Loss.compute self params t_grid x_obs y_obs = inl IndexError.
Proof.
  intros Hgrid Hshort. destruct params as [[theta_deg m] x].
  unfold L1Loss.compute. rewrite predict_points.
  rewrite loop_index_error; [done | | | lia | lia | lia].
  - intros H. by apply fmap_nil_inv in H.
  - intros H. by apply fmap_nil_inv in H.
Qed.

Lemma compute_short_y_index_error_witness :
  Sample.ts <> [] /\ length [45%R] < length Sample.x_obs
  /\ L1Loss.compute Sample.loss (20, 2 / 100, 30)%R Sample.ts Sample.x_obs [45%R]
     = inl IndexError.
Proof.
  assert (Hgrid : Sample.ts <> []) by discriminate.
  assert (Hshort : length [45%R] < length Sample.x_obs) by (cbn; lia).
  split; [exact Hgrid |]. split; [exact Hshort |].
  exact (compute_short_y_index_error Sample.loss (20, 2 / 100, 30)%R Sample.ts
           Sample.x_obs [45%R] Hgrid Hshort).
Defined.

(** ** Optimizer: the history across calls *)

Lemma step_dict_lookups (tag : string) (theta m x l : R) :
  let d := Optimizer.step_dict tag theta m x l in
  d !! "method" = Some (Heap.VStr tag)
  /\ d !! "theta" = Some (Heap.VFloat theta)
  /\ d !! "m" = Some (Heap.VFloat m)
  /\ d !! "x" = Some (Heap.VFloat x)
  /\ d !! "loss" = Some (Heap.VFloat l).
Proof.
  unfold Optimizer.step_dict; cbn zeta.
  repeat split; repeat (rewrite lookup_insert_ne by done);
    by rewrite lookup_insert_eq.
Qed.

(** X10. [optimize] only ever appends to the history: after a call, the
    history is the history before followed by the new steps. A call that
    returns adds one step without refinement and two with it; a call that
    raises adds at most one. *)
Theorem optimize_appends
    (differential_evolution :
       Optimizer.objective_fn -> list (R * R) -> Optimizer.de_kwargs ->
       result Optimizer.OptimizeResult)
    (minimize :
       Optimizer.objective_fn -> R * R * R -> Optimizer.min_kwargs ->
       result Optimizer.OptimizeResult)
    (self : Optimizer.t) (ts x_obs y_obs : list R) (use_refinement : bool)
    (de_maxiter de_popsize : Z) (de_tol : R) (h : Heap.t) (v : list Heap.dict) :
  OptimizerAux.history h self = Some v ->
  let out := Optimizer.optimize differential_evolution minimize self
               ts x_obs y_obs use_refinement de_maxiter de_popsize de_tol h in
  exists new : list Heap.dict,
    OptimizerAux.history out.2 self = Some (v ++ new)
    /\ match out.1 with
       | inr _ => length new = if use_refinement then 2 else 1
       | inl _ => length new <= 1
       end.
Proof.
  intros Hv out.
  destruct (optimize_phases differential_evolution minimize self ts x_obs y_obs
              use_refinement de_maxiter de_popsize de_tol h v Hv)
    as (h' & Hrun & Hh').
  subst out. rewrite Hrun; cbn [fst snd].
  eexists. split; [exact Hh' |].
  unfold OptimizerAux.phases.
  destruct (OptimizerAux.global_phase _ _ _ _ _ _ _ _) as [e|rde]; cbn; [lia |].
  destruct use_refinement; cbn; [| done].
  destruct (OptimizerAux.refinement_phase _ _ _ _ _ _) as [e|rmin]; cbn; lia.
Qed.

(** X11. An exception of a solver comes out of [optimize] as it is. When
    the global search raises, the heap is left as it was. When the
    refinement raises, the step of the global search is already in the
    history and stays there. *)
Theorem optimize_solver_raises
    (differential_evolution :
       Optimizer.objective_fn -> list (R * R) -> Optimizer.de_kwargs ->
       result Optimizer.OptimizeResult)
    (minimize :
       Optimizer.objective_fn -> R * R * R -> Optimizer.min_kwargs ->
       result Optimizer.OptimizeResult)
    (self : Optimizer.t) (ts x_obs y_obs : list R) (use_refinement : bool)
    (de_maxiter de_popsize : Z) (de_tol : R) (h : Heap.t) (v : list Heap.dict)
    (e : exn) :
  OptimizerAux.history h self = Some v ->
  let out := Optimizer.optimize differential_evolution minimize self
               ts x_obs y_obs use_refinement de_maxiter de_popsize de_tol h in
  let global := OptimizerAux.global_phase differential_evolution self
                  ts x_obs y_obs de_maxiter de_popsize de_tol in
  (global = inl e -> out = (inl e, h))
  /\ (forall rde, global = inr rde -> use_refinement = true ->
        OptimizerAux.refinement_phase minimize self (Optimizer.x rde)
          ts x_obs y_obs = inl e ->
        out.1 = inl e
        /\ OptimizerAux.history out.2 self
           = Some (v ++ [OptimizerAux.step_of "differential_evolution" rde])).
Proof.
  intros Hv out global.
  destruct (optimize_phases differential_evolution minimize self ts x_obs y_obs
              use_refinement de_maxiter de_popsize de_tol h v Hv)
    as (h' & Hrun & Hh').
  subst out global. split.
  - intros Hde. unfold Optimizer.optimize.
    unfold OptimizerAux.global_phase, OptimizerAux.objective in Hde.
    cbn [ParametricModel.get_parameter_bounds]. unfold mbind at 1, lift.
    by rewrite Hde.
  - intros rde Hde -> Hmin. rewrite Hrun; cbn [fst snd].
    unfold OptimizerAux.phases in *. rewrite Hde in *. rewrite Hmin in *.
    by split.
Qed.

(** X12. What [optimize] returns is what its last step in the history
    holds: the keys ['theta'], ['m'], ['x'] and ['loss'] of the last
    record are the four numbers returned. *)
Theorem optimize_result_is_last_step
    (differential_evolution :
       Optimizer.objective_fn -> list (R * R) -> Optimizer.de_kwargs ->
       result Optimizer.OptimizeResult)
    (minimize :
       Optimizer.objective_fn -> R * R * R -> Optimizer.min_kwargs ->
       result Optimizer.OptimizeResult)
    (self : Optimizer.t) (ts x_obs y_obs : list R) (use_refinement : bool)
    (de_maxiter de_popsize : Z) (de_tol : R) (h h' : Heap.t)
    (v : list Heap.dict) (theta m x l : R) :
  OptimizerAux.history h self = Some v ->
  Optimizer.optimize differential_evolution minimize self ts x_obs y_obs
    use_refinement de_maxiter de_popsize de_tol h = (inr (theta, m, x, l), h') ->
  exists (steps : list Heap.dict) (d : Heap.dict),
    OptimizerAux.history h' self = Some steps /\ last steps = Some d
    /\ d !! "theta" = Some (Heap.VFloat theta)
    /\ d !! "m" = Some (Heap.VFloat m)
    /\ d !! "x" = Some (Heap.VFloat x)
    /\ d !! "loss" = Some (Heap.VFloat l).
Proof.
  intros Hv Hopt.
  destruct (optimize_phases differential_evolution minimize self ts x_obs y_obs
              use_refinement de_maxiter de_popsize de_tol h v Hv)
    as (h2 & Hrun & Hh2).
  rewrite Hopt in Hrun. injection Hrun as Hres <-.
  unfold OptimizerAux.phases in Hres, Hh2.
  destruct (OptimizerAux.global_phase _ _ _ _ _ _ _ _)
    as [e|[[[th0 m0] x0] l0]]; [done |].
  destruct use_refinement.
  - destruct (OptimizerAux.refinement_phase _ _ _ _ _ _)
      as [e|[[[th1 m1] x1] l1]]; [done |].
    cbn in Hres. injection Hres as -> -> -> ->.
    eexists _, _. split; [exact Hh2 |]. split.
    + cbn [snd fst]. rewrite last_app. reflexivity.
    + exact (proj2 (step_dict_lookups "L-BFGS-B" _ _ _ _)).
  - cbn in Hres. injection Hres as -> -> -> ->.
    eexists _, _. split; [exact Hh2 |]. split.
    + cbn [snd fst]. rewrite last_app. reflexivity.
    + exact (proj2 (step_dict_lookups "differential_evolution" _ _ _ _)).
Qed.

(** X13. Every call of [get_history] makes a new list: two calls return
    two different lists, neither of them the optimizer's own, both read
    as the history does, the history is as before, and mutating one of
    the two lists leaves the other one as it was. *)
Theorem get_history_new_list_each_time (self : Optimizer.t) (h : Heap.t)
    (v : list Heap.dict) :
  OptimizerAux.history h self = Some v ->
  exists (r1 r2 : Heap.lref) (h1 h2 : Heap.t),
    Optimizer.get_history self h = (inr r1, h1)
    /\ Optimizer.get_history self h1 = (inr r2, h2)
    /\ r1 <> r2
    /\ r1 <> Optimizer.optimization_history self
    /\ r2 <> Optimizer.optimization_history self
    /\ Heap.read_list h2 r1 = Some v /\ Heap.read_list h2 r2 = Some v
    /\ OptimizerAux.history h2 self = Some v
    /\ forall mus : list Caller.mutation,
         forallb Caller.on_list mus = true ->
         Heap.read_list (Caller.mutate_all r1 mus h2) r2 = Some v.
Proof.
  intros Hv.
  destruct (get_history_copy self h v Hv) as (h1 & Hget1 & Hr1 & Hv1).
  destruct (get_history_copy self h1 v Hv1) as (h2 & Hget2 & Hr2 & Hv2).
  pose proof (read_list_valid _ _ _ Hv) as Hvalid.
  pose proof (read_list_valid _ _ _ Hr1) as Hvalid1.
  exists (length (Heap.lists h)), (length (Heap.lists h1)), h1, h2.
  split; [done |]. split; [done |].
  assert (Hne : length (Heap.lists h) <> length (Heap.lists h1)) by lia.
  split; [done |]. split; [lia |]. split; [lia |].
  assert (Hr1' : Heap.read_list h2 (length (Heap.lists h)) = Some v).
  { unfold Optimizer.get_history, alloc in Hget2.
    destruct (Heap.list_copy _ h1) as [r hh] eqn:Hcopy.
    injection Hget2 as _ <-. unfold Heap.list_copy in Hcopy.
    replace hh with (Heap.new_list
                       (default [] (Heap.lists h1
                                    !! Optimizer.optimization_history self)) h1).2
      by (by rewrite Hcopy).
    by apply read_list_new_list. }
  split; [done |]. split; [done |]. split; [done |].
  intros mus Hmus.
  pose (other := Optimizer.mk (Optimizer.model self) (Optimizer.loss self)
                   (Optimizer.seed self) (Optimizer.verbose self)
                   (length (Heap.lists h1))).
  apply (mutate_all_on_list_history other (length (Heap.lists h)) mus h2 v Hmus).
  - cbn. lia.
  - exact Hr2.
Qed.

Lemma sample_history1 :
  OptimizerAux.history Sample.heap1 Sample.optimizer
  = Some [OptimizerAux.step_of "differential_evolution" Sample.global_result].
Proof. reflexivity. Qed.

Lemma optimize_appends_witness :
  exists new : list Heap.dict,
    OptimizerAux.history (Sample.run true Sample.heap1).2 Sample.optimizer
    = Some ([OptimizerAux.step_of "differential_evolution" Sample.global_result]
            ++ new)
    /\ match (Sample.run true Sample.heap1).1 with
       | inr _ => length new = 2
       | inl _ => length new <= 1
       end.
Proof.
  exact (optimize_appends Sample.de Sample.minimize Sample.optimizer
           Sample.ts Sample.x_obs Sample.y_obs true 2000 17 (1 / 1000000)%R
           Sample.heap1 _ sample_history1).
Defined.

Lemma optimize_solver_raises_witness :
  let out := Optimizer.optimize Sample.de (Sample.minimize_raising ValueError)
               Sample.optimizer Sample.ts Sample.x_obs Sample.y_obs
               true 2000 17 (1 / 1000000)%R Sample.heap0 in
  out.1 = inl ValueError
  /\ OptimizerAux.history out.2 Sample.optimizer
     = Some ([] ++ [OptimizerAux.step_of "differential_evolution"
                      Sample.global_result]).
Proof.
  exact (proj2 (optimize_solver_raises Sample.de
                  (Sample.minimize_raising ValueError) Sample.optimizer
                  Sample.ts Sample.x_obs Sample.y_obs true 2000 17
                  (1 / 1000000)%R Sample.heap0 [] ValueError eq_refl)
               Sample.global_result eq_refl eq_refl eq_refl).
Defined.

Lemma optimize_result_is_last_step_witness :
  exists (steps : list Heap.dict) (d : Heap.dict),
    OptimizerAux.history Sample.heap2 Sample.optimizer = Some steps
    /\ last steps = Some d
    /\ d !! "theta" = Some (Heap.VFloat 21)
    /\ d !! "m" = Some (Heap.VFloat (2 / 100))
    /\ d !! "x" = Some (Heap.VFloat 30)
    /\ d !! "loss" = Some (Heap.VFloat (5 / 100)).
Proof.
  exact (optimize_result_is_last_step Sample.de Sample.minimize Sample.optimizer
           Sample.ts Sample.x_obs Sample.y_obs true 2000 17 (1 / 1000000)%R
           Sample.heap0 Sample.heap2 [] 21 (2 / 100) 30 (5 / 100)
           eq_refl eq_refl).
Defined.

Lemma get_history_new_list_each_time_witness :
  exists (r1 r2 : Heap.lref) (h1 h2 : Heap.t),
    Optimizer.get_history Sample.optimizer Sample.heap1 = (inr r1, h1)
    /\ Optimizer.get_history Sample.optimizer h1 = (inr r2, h2)
    /\ r1 <> r2.
Proof.
  destruct (get_history_new_list_each_time Sample.optimizer Sample.heap1 _
              sample_history1)
    as (r1 & r2 & h1 & h2 & H1 & H2 & Hne & _).
  exists r1, r2, h1, h2. split; [exact H1 |]. split; [exact H2 | exact Hne].
Defined.

(** ** DataLoader: what [load] returns and leaves behind *)

Section LoadFacts.

Variable read_csv : string -> result pd.DataFrame.

Lemma getitem_ret_has_column (df : pd.DataFrame) (name : string)
    (col : list pd.cell) :
  pd.getitem df name = ret col -> pd.has_column name df = true.
Proof.
  unfold pd.has_column, pd.columns. rewrite bool_decide_eq_true.
  induction df as [|[n c] df IH]; cbn; [done |].
  destruct (decide (n = name)) as [->|Hne]; [left | right; by apply IH].
Qed.

Lemma astype_float_error (col : list pd.cell) (e : exn) :
  pd.astype_float col = inl e -> e = ValueError.
Proof.
  induction col as [|[r|s] col IH]; cbn; [done | | by intros [= <-]].
  destruct (pd.astype_float col) as [e'|vs]; cbn; [| done].
  intros [= <-]. by apply IH.
Qed.

Lemma astype_float_length (col : list pd.cell) (vs : list R) :
  pd.astype_float col = ret vs -> length vs = length col.
Proof.
  revert vs; induction col as [|[r|s] col IH]; intros vs; cbn; [by intros [= <-] | | done].
  destruct (pd.astype_float col) as [e'|vs']; cbn; [done |].
  intros [= <-]. cbn. f_equal. by apply IH.
Qed.

(** The state after the three assignments of the data. *)
Lemma load_frame (self : DataLoader.t) (df : pd.DataFrame)
    (cx cy : list pd.cell) :
  read_csv (DataLoader.csv_path self) = inr df ->
  pd.getitem df "x" = ret cx -> pd.getitem df "y" = ret cy ->
  DataLoader.load read_csv self
  = match pd.astype_float cx with
    | inl e => (inl ValueError, self)
    | inr xs =>
        match pd.astype_float cy with
        | inl e => (inl ValueError, DataLoader.set_x_obs xs self)
        | inr ys =>
            let s3 := DataLoader.set_n_points (length xs)
                        (DataLoader.set_y_obs ys (DataLoader.set_x_obs xs self)) in
            if negb (length ys =? length xs) then (inl ValueError, s3)
            else if length xs =? 0 then (inl ValueError, s3)
            else (inr (xs, ys, length xs),
                  DataLoader.set_t_values
                    (np.linspace (DataLoader.t_min self) (DataLoader.t_max self)
                       (length xs)) s3)
        end
    end.
Proof.
  intros Hread Hgx Hgy.
  pose proof (getitem_ret_has_column df "x" cx Hgx) as Hx.
  pose proof (getitem_ret_has_column df "y" cy Hgy) as Hy.
  unfold DataLoader.load, DataLoader.load_try, mbind, get, lift, update, mret.
  cbn. rewrite Hread, Hx, Hy; cbn. rewrite Hgx; cbn.
  destruct (pd.astype_float cx) as [e|xs] eqn:Hax; cbn.
  { by rewrite (astype_float_error cx e Hax). }
  rewrite Hgy; cbn.
  destruct (pd.astype_float cy) as [e|ys] eqn:Hay; cbn.
  { by rewrite (astype_float_error cy e Hay). }
  destruct (length ys =? length xs); cbn; [| done].
  destruct (length xs =? 0); done.
Qed.

End LoadFacts.

Section LinspaceFacts.

Local Open Scope R_scope.

Lemma linspace_length (a b : R) (n : nat) : length (np.linspace a b n) = n.
Proof.
  destruct n as [|[|n]]; [done | done |].
  unfold np.linspace. by rewrite length_fmap, length_seq.
Qed.





End LinspaceFacts.

(** What a [load] that returns leaves in the loader. *)
Lemma load_sets_attributes_aux (read_csv : string -> result pd.DataFrame)
    (self self' : DataLoader.t) (xs ys : list R) (n : nat) :
  DataLoader.load read_csv self = (inr (xs, ys, n), self') ->
  DataLoader.x_obs self' = Some xs /\ DataLoader.y_obs self' = Some ys
  /\ exists ts, DataLoader.t_values self' = Some ts /\ length ts = n.
Proof.
  intros Hload.
  destruct (read_csv (DataLoader.csv_path self)) as [e|df] eqn:Hread.
  { by rewrite (load_read_raises read_csv self e Hread) in Hload. }
  destruct (pd.has_column "x" df) eqn:Hx;
    [| by rewrite (load_missing_column read_csv self df Hread) in Hload by auto].
  destruct (pd.has_column "y" df) eqn:Hy;
    [| by rewrite (load_missing_column read_csv self df Hread) in Hload by auto].
  destruct (getitem_has_column df "x" Hx) as (cx & Hgx & _).
  destruct (getitem_has_column df "y" Hy) as (cy & Hgy & _).
  rewrite (load_frame read_csv self df cx cy Hread Hgx Hgy) in Hload.
  destruct (pd.astype_float cx) as [e|xs']; [done |].
  destruct (pd.astype_float cy) as [e|ys']; [done |]. cbn zeta in Hload.
  destruct (length ys' =? length xs') eqn:Hlen; cbn in Hload; [| done].
  destruct (length xs' =? 0) eqn:Hz; cbn in Hload; [done |].
  injection Hload as -> -> <- <-. cbn.
  split; [done |]. split; [done |]. eexists. split; [done |].
  apply linspace_length.
Qed.

(** The loader after a [load] that returned. *)
Lemma load_returns_state (read_csv : string -> result pd.DataFrame)
    (self self' : DataLoader.t) (xs ys : list R) (n : nat) :
  DataLoader.load read_csv self = (inr (xs, ys, n), self') ->
  n = length xs /\ length ys = n /\ n <> 0
  /\ self' = DataLoader.set_t_values
               (np.linspace (DataLoader.t_min self) (DataLoader.t_max self) n)
               (DataLoader.set_n_points n
                  (DataLoader.set_y_obs ys (DataLoader.set_x_obs xs self))).
Proof.
  intros Hload.
  destruct (read_csv (DataLoader.csv_path self)) as [e|df] eqn:Hread.
  { by rewrite (load_read_raises read_csv self e Hread) in Hload. }
  destruct (pd.has_column "x" df) eqn:Hx;
    [| by rewrite (load_missing_column read_csv self df Hread) in Hload by auto].
  destruct (pd.has_column "y" df) eqn:Hy;
    [| by rewrite (load_missing_column read_csv self df Hread) in Hload by auto].
  destruct (getitem_has_column df "x" Hx) as (cx & Hgx & _).
  destruct (getitem_has_column df "y" Hy) as (cy & Hgy & _).
  rewrite (load_frame read_csv self df cx cy Hread Hgx Hgy) in Hload.
  destruct (pd.astype_float cx) as [e|xs']; [done |].
  destruct (pd.astype_float cy) as [e|ys']; [done |]. cbn zeta in Hload.
  destruct (length ys' =? length xs') eqn:Hlen; cbn in Hload; [| done].
  destruct (length xs' =? 0) eqn:Hz; cbn in Hload; [done |].
  injection Hload as -> -> <- <-.
  apply Nat.eqb_eq in Hlen. apply Nat.eqb_neq in Hz. done.
Qed.

(** X14. [load] returns exactly when the table has a column ['x'] and a
    column ['y'] whose cells are all numbers, of the same length, not
    zero; it then returns the two columns and the number of rows. *)
Theorem load_returns_iff (read_csv : string -> result pd.DataFrame)
    (self : DataLoader.t) (xs ys : list R) (n : nat) :
  (DataLoader.load read_csv self).1 = inr (xs, ys, n)
  <-> exists df cx cy,
        read_csv (DataLoader.csv_path self) = inr df
        /\ pd.getitem df "x" = ret cx /\ pd.getitem df "y" = ret cy
        /\ pd.astype_float cx = ret xs /\ pd.astype_float cy = ret ys
        /\ n = length xs /\ length ys = n /\ n <> 0.
Proof.
  split.
  - intros Hload.
    destruct (read_csv (DataLoader.csv_path self)) as [e|df] eqn:Hread.
    { by rewrite (load_read_raises read_csv self e Hread) in Hload. }
    destruct (pd.has_column "x" df) eqn:Hx;
      [| by rewrite (load_missing_column read_csv self df Hread) in Hload by auto].
    destruct (pd.has_column "y" df) eqn:Hy;
      [| by rewrite (load_missing_column read_csv self df Hread) in Hload by auto].
    destruct (getitem_has_column df "x" Hx) as (cx & Hgx & _).
    destruct (getitem_has_column df "y" Hy) as (cy & Hgy & _).
    rewrite (load_frame read_csv self df cx cy Hread Hgx Hgy) in Hload.
    exists df, cx, cy. split; [done |]. split; [done |]. split; [done |].
    destruct (pd.astype_float cx) as [e|xs']; [done |].
    destruct (pd.astype_float cy) as [e|ys']; [done |]. cbn zeta in Hload.
    destruct (length ys' =? length xs') eqn:Hlen; cbn in Hload; [| done].
    destruct (length xs' =? 0) eqn:Hz; cbn in Hload; [done |].
    injection Hload as -> -> <-.
    apply Nat.eqb_eq in Hlen. apply Nat.eqb_neq in Hz. done.
  - intros (df & cx & cy & Hread & Hgx & Hgy & Hax & Hay & -> & Hlen & Hz).
    rewrite (load_frame read_csv self df cx cy Hread Hgx Hgy), Hax, Hay.
    unfold ret. cbn beta iota zeta.
    apply Nat.eqb_eq in Hlen as ->. apply Nat.eqb_neq in Hz as ->.
    done.
Qed.


(** X15. When [load] returns [(xs, ys, n)], the loader holds [xs] and [ys]
    as [x_obs] and [y_obs] and [n] as [n_points], with
    [n = len(xs) = len(ys) >= 1], and its path and bounds of [t] are as
    they were. *)
Theorem load_sets_attributes (read_csv : string -> result pd.DataFrame)
    (self self' : DataLoader.t) (xs ys : list R) (n : nat) :
  DataLoader.load read_csv self = (inr (xs, ys, n), self') ->
  DataLoader.x_obs self' = Some xs /\ DataLoader.y_obs self' = Some ys
  /\ DataLoader.n_points self' = n
  /\ length xs = n /\ length ys = n /\ 1 <= n
  /\ DataLoader.csv_path self' = DataLoader.csv_path self
  /\ DataLoader.t_min self' = DataLoader.t_min self
  /\ DataLoader.t_max self' = DataLoader.t_max self.
Proof.
  intros Hload.
  apply load_returns_state in Hload as (-> & Hlen & Hz & ->).
  cbn. repeat split; try done. lia.
Qed.


(** X17. [load] raises nothing but [FileNotFoundError] and [ValueError],
    and [FileNotFoundError] only when [read_csv] raised it. *)
Theorem load_raises_two_errors (read_csv : string -> result pd.DataFrame)
    (self : DataLoader.t) (e : exn) :
  (DataLoader.load read_csv self).1 = inl e ->
  e = ValueError
  \/ (e = FileNotFoundError
      /\ read_csv (DataLoader.csv_path self) = inl FileNotFoundError).
Proof.
  intros Hload.
  destruct (read_csv (DataLoader.csv_path self)) as [e0|df] eqn:Hread.
  { rewrite (load_read_raises read_csv self e0 Hread) in Hload.
    cbn in Hload. injection Hload as <-. destruct e0; cbn; auto. }
  left.
  destruct (pd.has_column "x" df) eqn:Hx;
    [| rewrite (load_missing_column read_csv self df Hread) in Hload by auto;
       by injection Hload].
  destruct (pd.has_column "y" df) eqn:Hy;
    [| rewrite (load_missing_column read_csv self df Hread) in Hload by auto;
       by injection Hload].
  destruct (getitem_has_column df "x" Hx) as (cx & Hgx & _).
  destruct (getitem_has_column df "y" Hy) as (cy & Hgy & _).
  rewrite (load_frame read_csv self df cx cy Hread Hgx Hgy) in Hload.
  destruct (pd.astype_float cx) as [e1|xs]; [by injection Hload |].
  destruct (pd.astype_float cy) as [e1|ys]; [by injection Hload |].
  cbn zeta in Hload.
  destruct (length ys =? length xs); cbn in Hload; [| by injection Hload].
  destruct (length xs =? 0); cbn in Hload; [by injection Hload | done].
Qed.

(** X18. Before any [load], [get_data] and [get_summary] raise
    [ValueError]. After a [load] that returned [(xs, ys, n)], [get_data]
    returns the same [xs] and [ys] with a grid of [n] entries, and leaves
    the loader as it is. *)
Theorem load_then_get_data (read_csv : string -> result pd.DataFrame)
    (csv_path : string) (t_min t_max : R) (self' : DataLoader.t)
    (xs ys : list R) (n : nat) :
  let self := DataLoader.__init__ csv_path t_min t_max in
  DataLoader.get_data self = (inl ValueError, self)
  /\ DataLoader.get_summary self = (inl ValueError, self)
  /\ (DataLoader.load read_csv self = (inr (xs, ys, n), self') ->
      exists ts, DataLoader.get_data self' = (inr (xs, ys, Some ts), self')
                 /\ length ts = n).
Proof.
  intros self. split; [reflexivity |]. split; [reflexivity |].
  intros Hload.
  destruct (load_sets_attributes_aux read_csv self self' xs ys n Hload)
    as (Hx & Hy & ts & Hts & Hlen).
  exists ts. split; [| done].
  unfold DataLoader.get_data, mbind, get, mret; cbn. by rewrite Hx, Hy, Hts.
Qed.

(** X19. A table with the columns ['x'] and ['y'] and no row makes [load]
    raise [ValueError], but only after the two (empty) columns were stored:
    afterwards [get_data] does not raise, it returns two empty arrays and
    the grid the loader had before, and [get_summary] raises [ValueError]. *)
Theorem load_empty_table_leaves_data (read_csv : string -> result pd.DataFrame)
    (self : DataLoader.t) (df : pd.DataFrame) :
  read_csv (DataLoader.csv_path self) = inr df ->
  pd.getitem df "x" = ret [] -> pd.getitem df "y" = ret [] ->
  let out := DataLoader.load read_csv self in
  out.1 = inl ValueError
  /\ DataLoader.x_obs out.2 = Some [] /\ DataLoader.y_obs out.2 = Some []
  /\ DataLoader.n_points out.2 = 0
  /\ DataLoader.t_values out.2 = DataLoader.t_values self
  /\ DataLoader.get_data out.2
     = (inr ([], [], DataLoader.t_values self), out.2)
  /\ (DataLoader.get_summary out.2).1 = inl ValueError.
Proof.
  intros Hread Hgx Hgy out. subst out.
  rewrite (load_frame read_csv self df [] [] Hread Hgx Hgy). cbn.
  repeat split.
Qed.

Section SummaryFacts.

Local Open Scope R_scope.
Import LossAux.

Lemma fold_left_Rmax_ge_init (l : list R) (v : R) : v <= fold_left Rmax l v.
Proof.
  revert v; induction l as [|a l IH]; intros v; simpl; [lra |].
  etransitivity; [apply (Rmax_l v a) | apply IH].
Qed.

Lemma fold_left_Rmax_upper (l : list R) (v a : R) :
  a ∈ l -> a <= fold_left Rmax l v.
Proof.
  revert v; induction l as [|b l IH]; intros v Ha; simpl.
  - by apply elem_of_nil in Ha.
  - apply elem_of_cons in Ha as [-> | Ha]; [| by apply IH].
    etransitivity; [apply (Rmax_r v b) | apply fold_left_Rmax_ge_init].
Qed.

Lemma fold_left_Rmax_elem (l : list R) (v : R) : fold_left Rmax l v ∈ v :: l.
Proof.
  revert v; induction l as [|b l IH]; intros v; simpl; [left |].
  specialize (IH (Rmax v b)).
  apply elem_of_cons in IH as [-> | IH].
  - unfold Rmax; destruct (Rle_dec v b); [right; left | left].
  - right; by right.
Qed.

Lemma fold_left_Rplus_Rsum (l : list R) (acc : R) :
  fold_left Rplus l acc = acc + Rsum l.
Proof.
  revert acc; induction l as [|a l IH]; intros acc; unfold Rsum in *; simpl;
    [lra |]. rewrite IH. lra.
Qed.

Lemma Rsum_between (l : list R) (lo hi : R) :
  (forall v, v ∈ l -> lo <= v <= hi) ->
  INR (length l) * lo <= Rsum l <= INR (length l) * hi.
Proof.
  induction l as [|a l IH]; intros Hall.
  - unfold Rsum; simpl. lra.
  - assert (Ha : lo <= a <= hi) by (apply Hall; left).
    assert (Hl : INR (length l) * lo <= Rsum l <= INR (length l) * hi).
    { apply IH. intros v Hv. apply Hall. by right. }
    change (length (a :: l)) with (S (length l)). rewrite S_INR.
    change (Rsum (a :: l)) with (a + Rsum l). lra.
Qed.

Lemma mean_between (l : list R) (lo hi : R) :
  l <> [] -> (forall v, v ∈ l -> lo <= v <= hi) -> lo <= np.mean l <= hi.
Proof.
  intros Hne Hall. unfold np.mean. rewrite fold_left_Rplus_Rsum, Rplus_0_l.
  pose proof (Rsum_between l lo hi Hall) as [Hlo Hhi].
  assert (HN : 0 < INR (length l)).
  { destruct l; [done |]. apply lt_0_INR. simpl; lia. }
  split.
  - apply (Rmult_le_reg_r (INR (length l))); [done |].
    unfold Rdiv. rewrite Rmult_assoc, Rinv_l by lra. lra.
  - apply (Rmult_le_reg_r (INR (length l))); [done |].
    unfold Rdiv. rewrite Rmult_assoc, Rinv_l by lra. lra.
Qed.

(** The least and the greatest entry and the mean of a non-empty array. *)
Lemma min_max_mean (l : list R) :
  l <> [] ->
  exists lo hi,
    np.min l = ret lo /\ np.max l = ret hi
    /\ lo ∈ l /\ hi ∈ l
    /\ (forall v, v ∈ l -> lo <= v <= hi)
    /\ lo <= np.mean l <= hi.
Proof.
  intros Hne. destruct l as [|a l]; [done |].
  exists (fold_left Rmin l a), (fold_left Rmax l a).
  assert (Hall : forall v, v ∈ a :: l ->
                   fold_left Rmin l a <= v <= fold_left Rmax l a).
  { intros v Hv. apply elem_of_cons in Hv as [-> | Hv]; split.
    - apply fold_left_Rmin_le_init.
    - apply fold_left_Rmax_ge_init.
    - by apply fold_left_Rmin_lower.
    - by apply fold_left_Rmax_upper. }
  split; [done |]. split; [done |].
  split; [apply fold_left_Rmin_elem |]. split; [apply fold_left_Rmax_elem |].
  split; [done |]. by apply mean_between.
Qed.

End SummaryFacts.

(** X21. Loading again gives the same outcome and the same loader state as
    the first [load] did (for the same file contents): a second [load]
    overwrites the data with the same data. *)
Theorem load_twice (read_csv : string -> result pd.DataFrame)
    (self : DataLoader.t) :
  let out := DataLoader.load read_csv self in
  DataLoader.load read_csv out.2 = out.
Proof.
  intros out. subst out.
  destruct (read_csv (DataLoader.csv_path self)) as [e|df] eqn:Hread.
  { rewrite (load_read_raises read_csv self e Hread). cbn [snd].
    by rewrite (load_read_raises read_csv self e Hread). }
  destruct (pd.has_column "x" df && pd.has_column "y" df) eqn:Hcols.
  2: { assert (Hc : pd.has_column "x" df = false \/ pd.has_column "y" df = false).
       { destruct (pd.has_column "x" df), (pd.has_column "y" df); auto; done. }
       rewrite (load_missing_column read_csv self df Hread Hc). cbn [snd].
       by rewrite (load_missing_column read_csv self df Hread Hc). }
  apply andb_true_iff in Hcols as [Hx Hy].
  destruct (getitem_has_column df "x" Hx) as (cx & Hgx & _).
  destruct (getitem_has_column df "y" Hy) as (cy & Hgy & _).
  rewrite (load_frame read_csv self df cx cy Hread Hgx Hgy).
  destruct (pd.astype_float cx) as [e|xs] eqn:Hax.
  { cbn [snd]. rewrite (load_frame read_csv self df cx cy Hread Hgx Hgy).
    by rewrite Hax. }
  destruct (pd.astype_float cy) as [e|ys] eqn:Hay.
  { cbn [snd].
    rewrite (load_frame read_csv (DataLoader.set_x_obs xs self) df cx cy
               Hread Hgx Hgy).
    by rewrite Hax, Hay. }
  cbn zeta.
  set (s3 := DataLoader.set_n_points (length xs)
               (DataLoader.set_y_obs ys (DataLoader.set_x_obs xs self))).
  set (s4 := DataLoader.set_t_values
               (np.linspace (DataLoader.t_min self) (DataLoader.t_max self)
                  (length xs)) s3).
  destruct (length ys =? length xs) eqn:Hlen; cbn [negb].
  2: { cbn [snd]. rewrite (load_frame read_csv s3 df cx cy Hread Hgx Hgy).
       rewrite Hax, Hay. cbn zeta. by rewrite Hlen. }
  destruct (length xs =? 0) eqn:Hz.
  - cbn [snd]. rewrite (load_frame read_csv s3 df cx cy Hread Hgx Hgy).
    rewrite Hax, Hay. cbn zeta. by rewrite Hlen, Hz.
  - cbn [snd]. rewrite (load_frame read_csv s4 df cx cy Hread Hgx Hgy).
    rewrite Hax, Hay. cbn zeta. by rewrite Hlen, Hz.
Qed.

(** *** The loader at sample tables *)

Lemma sample_load :
  DataLoader.load Sample.read_csv_table Sample.loader
  = (inr (Sample.x_obs, Sample.y_obs, 2), Sample.loaded).
Proof. reflexivity. Qed.

Lemma load_returns_iff_witness :
  exists df cx cy,
    Sample.read_csv_table (DataLoader.csv_path Sample.loader) = inr df
    /\ pd.getitem df "x" = ret cx /\ pd.getitem df "y" = ret cy
    /\ pd.astype_float cx = ret Sample.x_obs
    /\ pd.astype_float cy = ret Sample.y_obs
    /\ 2 = length Sample.x_obs /\ length Sample.y_obs = 2 /\ 2 <> 0.
Proof.
  exact (proj1 (load_returns_iff Sample.read_csv_table Sample.loader
                  Sample.x_obs Sample.y_obs 2)
               (f_equal fst sample_load)).
Defined.

Lemma load_sets_attributes_witness :
  DataLoader.x_obs Sample.loaded = Some Sample.x_obs
  /\ DataLoader.n_points Sample.loaded = 2.
Proof.
  destruct (load_sets_attributes Sample.read_csv_table Sample.loader
              Sample.loaded Sample.x_obs Sample.y_obs 2 sample_load)
    as (Hx & _ & Hn & _).
  split; [exact Hx | exact Hn].
Defined.


Lemma load_raises_two_errors_witness :
  FileNotFoundError = ValueError
  \/ (FileNotFoundError = FileNotFoundError
      /\ Sample.read_csv_missing (DataLoader.csv_path Sample.loader)
         = inl FileNotFoundError).
Proof.
  exact (load_raises_two_errors Sample.read_csv_missing Sample.loader
           FileNotFoundError eq_refl).
Defined.

Lemma load_then_get_data_witness :
  exists ts, DataLoader.get_data Sample.loaded
             = (inr (Sample.x_obs, Sample.y_obs, Some ts), Sample.loaded)
             /\ length ts = 2.
Proof.
  exact (proj2 (proj2 (load_then_get_data Sample.read_csv_table "xy_data.csv"
                         6 60 Sample.loaded Sample.x_obs Sample.y_obs 2))
               sample_load).
Defined.

Lemma load_empty_table_leaves_data_witness :
  let out := DataLoader.load Sample.read_csv_empty_table Sample.loader in
  out.1 = inl ValueError
  /\ DataLoader.get_data out.2 = (inr ([], [], None), out.2).
Proof.
  destruct (load_empty_table_leaves_data Sample.read_csv_empty_table
              Sample.loader Sample.empty_table eq_refl eq_refl eq_refl)
    as (Hraise & _ & _ & _ & _ & Hget & _).
  split; [exact Hraise | exact Hget].
Defined.

(** ** CurveFitting: the pipeline from end to end *)

Lemma mbind_inr {S A B} (m : ST S A) (k : A -> ST S B) (s s' : S) (b : B) :
  mbind m k s = (inr b, s') ->
  exists a s1, m s = (inr a, s1) /\ k a s1 = (inr b, s').
Proof.
  unfold mbind. destruct (m s) as [[e|a] s1]; [done |]. intros Hk. by exists a, s1.
Qed.

Lemma get_summary_state (self : DataLoader.t) :
  (DataLoader.get_summary self).2 = self.
Proof.
  unfold DataLoader.get_summary, mbind, get, lift, mret; cbn.
  destruct (DataLoader.x_obs self) as [xs|]; [| done].
  destruct (DataLoader.y_obs self) as [ys|]; [| done].
  destruct (np.min xs); [done |]. destruct (np.max xs); [done |].
  destruct (np.min ys); [done |]. by destruct (np.max ys).
Qed.

Lemma get_summary_returns (self : DataLoader.t) (xs ys : list R) :
  DataLoader.x_obs self = Some xs -> DataLoader.y_obs self = Some ys ->
  xs <> [] -> ys <> [] ->
  exists s, DataLoader.get_summary self = (inr s, self).
Proof.
  intros Hx Hy Hxs Hys.
  destruct (min_max_mean xs Hxs) as (xlo & xhi & Hxmin & Hxmax & _).
  destruct (min_max_mean ys Hys) as (ylo & yhi & Hymin & Hymax & _).
  unfold DataLoader.get_summary, mbind, get, lift, mret. cbn.
  rewrite Hx, Hy, Hxmin, Hxmax, Hymin, Hymax. cbn. by eexists.
Qed.

Section RunFacts.

Variable W : Type.
Variable read_csv : string -> result pd.DataFrame.
Variable differential_evolution :
  Optimizer.objective_fn -> list (R * R) -> Optimizer.de_kwargs ->
  result Optimizer.OptimizeResult.
Variable minimize :
  Optimizer.objective_fn -> R * R * R -> Optimizer.min_kwargs ->
  result Optimizer.OptimizeResult.
Variable plot_fit :
  list R -> list R -> list R -> R -> R -> R -> R -> string -> ST W unit.
Variable generate_report : R -> R -> R -> R -> string -> bool -> ST W string.
Variable plot_optimization_history :
  option (list Heap.dict) -> string -> ST W unit.

Local Abbreviation run :=
  (CurveFitting.run W read_csv differential_evolution minimize plot_fit
     generate_report plot_optimization_history).
Local Abbreviation optimize :=
  (Optimizer.optimize differential_evolution minimize).

Lemma on_loader_inv {A} (m : ST DataLoader.t A) (s s1 : CurveFitting.state W)
    (r : result A) :
  CurveFitting.on_loader W m s = (r, s1) ->
  exists dl, m (CurveFitting.data_loader W s) = (r, dl)
    /\ s1 = CurveFitting.mk_state W dl (CurveFitting.heap W s)
              (CurveFitting.theta_opt W s) (CurveFitting.m_opt W s)
              (CurveFitting.x_opt W s) (CurveFitting.final_loss W s)
              (CurveFitting.data_summary W s) (CurveFitting.outside W s).
Proof.
  unfold CurveFitting.on_loader.
  destruct (m (CurveFitting.data_loader W s)) as [r' dl].
  intros [= <- <-]. by exists dl.
Qed.

Lemma on_heap_inv {A} (m : M A) (s s1 : CurveFitting.state W) (r : result A) :
  CurveFitting.on_heap W m s = (r, s1) ->
  exists h, m (CurveFitting.heap W s) = (r, h)
    /\ s1 = CurveFitting.mk_state W (CurveFitting.data_loader W s) h
              (CurveFitting.theta_opt W s) (CurveFitting.m_opt W s)
              (CurveFitting.x_opt W s) (CurveFitting.final_loss W s)
              (CurveFitting.data_summary W s) (CurveFitting.outside W s).
Proof.
  unfold CurveFitting.on_heap.
  destruct (m (CurveFitting.heap W s)) as [r' h].
  intros [= <- <-]. by exists h.
Qed.

Lemma on_outside_inv {A} (m : ST W A) (s s1 : CurveFitting.state W)
    (r : result A) :
  CurveFitting.on_outside W m s = (r, s1) ->
  exists w, m (CurveFitting.outside W s) = (r, w)
    /\ s1 = CurveFitting.mk_state W (CurveFitting.data_loader W s)
              (CurveFitting.heap W s)
              (CurveFitting.theta_opt W s) (CurveFitting.m_opt W s)
              (CurveFitting.x_opt W s) (CurveFitting.final_loss W s)
              (CurveFitting.data_summary W s) w.
Proof.
  unfold CurveFitting.on_outside.
  destruct (m (CurveFitting.outside W s)) as [r' w].
  intros [= <- <-]. by exists w.
Qed.

(** What has happened when [run] returns. *)
Ltac state_simpl_in H :=
  cbn [CurveFitting.data_loader CurveFitting.heap CurveFitting.outside
       CurveFitting.theta_opt CurveFitting.m_opt CurveFitting.x_opt
       CurveFitting.final_loss CurveFitting.data_summary
       CurveFitting.set_data_summary CurveFitting.set_results] in H.

Lemma run_returns_inv (self : CurveFitting.t) (use_refinement : bool)
    (de_maxiter de_popsize : Z) (de_tol : R) (plot_path results_path : string)
    (s s' : CurveFitting.state W) (theta m x l : R) :
  run self use_refinement de_maxiter de_popsize de_tol plot_path results_path s
  = (inr (theta, m, x, l), s') ->
  exists xs ys n dl1 summ ts h1 w',
    DataLoader.load read_csv (CurveFitting.data_loader W s)
    = (inr (xs, ys, n), dl1)
    /\ DataLoader.t_values dl1 = Some ts /\ length ts = n
    /\ optimize (CurveFitting.optimizer self) ts xs ys use_refinement
         de_maxiter de_popsize de_tol (CurveFitting.heap W s)
       = (inr (theta, m, x, l), h1)
    /\ s' = CurveFitting.mk_state W dl1
              (Optimizer.get_history (CurveFitting.optimizer self) h1).2
              (Some theta) (Some m) (Some x) (Some l) (Some summ) w'.
Proof.
  unfold CurveFitting.run. intros Hrun.
  apply mbind_inr in Hrun as ([[xs ys] n] & s1 & Hload & Hrun).
  apply on_loader_inv in Hload as (dl1 & Hld & ->).
  destruct (load_sets_attributes_aux read_csv _ dl1 xs ys n Hld)
    as (Hx & Hy & ts & Hts & Hlen).
  apply mbind_inr in Hrun as (summ & s2 & Hsum & Hrun).
  apply on_loader_inv in Hsum as (dl2 & Hsum & ->).
  state_simpl_in Hsum.
  pose proof (get_summary_state dl1) as Hst. rewrite Hsum in Hst.
  cbn in Hst. subst dl2.
  apply mbind_inr in Hrun as ([] & s3 & Hupd & Hrun).
  unfold update in Hupd. injection Hupd as <-.
  apply mbind_inr in Hrun as ([[xs' ys'] tv] & s4 & Hget & Hrun).
  apply on_loader_inv in Hget as (dl3 & Hget & ->).
  state_simpl_in Hget.
  unfold DataLoader.get_data, mbind, get, mret in Hget. cbn [ret] in Hget.
  rewrite Hx, Hy, Hts in Hget. injection Hget as <- <- <- <-.
  apply mbind_inr in Hrun as (ts' & s5 & Hlift & Hrun).
  unfold lift in Hlift. cbn in Hlift. injection Hlift as <- <-.
  apply mbind_inr in Hrun as ([[[th m'] x'] l'] & s6 & Hopt & Hrun).
  apply on_heap_inv in Hopt as (h1 & Hopt & ->).
  state_simpl_in Hopt.
  apply mbind_inr in Hrun as ([] & s7 & Hupd & Hrun).
  unfold update in Hupd. injection Hupd as <-.
  apply mbind_inr in Hrun as ([] & s8 & Hplot & Hrun).
  apply on_outside_inv in Hplot as (w1 & Hplot & ->).
  apply mbind_inr in Hrun as (rep & s9 & Hrep & Hrun).
  apply on_outside_inv in Hrep as (w2 & Hrep & ->).
  apply mbind_inr in Hrun as (hist & s10 & Hhist & Hrun).
  apply on_heap_inv in Hhist as (h2 & Hhist & ->).
  state_simpl_in Hhist.
  apply mbind_inr in Hrun as (sg & s11 & Hg & Hrun).
  unfold get in Hg. injection Hg as <- <-.
  apply mbind_inr in Hrun as ([] & s12 & Hph & Hrun).
  apply on_outside_inv in Hph as (w3 & Hph & ->).
  unfold mret in Hrun. injection Hrun as <- <- <- <- <-.
  exists xs, ys, n, dl1, summ, ts, h1, w3.
  split; [done |]. split; [done |]. split; [done |]. split; [done |].
  rewrite Hhist. reflexivity.
Qed.

End RunFacts.

Lemma mbind_ret {S A B} (m : ST S A) (k : A -> ST S B) (s s1 : S) (a : A) :
  m s = (inr a, s1) -> mbind m k s = k a s1.
Proof. unfold mbind. by intros ->. Qed.

Lemma mbind_raise {S A B} (m : ST S A) (k : A -> ST S B) (s s1 : S) (e : exn) :
  m s = (inl e, s1) -> mbind m k s = (inl e, s1).
Proof. unfold mbind. by intros ->. Qed.

(** X22. When [run] returns, it returns what [optimize] returned for the
    loaded observations on a grid with as many entries as there are
    observations, and the four numbers are stored in the result
    attributes, next to the data summary. *)
Theorem run_returns_optimize_result
    (W : Type) (read_csv : string -> result pd.DataFrame)
    (differential_evolution :
       Optimizer.objective_fn -> list (R * R) -> Optimizer.de_kwargs ->
       result Optimizer.OptimizeResult)
    (minimize :
       Optimizer.objective_fn -> R * R * R -> Optimizer.min_kwargs ->
       result Optimizer.OptimizeResult)
    (plot_fit :
       list R -> list R -> list R -> R -> R -> R -> R -> string -> ST W unit)
    (generate_report : R -> R -> R -> R -> string -> bool -> ST W string)
    (plot_optimization_history : option (list Heap.dict) -> string -> ST W unit)
    (self : CurveFitting.t) (use_refinement : bool)
    (de_maxiter de_popsize : Z) (de_tol : R) (plot_path results_path : string)
    (s s' : CurveFitting.state W) (theta m x l : R) :
  CurveFitting.run W read_csv differential_evolution minimize plot_fit
    generate_report plot_optimization_history self use_refinement
    de_maxiter de_popsize de_tol plot_path results_path s
  = (inr (theta, m, x, l), s') ->
  exists (xs ys ts : list R) (n : nat),
    (DataLoader.load read_csv (CurveFitting.data_loader W s)).1
    = inr (xs, ys, n)
    /\ length xs = n /\ length ys = n /\ length ts = n
    /\ DataLoader.t_values (CurveFitting.data_loader W s') = Some ts
    /\ (Optimizer.optimize differential_evolution minimize
          (CurveFitting.optimizer self) ts xs ys use_refinement
          de_maxiter de_popsize de_tol (CurveFitting.heap W s)).1
       = inr (theta, m, x, l)
    /\ CurveFitting.theta_opt W s' = Some theta
    /\ CurveFitting.m_opt W s' = Some m
    /\ CurveFitting.x_opt W s' = Some x
    /\ CurveFitting.final_loss W s' = Some l
    /\ is_Some (CurveFitting.data_summary W s').
Proof.
  intros Hrun.
  apply run_returns_inv in Hrun
    as (xs & ys & n & dl1 & summ & ts & h1 & w' & Hload & Hts & Hlen & Hopt & ->).
  destruct (load_returns_state read_csv _ dl1 xs ys n Hload) as (Hn & Hm & _).
  exists xs, ys, ts, n. rewrite Hload, Hopt. cbn.
  repeat split; try done; by eexists.
Qed.

(** X23. When the data load but [optimize] raises, [run] raises the same
    exception: nothing is plotted or reported (the outside is as before),
    the heap is the one [optimize] left, the four result attributes
    [theta_opt], [m_opt], [x_opt] and [final_loss] are as before, and the
    data summary is set. *)
Theorem run_optimize_raises
    (W : Type) (read_csv : string -> result pd.DataFrame)
    (differential_evolution :
       Optimizer.objective_fn -> list (R * R) -> Optimizer.de_kwargs ->
       result Optimizer.OptimizeResult)
    (minimize :
       Optimizer.objective_fn -> R * R * R -> Optimizer.min_kwargs ->
       result Optimizer.OptimizeResult)
    (plot_fit :
       list R -> list R -> list R -> R -> R -> R -> R -> string -> ST W unit)
    (generate_report : R -> R -> R -> R -> string -> bool -> ST W string)
    (plot_optimization_history : option (list Heap.dict) -> string -> ST W unit)
    (self : CurveFitting.t) (use_refinement : bool)
    (de_maxiter de_popsize : Z) (de_tol : R) (plot_path results_path : string)
    (s : CurveFitting.state W) (xs ys : list R) (n : nat) (dl1 : DataLoader.t) :
  DataLoader.load read_csv (CurveFitting.data_loader W s)
  = (inr (xs, ys, n), dl1) ->
  exists ts : list R,
    DataLoader.t_values dl1 = Some ts
    /\ forall (e : exn) (h1 : Heap.t),
         Optimizer.optimize differential_evolution minimize
           (CurveFitting.optimizer self) ts xs ys use_refinement
           de_maxiter de_popsize de_tol (CurveFitting.heap W s) = (inl e, h1) ->
         exists s',
           CurveFitting.run W read_csv differential_evolution minimize plot_fit
             generate_report plot_optimization_history self use_refinement
             de_maxiter de_popsize de_tol plot_path results_path s = (inl e, s')
           /\ CurveFitting.outside W s' = CurveFitting.outside W s
           /\ CurveFitting.heap W s' = h1
           /\ CurveFitting.theta_opt W s' = CurveFitting.theta_opt W s
           /\ CurveFitting.m_opt W s' = CurveFitting.m_opt W s
           /\ CurveFitting.x_opt W s' = CurveFitting.x_opt W s
           /\ CurveFitting.final_loss W s' = CurveFitting.final_loss W s
           /\ is_Some (CurveFitting.data_summary W s').
Proof.
  intros Hload.
  destruct (load_sets_attributes_aux read_csv _ dl1 xs ys n Hload)
    as (Hx & Hy & ts & Hts & Hlen).
  destruct (load_returns_state read_csv _ dl1 xs ys n Hload) as (Hn & Hm & Hz & _).
  destruct (get_summary_returns dl1 xs ys Hx Hy) as [summ Hsumm].
  { intros ->. by subst n. }
  { intros ->. by subst n. }
  exists ts. split; [done |]. intros e h1 Hopt.
  unfold CurveFitting.run.
  erewrite mbind_ret by (unfold CurveFitting.on_loader; rewrite Hload; reflexivity).
  cbv beta.
  erewrite mbind_ret by (unfold CurveFitting.on_loader; cbn [CurveFitting.data_loader];
                         rewrite Hsumm; reflexivity).
  cbv beta.
  erewrite mbind_ret by reflexivity.
  cbv beta.
  erewrite mbind_ret
    by (unfold CurveFitting.on_loader, DataLoader.get_data, mbind, get, mret;
        cbn [CurveFitting.data_loader CurveFitting.set_data_summary ret];
        rewrite Hx, Hy, Hts; reflexivity).
  cbv beta iota.
  erewrite mbind_ret by reflexivity.
  cbv beta.
  erewrite mbind_raise
    by (unfold CurveFitting.on_heap; cbn [CurveFitting.heap CurveFitting.set_data_summary];
        rewrite Hopt; reflexivity).
  eexists. split; [reflexivity |]. cbn. repeat split. by eexists.
Qed.

(** X24. [get_results] and [get_summary] raise [ValueError] and change
    nothing as long as no result is stored ([theta_opt] is [None]). After
    a [run] that returned, [get_results] holds the four numbers that [run]
    returned, with the text that [generate_latex_string] makes of the
    first three. *)
Theorem get_results_after_run
    (W : Type) (read_csv : string -> result pd.DataFrame)
    (differential_evolution :
       Optimizer.objective_fn -> list (R * R) -> Optimizer.de_kwargs ->
       result Optimizer.OptimizeResult)
    (minimize :
       Optimizer.objective_fn -> R * R * R -> Optimizer.min_kwargs ->
       result Optimizer.OptimizeResult)
    (plot_fit :
       list R -> list R -> list R -> R -> R -> R -> R -> string -> ST W unit)
    (generate_report : R -> R -> R -> R -> string -> bool -> ST W string)
    (plot_optimization_history : option (list Heap.dict) -> string -> ST W unit)
    (generate_latex_string : option R -> option R -> option R -> result string)
    (generate_summary :
       option DataLoader.summary -> option (list Heap.dict) ->
       option R -> option R -> option R -> option R -> result string)
    (self : CurveFitting.t) (use_refinement : bool)
    (de_maxiter de_popsize : Z) (de_tol : R) (plot_path results_path : string)
    (s s' : CurveFitting.state W) (theta m x l : R) :
  (forall s0 : CurveFitting.state W,
     CurveFitting.theta_opt W s0 = None ->
     CurveFitting.get_results W generate_latex_string s0 = (inl ValueError, s0)
     /\ CurveFitting.get_summary W generate_summary self s0
        = (inl ValueError, s0))
  /\ (CurveFitting.run W read_csv differential_evolution minimize plot_fit
        generate_report plot_optimization_history self use_refinement
        de_maxiter de_popsize de_tol plot_path results_path s
      = (inr (theta, m, x, l), s') ->
      CurveFitting.get_results W generate_latex_string s'
      = (match generate_latex_string (Some theta) (Some m) (Some x) with
         | inl e => inl e
         | inr latex =>
             inr {| CurveFitting.r_theta := Some theta;
                    CurveFitting.r_m := Some m;
                    CurveFitting.r_x := Some x;
                    CurveFitting.r_loss := Some l;
                    CurveFitting.r_latex_string := latex |}
         end, s')).
Proof.
  split.
  - intros s0 Hnone.
    unfold CurveFitting.get_results, CurveFitting.get_summary, mbind, get, lift.
    cbn [ret]. by rewrite Hnone.
  - intros Hrun.
    apply run_returns_inv in Hrun
      as (xs & ys & n & dl1 & summ & ts & h1 & w' & _ & _ & _ & _ & ->).
    unfold CurveFitting.get_results, mbind, get, lift, mret. cbn.
    by destruct (generate_latex_string _ _ _).
Qed.

(** X25. [main], from start to end. When the file [xy_data.csv] does not
    exist, [main] raises [FileNotFoundError]. When [main] returns, the
    optimizer's history holds exactly two steps, tagged
    ["differential_evolution"] and ["L-BFGS-B"] in this order, and the
    stored result is the one of the second step. *)
Theorem main_end_to_end
    (W : Type) (read_csv : string -> result pd.DataFrame)
    (differential_evolution :
       Optimizer.objective_fn -> list (R * R) -> Optimizer.de_kwargs ->
       result Optimizer.OptimizeResult)
    (minimize :
       Optimizer.objective_fn -> R * R * R -> Optimizer.min_kwargs ->
       result Optimizer.OptimizeResult)
    (plot_fit :
       list R -> list R -> list R -> R -> R -> R -> R -> string -> ST W unit)
    (generate_report : R -> R -> R -> R -> string -> bool -> ST W string)
    (plot_optimization_history : option (list Heap.dict) -> string -> ST W unit)
    (generate_summary :
       option DataLoader.summary -> option (list Heap.dict) ->
       option R -> option R -> option R -> option R -> result string)
    (h : Heap.t) (w : W) :
  let main :=
    CurveFitting.main W read_csv differential_evolution minimize plot_fit
      generate_report plot_optimization_history generate_summary h w in
  (read_csv "xy_data.csv" = inl FileNotFoundError ->
   main = inl FileNotFoundError)
  /\ (forall (curve_fitter : CurveFitting.t) (s : CurveFitting.state W),
        main = inr (curve_fitter, s) ->
        exists (steps : list Heap.dict) (d : Heap.dict),
          OptimizerAux.history (CurveFitting.heap W s)
            (CurveFitting.optimizer curve_fitter) = Some steps
          /\ OptimizerAux.methods steps
             = [Some (Heap.VStr "differential_evolution");
                Some (Heap.VStr "L-BFGS-B")]
          /\ last steps = Some d
          /\ (Heap.VFloat <$> CurveFitting.theta_opt W s) = d !! "theta"
          /\ (Heap.VFloat <$> CurveFitting.m_opt W s) = d !! "m"
          /\ (Heap.VFloat <$> CurveFitting.x_opt W s) = d !! "x"
          /\ (Heap.VFloat <$> CurveFitting.final_loss W s) = d !! "loss").
Proof.
  intros main. subst main. unfold CurveFitting.main, CurveFitting.__init__.
  destruct (init_history (ParametricModel.mk 42 (3 / 10))
              (L1Loss.mk (ParametricModel.mk 42 (3 / 10))) 42 true h)
    as (opt & h0 & Hinit & Hfresh).
  rewrite Hinit. cbn [bind ret].
  set (cf := CurveFitting.mk "xy_data.csv" true (ParametricModel.mk 42 (3 / 10))
               (L1Loss.mk (ParametricModel.mk 42 (3 / 10))) opt).
  set (s0 := CurveFitting.mk_state W (DataLoader.__init__ "xy_data.csv" 6 60) h0
               None None None None None w).
  split.
  - intros Hread.
    destruct (run_load_raises W read_csv differential_evolution minimize plot_fit
                generate_report plot_optimization_history cf true 500 10
                (1 / 10000)%R "fit_plot.png" "results.txt" s0 FileNotFoundError)
      as (s' & -> & _).
    + change ((DataLoader.load read_csv
                 (DataLoader.__init__ "xy_data.csv" 6 60)).1
              = inl FileNotFoundError).
      by rewrite (load_read_raises read_csv
                    (DataLoader.__init__ "xy_data.csv" 6 60)
                    FileNotFoundError Hread).
    + done.
  - intros curve_fitter s Hmain.
    destruct (CurveFitting.run W read_csv differential_evolution minimize plot_fit
                generate_report plot_optimization_history cf true 500 10
                (1 / 10000)%R "fit_plot.png" "results.txt" s0)
      as [[e|[[[theta m] x] l]] s1] eqn:Hrun; [done |].
    apply run_returns_inv in Hrun
      as (xs & ys & n & dl1 & summ & ts & h1 & w' & _ & _ & _ & Hopt & ->).
    destruct (optimize_phases differential_evolution minimize opt ts xs ys
                true 500 10 (1 / 10000)%R h0 [] Hfresh)
      as (h1' & Hph & Hh1).
    cbn [CurveFitting.optimizer CurveFitting.heap] in Hopt. subst cf s0.
    cbn [CurveFitting.optimizer CurveFitting.heap] in Hopt.
    rewrite Hopt in Hph. injection Hph as Hres <-.
    unfold OptimizerAux.phases in Hres, Hh1.
    destruct (OptimizerAux.global_phase _ _ _ _ _ _ _ _) as [e|rde]; [done |].
    destruct (OptimizerAux.refinement_phase _ _ _ _ _ _)
      as [e|[[[th1 m1] x1] l1]]; [done |].
    cbn in Hres, Hh1. injection Hres as -> -> -> ->.
    destruct (get_history_copy opt h1 _ Hh1) as (h2 & Hget2 & _ & Hh2).
    destruct (get_history_copy opt h2 _ Hh2) as (h3 & Hget3 & _ & Hh3).
    unfold CurveFitting.get_summary, mbind, get, lift in Hmain.
    cbn [ret CurveFitting.theta_opt] in Hmain.
    unfold CurveFitting.on_heap in Hmain.
    cbn [CurveFitting.heap CurveFitting.optimizer] in Hmain.
    rewrite Hget2 in Hmain. cbn [snd CurveFitting.heap] in Hmain.
    rewrite Hget3 in Hmain.
    destruct (generate_summary _ _ _ _ _ _) as [e|text]; [done |].
    injection Hmain as <- <-.
    eexists _, _. cbn [CurveFitting.heap CurveFitting.optimizer].
    split; [exact Hh3 |]. split; [cbn; by rewrite !step_of_method |].
    split; [reflexivity |].
    cbn [CurveFitting.theta_opt CurveFitting.m_opt CurveFitting.x_opt
         CurveFitting.final_loss fmap option_fmap option_map].
    destruct (step_dict_lookups "L-BFGS-B" th1 m1 x1 l1) as (_ & -> & -> & -> & ->).
    done.
Qed.

(** *** The pipeline at the sample table *)

Lemma sample_pipeline_run :
  Sample.pipeline_run
  = (inr (21, 2 / 100, 30, 5 / 100)%R, Sample.pipeline_run.2).
Proof.
  assert (H : Sample.pipeline_run.1 = inr (21, 2 / 100, 30, 5 / 100)%R)
    by reflexivity.
  destruct Sample.pipeline_run as [r s']. cbn in H. by subst r.
Qed.

Lemma run_returns_optimize_result_witness :
  exists (xs ys ts : list R) (n : nat),
    (DataLoader.load Sample.read_csv_table Sample.loader).1 = inr (xs, ys, n)
    /\ length ts = n
    /\ CurveFitting.theta_opt unit Sample.pipeline_run.2 = Some 21%R
    /\ CurveFitting.final_loss unit Sample.pipeline_run.2 = Some (5 / 100)%R.
Proof.
  destruct (run_returns_optimize_result unit Sample.read_csv_table Sample.de
              Sample.minimize Sample.plot_fit Sample.generate_report
              Sample.plot_optimization_history Sample.pipeline true 500 10
              (1 / 10000)%R "fit_plot.png" "results.txt" Sample.state0
              Sample.pipeline_run.2 21 (2 / 100) 30 (5 / 100)
              sample_pipeline_run)
    as (xs & ys & ts & n & Hload & _ & _ & Hts & _ & _ & Hth & _ & _ & Hl & _).
  exists xs, ys, ts, n. split; [exact Hload |]. split; [exact Hts |].
  split; [exact Hth | exact Hl].
Defined.

Lemma run_optimize_raises_witness :
  exists s',
    Sample.pipeline_run_raising = (inl ValueError, s')
    /\ CurveFitting.outside unit s' = tt
    /\ CurveFitting.theta_opt unit s' = None.
Proof.
  destruct (run_optimize_raises unit Sample.read_csv_table
              (Sample.de_raising ValueError) Sample.minimize Sample.plot_fit
              Sample.generate_report Sample.plot_optimization_history
              Sample.pipeline true 500 10 (1 / 10000)%R
              "fit_plot.png" "results.txt" Sample.state0
              Sample.x_obs Sample.y_obs 2 Sample.loaded sample_load)
    as (ts & Hts & Hraise).
  destruct (Hraise ValueError Sample.heap0 eq_refl)
    as (s' & Hrun & Hout & _ & Hth & _).
  exists s'. split; [exact Hrun |]. split; [exact Hout | exact Hth].
Defined.

Lemma get_results_after_run_witness :
  (CurveFitting.get_results unit Sample.generate_latex_string
     Sample.pipeline_run.2).1
  = inr {| CurveFitting.r_theta := Some 21%R;
           CurveFitting.r_m := Some (2 / 100)%R;
           CurveFitting.r_x := Some 30%R;
           CurveFitting.r_loss := Some (5 / 100)%R;
           CurveFitting.r_latex_string := "" |}.
Proof.
  exact (f_equal fst
           (proj2 (get_results_after_run unit Sample.read_csv_table Sample.de
                     Sample.minimize Sample.plot_fit Sample.generate_report
                     Sample.plot_optimization_history
                     Sample.generate_latex_string Sample.generate_summary
                     Sample.pipeline true 500 10 (1 / 10000)%R
                     "fit_plot.png" "results.txt" Sample.state0
                     Sample.pipeline_run.2 21 (2 / 100) 30 (5 / 100))
                  sample_pipeline_run)).
Defined.

Lemma main_end_to_end_witness :
  CurveFitting.main unit Sample.read_csv_missing Sample.de Sample.minimize
    Sample.plot_fit Sample.generate_report Sample.plot_optimization_history
    Sample.generate_summary Heap.empty tt
  = inl FileNotFoundError.
Proof.
  exact (proj1 (main_end_to_end unit Sample.read_csv_missing Sample.de
                  Sample.minimize Sample.plot_fit Sample.generate_report
                  Sample.plot_optimization_history Sample.generate_summary
                  Heap.empty tt)
               eq_refl).
Defined.

(** ** Optimizer: the refinement on its own *)

(** X26. [_refine] called on its own: when [minimize] returns, exactly one
    step is appended, tagged ["L-BFGS-B"] and holding the four numbers
    that [_refine] returns; when [minimize] raises, [_refine] raises the
    same exception and the heap is as before. *)
Theorem refine_records_one_step
    (minimize :
       Optimizer.objective_fn -> R * R * R -> Optimizer.min_kwargs ->
       result Optimizer.OptimizeResult)
    (self : Optimizer.t) (theta_init m_init x_init : R)
    (ts x_obs y_obs : list R) (h : Heap.t) (v : list Heap.dict) :
  OptimizerAux.history h self = Some v ->
  let out := Optimizer._refine minimize self theta_init m_init x_init
               ts x_obs y_obs h in
  match out.1 with
  | inl e =>
      out.2 = h
      /\ OptimizerAux.refinement_phase minimize self
           (theta_init, m_init, x_init) ts x_obs y_obs = inl e
  | inr (theta, m, x, l) =>
      OptimizerAux.history out.2 self
      = Some (v ++ [Optimizer.step_dict "L-BFGS-B" theta m x l])
  end.
Proof.
  intros Hv out. subst out.
  pose proof (refine_phase minimize self theta_init m_init x_init
                ts x_obs y_obs h v Hv) as Href.
  destruct (OptimizerAux.refinement_phase minimize self
              (theta_init, m_init, x_init) ts x_obs y_obs)
    as [e|[[[theta m] x] l]].
  - rewrite Href. by cbn.
  - destruct Href as (h' & -> & Hh'). cbn. exact Hh'.
Qed.

Lemma refine_records_one_step_witness :
  OptimizerAux.history
    (Optimizer._refine Sample.minimize Sample.optimizer 20 (2 / 100) 30
       Sample.ts Sample.x_obs Sample.y_obs Sample.heap1).2
    Sample.optimizer
  = Some ([OptimizerAux.step_of "differential_evolution" Sample.global_result]
          ++ [Optimizer.step_dict "L-BFGS-B" 21 (2 / 100) 30 (5 / 100)]).
Proof.
  exact (refine_records_one_step Sample.minimize Sample.optimizer
           20 (2 / 100) 30 Sample.ts Sample.x_obs Sample.y_obs Sample.heap1 _
           sample_history1).
Defined.

(** * The loss in binary64 arithmetic *)

(** ** Rounding to binary64 *)

Section SpecFloatFacts.
Import SpecFloat FloatOps Float64Aux.
Local Open Scope Z_scope.

Lemma shr_1_div2 (mrs : shr_record) :
  0 <= shr_m mrs -> shr_m (shr_1 mrs) = Z.div2 (shr_m mrs).
Proof. destruct mrs as [[|[p|p|]|p] r s]; simpl; intros; try lia; reflexivity. Qed.

Lemma iter_pos_iter {A} (f : A -> A) (n : positive) (x : A) :
  iter_pos f n x = Pos.iter f x n.
Proof.
  revert x; induction n as [n IH|n IH|]; intros x; simpl; try done.
  - rewrite !IH. by rewrite <- !Pos.iter_swap.
  - by rewrite !IH.
Qed.

Lemma shr_m_iter (mrs : shr_record) (n : positive) :
  0 <= shr_m mrs ->
  shr_m (iter_pos shr_1 n mrs) = Z.shiftr (shr_m mrs) (Z.pos n).
Proof.
  intros Hm. rewrite iter_pos_iter.
  assert (H : 0 <= shr_m (Pos.iter shr_1 mrs n)
              /\ shr_m (Pos.iter shr_1 mrs n) = Z.shiftr (shr_m mrs) (Z.pos n));
    [| tauto].
  apply (Pos.iter_ind _ shr_1 mrs
           (fun p a => 0 <= shr_m a /\ shr_m a = Z.shiftr (shr_m mrs) (Z.pos p))).
  - rewrite shr_1_div2 by done. rewrite Z.div2_spec. split; [| done].
    apply Z.shiftr_nonneg. done.
  - intros p a [Ha Heq]. rewrite shr_1_div2 by done.
    rewrite Heq, Z.div2_spec, Z.shiftr_shiftr by lia.
    split; [apply Z.shiftr_nonneg; done | f_equal; lia].
Qed.

Lemma shr_record_of_loc_m (m : Z) (l : location) :
  shr_m (shr_record_of_loc m l) = m.
Proof. by destruct l as [|[]]. Qed.

(** What a shift to the working precision leaves of a mantissa that is
    not negative. *)
Lemma shr_fexp_spec (m e : Z) (l : location) :
  0 <= m ->
  let s := fexp prec emax (Zdigits2 m + e) - e in
  shr_m (fst (shr_fexp prec emax m e l)) = (if 0 <? s then Z.shiftr m s else m)
  /\ snd (shr_fexp prec emax m e l) = (if 0 <? s then e + s else e).
Proof.
  intros Hm s. unfold shr_fexp. fold s. destruct s as [|p|p]; simpl.
  - by rewrite shr_record_of_loc_m.
  - rewrite shr_m_iter by (by rewrite shr_record_of_loc_m).
    by rewrite shr_record_of_loc_m.
  - by rewrite shr_record_of_loc_m.
Qed.

Lemma round_nearest_even_bounds (m : Z) (l : location) :
  m <= round_nearest_even m l <= m + 1.
Proof. destruct l as [|[]]; simpl; try lia. destruct (Z.even m); lia. Qed.

(** The outcome of rounding a mantissa that is not negative has the sign
    asked for: it is never NaN. *)
Lemma shr_fexp_nonneg (m e : Z) (l : location) :
  0 <= m -> 0 <= shr_m (fst (shr_fexp prec emax m e l)).
Proof.
  intros Hm. destruct (shr_fexp_spec m e l Hm) as [-> _].
  destruct (0 <? _); [by apply Z.shiftr_nonneg | done].
Qed.

Lemma binary_round_aux_signed (sx : bool) (mx ex : Z) (lx : location) :
  0 <= mx -> sf_signed sx (binary_round_aux prec emax sx mx ex lx).
Proof.
  intros Hm. unfold binary_round_aux.
  pose proof (shr_fexp_nonneg mx ex lx Hm) as H0.
  destruct (shr_fexp prec emax mx ex lx) as [mrs' e']; cbn [fst snd] in *.
  pose proof (round_nearest_even_bounds (shr_m mrs') (loc_of_shr_record mrs')) as Hr.
  set (m2 := round_nearest_even _ _) in *.
  assert (Hm2 : 0 <= m2) by lia.
  pose proof (shr_fexp_nonneg m2 e' loc_Exact Hm2) as H3.
  destruct (shr_fexp prec emax m2 e' loc_Exact) as [mrs'' e'']; cbn [fst snd] in *.
  destruct (shr_m mrs'') as [|p|p]; simpl; [done | by destruct (_ <=? _) | lia].
Qed.

Lemma binary_normalize_signed (m e : Z) :
  sf_not_nan (binary_normalize prec emax m e false)
  /\ (0 <= m -> sf_nonneg (binary_normalize prec emax m e false)).
Proof.
  assert (H : forall sx p, sf_signed sx (binary_round prec emax sx p e)).
  { intros sx p. unfold binary_round.
    destruct (shl_align _ _ _) as [mz ez]. by apply binary_round_aux_signed. }
  destruct m as [|p|p]; simpl.
  - done.
  - split; [| intros _; apply H]. specialize (H false p).
    by destruct (binary_round _ _ _ _ _).
  - split; [| lia]. specialize (H true p).
    by destruct (binary_round _ _ _ _ _).
Qed.

Lemma SFadd_nonneg (a b : spec_float) :
  sf_nonneg a -> sf_nonneg b -> sf_nonneg (SFadd prec emax a b).
Proof.
  destruct a as [[]|[]| |[] ma ea], b as [[]|[]| |[] mb eb]; try done.
  intros _ _. unfold SFadd, cond_Zopp.
  apply (proj2 (binary_normalize_signed _ _)). lia.
Qed.

Lemma SFadd_nan_l (b : spec_float) : SFadd prec emax S754_nan b = S754_nan.
Proof. done. Qed.

Lemma SFadd_nan_r (a : spec_float) : SFadd prec emax a S754_nan = S754_nan.
Proof. by destruct a as [[]|[]| |[] ma ea]. Qed.





Lemma SFdiv_zero (m : positive) (e : Z) :
  SFdiv prec emax (S754_zero false) (S754_finite false m e) = S754_zero false.
Proof. done. Qed.






End SpecFloatFacts.



(** ** The order of the distances *)

Section OrderFacts.
Import SpecFloat FloatOps Float64Aux.
Local Open Scope Z_scope.

Lemma SFltb_key (a b : spec_float) :
  sf_nonneg a -> sf_nonneg b ->
  SFltb a b = true <-> lex_lt (key a) (key b).
Proof.
  unfold lex_lt.
  destruct a as [[]|[]| |[] ma ea], b as [[]|[]| |[] mb eb]; try done;
    intros _ _; unfold SFltb, SFcompare; cbn [key fst snd];
    try (split; [done | lia]); try (split; [lia | done]).
  change (Pos.compare_cont Eq ma mb) with (Pos.compare ma mb).
  destruct (Z.compare_spec ea eb); [destruct (Pos.compare_spec ma mb) | |];
    split; intros; try done; try lia.
Qed.

Lemma key_inj (a b : spec_float) :
  sf_dist a -> sf_dist b -> key a = key b -> a = b.
Proof.
  intros [->|Ha] [->|Hb]; [done | | |].
  - by destruct b as [[]|[]| |[] mb eb].
  - by destruct a as [[]|[]| |[] ma ea].
  - destruct a as [[]|[]| |[] ma ea], b as [[]|[]| |[] mb eb]; try done.
    intros [= -> ->]. done.
Qed.

End OrderFacts.

(** ** Operations on floats *)

Section FloatFacts.

Import SpecFloat PrimFloat FloatOps FloatAxioms Float64Aux.
Local Open Scope float_scope.

Lemma SFeqb_refl (s : spec_float) : sf_not_nan s -> SFeqb s s = true.
Proof.
  destruct s as [[]|[]| |[] m e]; try done; intros _; unfold SFeqb, SFcompare;
    rewrite Z.compare_refl;
    change (Pos.compare_cont Eq m m) with (Pos.compare m m);
    by rewrite Pos.compare_refl.
Qed.

Lemma is_nan_spec (v : float) : is_nan v = true <-> Prim2SF v = S754_nan.
Proof.
  unfold is_nan. rewrite eqb_spec. destruct (Prim2SF v) eqn:Hv;
    try (rewrite SFeqb_refl by done; split; done). done.
Qed.

Lemma is_nan_false (v : float) : sf_not_nan (Prim2SF v) -> is_nan v = false.
Proof.
  intros Hv. destruct (is_nan v) eqn:Hn; [| done].
  apply is_nan_spec in Hn. by rewrite Hn in Hv.
Qed.


Lemma nan_unique (a b : float) :
  Prim2SF a = S754_nan -> Prim2SF b = S754_nan -> a = b.
Proof. intros Ha Hb. apply Prim2SF_inj. by rewrite Ha, Hb. Qed.






Lemma abs_dist_value (a : float) : dist_value (abs a).
Proof.
  unfold dist_value. rewrite abs_spec.
  destruct (Prim2SF a); [right | right | left | right]; done.
Qed.



Lemma add_dist_value (a b : float) :
  dist_value a -> dist_value b -> dist_value (a + b).
Proof.
  unfold dist_value. rewrite add_spec. intros [Ha|Ha] [Hb|Hb].
  - left. by rewrite Ha.
  - left. by rewrite Ha.
  - left. rewrite Hb. apply SFadd_nan_r.
  - right. by apply SFadd_nonneg.
Qed.

Lemma add_zero_zero : 0 + 0 = 0.
Proof. done. Qed.




(** ** [np.minimum] on distances *)

Import Binary64.

Lemma minimum_cases (a b : float) : np.minimum a b = a \/ np.minimum a b = b.
Proof. unfold np.minimum. destruct (_ || _); auto. Qed.

(** On distances [minimum] picks the argument with the smaller key, the
    second one on a tie. *)
Lemma minimum_key (a b : float) :
  dist_value a -> dist_value b ->
  (lex_lt (key (Prim2SF a)) (key (Prim2SF b)) /\ np.minimum a b = a)
  \/ (~ lex_lt (key (Prim2SF a)) (key (Prim2SF b)) /\ np.minimum a b = b).
Proof.
  unfold np.minimum, dist_value. rewrite ltb_spec. intros [Ha|Ha] [Hb|Hb].
  - right. rewrite (proj2 (is_nan_spec a) Ha), Ha, Hb. cbn.
    split; [unfold lex_lt; cbn; lia | by apply nan_unique].
  - left. rewrite (proj2 (is_nan_spec a) Ha), Ha. rewrite orb_true_r.
    split; [| done]. unfold lex_lt.
    destruct (Prim2SF b) as [[]|[]| |[] mb eb]; try done; cbn; lia.
  - right. rewrite Hb.
    rewrite is_nan_false by (by destruct (Prim2SF a) as [[]|[]| |[] m e]).
    replace (SFltb (Prim2SF a) S754_nan) with false
      by (by destruct (Prim2SF a) as [[]|[]| |[] m e]).
    split; [| done]. unfold lex_lt.
    destruct (Prim2SF a) as [[]|[]| |[] m e]; try done; cbn; lia.
  - rewrite is_nan_false by (by destruct (Prim2SF a) as [[]|[]| |[] m e]).
    rewrite orb_false_r.
    destruct (SFltb (Prim2SF a) (Prim2SF b)) eqn:Hlt.
    + left. split; [by apply SFltb_key | done].
    + right. split; [| done]. intros Hk. apply SFltb_key in Hk; try done.
      by rewrite Hk in Hlt.
Qed.

Lemma minimum_dist_value (a b : float) :
  dist_value a -> dist_value b -> dist_value (np.minimum a b).
Proof. intros Ha Hb. by destruct (minimum_cases a b) as [-> | ->]. Qed.


Lemma dist_value_inj (a b : float) :
  dist_value a -> dist_value b -> key (Prim2SF a) = key (Prim2SF b) -> a = b.
Proof. intros Ha Hb Hk. apply Prim2SF_inj. by apply key_inj. Qed.

(** [minimum] over distances does not depend on the order in which the
    distances come. *)
Lemma minimum_swap (a u v : float) :
  dist_value a -> dist_value u -> dist_value v ->
  np.minimum (np.minimum a u) v = np.minimum (np.minimum a v) u.
Proof.
  intros Ha Hu Hv.
  pose proof (minimum_dist_value a u Ha Hu) as Hau.
  pose proof (minimum_dist_value a v Ha Hv) as Hav.
  apply dist_value_inj; try (by apply minimum_dist_value).
  destruct (minimum_key a u Ha Hu) as [[K1 E1]|[K1 E1]];
    destruct (minimum_key a v Ha Hv) as [[K2 E2]|[K2 E2]];
    destruct (minimum_key _ v Hau Hv) as [[K3 E3]|[K3 E3]];
    destruct (minimum_key _ u Hav Hu) as [[K4 E4]|[K4 E4]];
    rewrite E3, E4; rewrite ?E1, ?E2 in *;
    destruct (key (Prim2SF a)) as [[a1 a2] a3];
    destruct (key (Prim2SF u)) as [[u1 u2] u3];
    destruct (key (Prim2SF v)) as [[v1 v2] v3];
    unfold lex_lt in *; cbn [fst snd] in *;
    try reflexivity; try (exfalso; lia);
    f_equal; [f_equal |]; lia.
Qed.

Lemma fold_minimum_dist_value (l : list float) (a : float) :
  Forall dist_value l -> dist_value a -> dist_value (fold_left np.minimum l a).
Proof.
  revert a; induction l as [|u l IH]; intros a Hl Ha; [done |].
  apply Forall_cons in Hl as [Hu Hl]. simpl.
  apply IH; [done | by apply minimum_dist_value].
Qed.


Lemma fold_minimum_perm (l l' : list float) (a : float) :
  l ≡ₚ l' -> Forall dist_value l -> dist_value a ->
  fold_left np.minimum l a = fold_left np.minimum l' a.
Proof.
  intros Hp. revert a.
  induction Hp as [|u l l' Hp IH|u v l|l l' l'' Hp IH Hp' IH'];
    intros a Hl Ha.
  - done.
  - apply Forall_cons in Hl as [Hu Hl]. simpl.
    apply IH; [done | by apply minimum_dist_value].
  - apply Forall_cons in Hl as [Hv Hl]. apply Forall_cons in Hl as [Hu Hl].
    simpl. f_equal. by apply minimum_swap.
  - rewrite IH by done. apply IH'; [| done]. by rewrite <- Hp.
Qed.

Lemma minimum_infinity_l (v : float) : np.minimum infinity v = v.
Proof.
  unfold np.minimum. rewrite ltb_spec.
  change (Prim2SF infinity) with (S754_infinity false).
  replace (SFltb (S754_infinity false) (Prim2SF v)) with false; [done |].
  by destruct (Prim2SF v) as [[]|[]| |[] m e].
Qed.

Lemma np_min_fold (l : list float) :
  l <> [] -> np.min l = ret (fold_left np.minimum l infinity).
Proof. destruct l as [|v l]; [done |]. intros _. simpl. by rewrite minimum_infinity_l. Qed.

Lemma np_min_perm64 (l l' : list float) :
  l ≡ₚ l' -> Forall dist_value l -> np.min l = np.min l'.
Proof.
  intros Hp Hl. destruct l as [|v l].
  { apply Permutation_nil_l in Hp. by subst. }
  assert (l' <> []) by (intros ->; by apply Permutation_nil_r in Hp).
  rewrite !np_min_fold by done. f_equal.
  apply fold_minimum_perm; try done. by right.
Qed.




End FloatFacts.

(** ** The loss in binary64 *)

Section Loss64Facts.

Import PrimFloat Float64Aux Binary64 LossAux64.
Local Open Scope float_scope.

Variable lm : libm.


(** The curve that [predict] samples, point by point. *)
Lemma predict64_points (self : ParametricModel.t) (ts : list float)
    (theta_deg m x : float) :
  zip (ParametricModel.predict lm self ts theta_deg m x).1
      (ParametricModel.predict lm self ts theta_deg m x).2
  = point lm self theta_deg m x <$> ts.
Proof.
  unfold ParametricModel.predict; cbn [fst snd].
  unfold np.adds, np.sadd, np.add, np.sub, np.mul, np.muls, np.smul,
    np.exp, np.sin, np.abs.
  induction ts as [|t ts IH]; [done |]. cbn. f_equal. exact IH.
Qed.

Lemma l1_distances64_zip (xc yc : list float) (xi yi : float) :
  L1Loss.l1_distances xc yc xi yi = (fun p => dist p (xi, yi)) <$> zip xc yc.
Proof.
  unfold L1Loss.l1_distances, np.add, np.abs, np.subs.
  revert yc; induction xc as [|a xc IH]; intros [|b yc]; simpl; try done.
  f_equal. apply IH.
Qed.

Lemma l1_distances64_nil (xc yc : list float) (xi yi : float) :
  L1Loss.l1_distances xc yc xi yi = [] <-> xc = [] \/ yc = [].
Proof.
  rewrite l1_distances64_zip. destruct xc, yc; simpl; split; intros H;
    try done; auto. by destruct H.
Qed.

Lemma dist_dist_value (p q : float * float) : dist_value (dist p q).
Proof. apply add_dist_value; apply abs_dist_value. Qed.



Lemma l1_distances64_dist_value (xc yc : list float) (xi yi : float) :
  Forall dist_value (L1Loss.l1_distances xc yc xi yi).
Proof.
  rewrite l1_distances64_zip. apply Forall_fmap, Forall_forall.
  intros p _. apply dist_dist_value.
Qed.


(** The loop returns the running sum of the closest distances, or stops
    at the exception of the first observation without a distance. *)
Lemma loop64_minima (xc yc xo yo : list float) (n a : nat) (total : float) :
  a + n <= length xo -> a + n <= length yo ->
  L1Loss.loop xc yc xo yo (seq a n) total
  = let* ds := minima xc yc (take n (drop a (zip xo yo))) in
    ret (running_sum ds total).
Proof.
  revert a total; induction n as [|n IH]; intros a total Hx Hy; [done |].
  destruct (lookup_lt_is_Some_2 xo a) as [xi Hxi]; [lia |].
  destruct (lookup_lt_is_Some_2 yo a) as [yi Hyi]; [lia |].
  assert (Hz : zip xo yo !! a = Some (xi, yi)).
  { rewrite lookup_zip_with, Hxi, Hyi. done. }
  rewrite (drop_S _ _ _ Hz). cbn [seq L1Loss.loop take minima].
  unfold np.getitem. rewrite Hxi, Hyi. cbn [bind ret].
  unfold closest; cbn [fst snd].
  destruct (np.min (L1Loss.l1_distances xc yc xi yi)) as [e|d]; [done |].
  cbn [bind ret]. rewrite IH by lia.
  by destruct (minima xc yc (take n (drop (S a) (zip xo yo)))).
Qed.

Lemma compute64_minima (self : L1Loss.t) (theta_deg m x : float)
    (t_grid x_obs y_obs : list float) :
  length x_obs = length y_obs ->
  L1Loss.compute lm self (theta_deg, m, x) t_grid x_obs y_obs
  = let* ds :=
      minima (ParametricModel.predict lm (L1Loss.model self) t_grid theta_deg m x).1
             (ParametricModel.predict lm (L1Loss.model self) t_grid theta_deg m x).2
             (zip x_obs y_obs) in
    L1Loss.truediv (running_sum ds 0) (length x_obs).
Proof.
  intros Hlen. unfold L1Loss.compute.
  destruct (ParametricModel.predict lm (L1Loss.model self) t_grid theta_deg m x)
    as [xc yc]; cbn [fst snd].
  rewrite loop64_minima by lia.
  rewrite drop_0, take_ge by (rewrite length_zip_with; lia).
  by destruct (minima xc yc (zip x_obs y_obs)).
Qed.

(** With a sample on the curve every observation has a closest distance. *)
Lemma minima_ok (xc yc : list float) (obs : list (float * float)) :
  xc <> [] -> yc <> [] ->
  minima xc yc obs
  = ret ((fun o => fold_left np.minimum
                     (L1Loss.l1_distances xc yc o.1 o.2) infinity) <$> obs).
Proof.
  intros Hxc Hyc. induction obs as [|o obs IH]; [done |].
  cbn [minima]. unfold closest.
  rewrite np_min_fold by (rewrite l1_distances64_nil; tauto).
  cbn [bind ret]. by rewrite IH.
Qed.

Lemma minima_empty_curve (xc yc : list float) (obs : list (float * float)) :
  xc = [] \/ yc = [] -> obs <> [] -> minima xc yc obs = inl ValueError.
Proof.
  intros Hc Hobs. destruct obs as [|o obs]; [done |].
  cbn [minima]. unfold closest.
  by rewrite (proj2 (l1_distances64_nil xc yc o.1 o.2) Hc).
Qed.

Lemma minima_perm (xc yc : list float) (obs obs' : list (float * float)) :
  obs ≡ₚ obs' -> same_up_to_order (minima xc yc obs) (minima xc yc obs').
Proof.
  intros Hp.
  destruct (decide (xc = [] \/ yc = [])) as [Hc|Hc].
  - destruct obs as [|o obs].
    { apply Permutation_nil_l in Hp. subst. cbn. reflexivity. }
    assert (obs' <> []) by (intros ->; by apply Permutation_nil_r in Hp).
    by rewrite !minima_empty_curve.
  - rewrite !minima_ok by tauto. cbn. by apply fmap_Permutation.
Qed.

Lemma minima_grid_perm (self : ParametricModel.t) (theta_deg m x : float)
    (t_grid t_grid' : list float) (obs : list (float * float)) :
  t_grid ≡ₚ t_grid' ->
  minima (ParametricModel.predict lm self t_grid' theta_deg m x).1
         (ParametricModel.predict lm self t_grid' theta_deg m x).2 obs
  = minima (ParametricModel.predict lm self t_grid theta_deg m x).1
           (ParametricModel.predict lm self t_grid theta_deg m x).2 obs.
Proof.
  intros Hp. induction obs as [|o obs IH]; [done |].
  cbn [minima]. rewrite IH. f_equal. unfold closest.
  symmetry. apply np_min_perm64; [| apply l1_distances64_dist_value].
  rewrite !l1_distances64_zip, !predict64_points. by rewrite Hp.
Qed.



End Loss64Facts.

Section Loss64Properties.

Import PrimFloat Float64Aux Binary64 LossAux64.
Local Open Scope float_scope.

Variable lm : libm.
Variable self : L1Loss.t.







End Loss64Properties.


(** C8, in binary64. The order of the grid does not matter: with [t_grid]
    permuted the outcome is the same. The order of the observations
    matters through the running sum only: [compute] divides by [N] the
    sum, taken in the order of the observations, of their distances to
    the closest sample, and with the pairs of [(x_obs, y_obs)] permuted
    these distances are the same up to their order. *)
Theorem compute_binary64_permutation (lm : Binary64.libm)
    (self : Binary64.L1Loss.t) (theta_deg m x : PrimFloat.float)
    (t_grid t_grid' x_obs y_obs x_obs' y_obs' : list PrimFloat.float) :
  length x_obs = length y_obs -> length x_obs' = length y_obs' ->
  zip x_obs y_obs ≡ₚ zip x_obs' y_obs' -> t_grid ≡ₚ t_grid' ->
  let compute := Binary64.L1Loss.compute lm self (theta_deg, m, x) in
  let curve :=
    Binary64.ParametricModel.predict lm (Binary64.L1Loss.model self)
      t_grid theta_deg m x in
  let curve' :=
    Binary64.ParametricModel.predict lm (Binary64.L1Loss.model self)
      t_grid' theta_deg m x in
  let mins := LossAux64.minima curve.1 curve.2 (zip x_obs y_obs) in
  let mins' := LossAux64.minima curve'.1 curve'.2 (zip x_obs' y_obs') in
  compute t_grid' x_obs y_obs = compute t_grid x_obs y_obs
  /\ compute t_grid x_obs y_obs
     = (let* ds := mins in
        Binary64.L1Loss.truediv (LossAux64.running_sum ds PrimFloat.zero) (length x_obs))
  /\ compute t_grid' x_obs' y_obs'
     = (let* ds := mins' in
        Binary64.L1Loss.truediv (LossAux64.running_sum ds PrimFloat.zero) (length x_obs))
  /\ LossAux64.same_up_to_order mins mins'.
Proof.
  intros Hlen Hlen' Hobs Hgrid compute curve curve' mins mins'.
  assert (HN : length x_obs' = length x_obs).
  { apply Permutation_length in Hobs. rewrite !length_zip_with in Hobs. lia. }
  subst compute mins mins' curve curve'. cbn zeta.
  rewrite !compute64_minima by done. rewrite HN.
  rewrite !(minima_grid_perm lm _ _ _ _ t_grid t_grid') by done.
  repeat split. by apply minima_perm.
Qed.

(** *** The loss at sample inputs in binary64 *)



Lemma compute_binary64_permutation_witness :
  Binary64.L1Loss.compute Sample64.lm Sample64.loss
    (PrimFloat.zero, PrimFloat.zero, PrimFloat.zero)
    Sample64.grid_rev Sample64.x_obs Sample64.y_obs
  = Binary64.L1Loss.compute Sample64.lm Sample64.loss
      (PrimFloat.zero, PrimFloat.zero, PrimFloat.zero)
      Sample64.grid Sample64.x_obs Sample64.y_obs.
Proof.
  exact (proj1 (compute_binary64_permutation Sample64.lm Sample64.loss
                  PrimFloat.zero PrimFloat.zero PrimFloat.zero
                  Sample64.grid Sample64.grid_rev
                  Sample64.x_obs Sample64.y_obs Sample64.x_obs_rev Sample64.y_obs
                  eq_refl eq_refl
                  (Permutation_rev (zip Sample64.x_obs Sample64.y_obs))
                  (Permutation_rev Sample64.grid))).
Defined.

(** The same three observations in the opposite order give another loss:
    the running sum rounds differently. *)
Lemma compute_binary64_order_of_observations :
  zip Sample64.x_obs Sample64.y_obs ≡ₚ zip Sample64.x_obs_rev Sample64.y_obs
  /\ Binary64.L1Loss.compute Sample64.lm Sample64.loss Sample64.params
       Sample64.origin Sample64.x_obs Sample64.y_obs
     = inr Sample64.loss_obs
  /\ Binary64.L1Loss.compute Sample64.lm Sample64.loss Sample64.params
       Sample64.origin Sample64.x_obs_rev Sample64.y_obs
     = inr Sample64.loss_obs_rev
  /\ PrimFloat.eqb Sample64.loss_obs Sample64.loss_obs_rev = false.
Proof.
  split; [exact (Permutation_rev (zip Sample64.x_obs Sample64.y_obs)) |].
  repeat split; vm_compute; reflexivity.
Qed.
